(** * Massage therapist finder: column resolver and filter/sort pipeline

    A shallow embedding of [massage_filter.py] (the command-line entry
    point), with the properties of the column resolver and of the predicate
    and sort pipeline that the design document states, and of
    [massage_filter_app.py] (the interactive form) as far as Python runs it.

    Conventions of the model.
    - Text is ASCII: [lower] and [strip] act on the ASCII letters and the
      ASCII white space; other bytes are left alone.
    - Numbers are exact rationals ([Q]); infinities and rounding are outside
      the model.
    - The pandas primitives follow pandas 1.x/2.x: [astype(str)] renders a
      missing cell as the text nan, [to_numeric(errors="coerce")] turns text
      that is not a number into a missing value, [sort_values] puts missing
      values last, uses the stable lexsort for two or more keys and numpy's
      default quicksort for exactly one, and an empty [Series] built from an
      empty list has dtype object.
    - What the libraries leave open is a parameter of the development: how a
      number is printed, which texts parse as numbers, the regular
      expression engine, and the order in which quicksort leaves ties; module
      [Numpy] gives numpy's quicksort on a column of text. *)

From Stdlib Require Import String Ascii List Bool Arith ZArith QArith Lia.
From Stdlib Require Import Permutation Sorted DecimalString.
From Stdlib Require OrderedTypeEx.
From stdpp Require Import gmap strings.
Import ListNotations.

Local Open Scope string_scope.
Local Open Scope list_scope.

#[local] Arguments String.append !s1 s2 : simpl nomatch.

(** ** Python strings *)

Module Py.

Definition is_upper (c : ascii) : bool :=
  let n := nat_of_ascii c in (65 <=? n)%nat && (n <=? 90)%nat.

Definition lower_ascii (c : ascii) : ascii :=
  if is_upper c then ascii_of_nat (nat_of_ascii c + 32) else c.

(** [s.lower()] *)
Fixpoint lower (s : string) : string :=
  match s with
  | EmptyString => EmptyString
  | String c r => String (lower_ascii c) (lower r)
  end.

(** White space as [str.strip()] sees it: tab, line feed, vertical tab,
    form feed, carriage return, the four separators 28..31, and space. *)
Definition is_space (c : ascii) : bool :=
  let n := nat_of_ascii c in
  ((9 <=? n)%nat && (n <=? 13)%nat) || ((28 <=? n)%nat && (n <=? 32)%nat).

Fixpoint lstrip (s : string) : string :=
  match s with
  | EmptyString => EmptyString
  | String c r => if is_space c then lstrip r else s
  end.

Fixpoint rstrip (s : string) : string :=
  match s with
  | EmptyString => EmptyString
  | String c r =>
      match rstrip r with
      | EmptyString => if is_space c then EmptyString else String c EmptyString
      | r' => String c r'
      end
  end.

(** [s.strip()] *)
Definition strip (s : string) : string := lstrip (rstrip s).

(** [s.startswith(p)] *)
Fixpoint startswith (p s : string) : bool :=
  match p, s with
  | EmptyString, _ => true
  | String _ _, EmptyString => false
  | String a p', String b s' => Ascii.eqb a b && startswith p' s'
  end.

(** [n in h] on strings: [n] occurs in [h] as a contiguous run. *)
Fixpoint str_in (n h : string) : bool :=
  startswith n h ||
  match h with
  | EmptyString => false
  | String _ r => str_in n r
  end.

(** Truth value of a string: non-empty. *)
Definition truthy (s : string) : bool :=
  match s with EmptyString => false | String _ _ => true end.

(** Truth value of an optional string ([None] and the empty text are false). *)
Definition truthy_opt (o : option string) : bool :=
  match o with Some s => truthy s | None => false end.

(** [re.split(r"[...]", s)] for a character class, and [s.split(c)]: cut at
    every separator, keeping empty pieces. *)
Fixpoint split_on (sep : ascii -> bool) (s : string) : list string :=
  match s with
  | EmptyString => [EmptyString]
  | String c r =>
      if sep c then EmptyString :: split_on sep r
      else match split_on sep r with
           | [] => [String c EmptyString]
           | x :: xs => String c x :: xs
           end
  end.

Definition is_comma (c : ascii) : bool := Ascii.eqb c ","%char.
Definition is_comma_or_semicolon (c : ascii) : bool :=
  Ascii.eqb c ";"%char || Ascii.eqb c ","%char.

(** [k[1:]] *)
Definition drop_first (s : string) : string :=
  match s with EmptyString => EmptyString | String _ r => r end.

End Py.

(** ** pandas data *)

(** A decoded cell: missing, a number, text, or a boolean. *)
Inductive cell : Type :=
  | NaN
  | Num (q : Q)
  | Str (s : string)
  | Bool (b : bool).

(** A frame: the headers and the rows, each row aligned with the headers. *)
Record DataFrame : Type := { columns : list string; rows : list (list cell) }.

Inductive exn : Type := ValueError | KeyError | TypeError | ReError | SyntaxError.

Inductive result (A : Type) : Type :=
  | Ok (a : A)
  | Raise (e : exn).
Arguments Ok {A} a.
Arguments Raise {A} e.

(** What Python orders with [<]: numbers (booleans count as 0 and 1) and text. *)
Inductive skey : Type := KNum (q : Q) | KStr (s : string).

(** The library behaviour the program does not fix. *)
Record Lib : Type := {
  (** [str(x)] of a number *)
  num_str : Q -> string;
  (** [pandas.to_numeric] on a text cell; [None] is the coerced missing value *)
  parse_number : string -> option Q;
  (** [re.compile(p).search]; [None] when [p] is not a pattern *)
  re_compile : string -> option (string -> bool);
  (** [ndarray.argsort(kind="quicksort")] *)
  quicksort : list skey -> list nat
}.

Definition bool_num (b : bool) : Q := if b then 1%Q else 0%Q.

Definition key_of (c : cell) : option skey :=
  match c with
  | NaN => None
  | Num q => Some (KNum q)
  | Str s => Some (KStr s)
  | Bool b => Some (KNum (bool_num b))
  end.

Definition isna (c : cell) : bool :=
  match c with NaN => true | _ => false end.

(** Order of two sort keys. Python does not compare a number with a text;
    where pandas codes a column that holds both ([lexsort_indexer], through
    the sorted categories of a [Categorical]) the numbers come before the
    texts. *)
Definition skey_cmp (a b : skey) : comparison :=
  match a, b with
  | KNum x, KNum y => Qcompare x y
  | KStr s, KStr t => String.compare s t
  | KNum _, KStr _ => Lt
  | KStr _, KNum _ => Gt
  end.

Definition skey_leb (a b : skey) : bool :=
  match skey_cmp a b with Gt => false | _ => true end.

Definition is_knum (k : skey) : bool := match k with KNum _ => true | KStr _ => false end.

(** The present values of a column can be ordered: all numbers or all text. *)
Definition sortable (col : list cell) : bool :=
  let ks := omap key_of col in
  forallb is_knum ks || forallb (fun k => negb (is_knum k)) ks.

Fixpoint index_of (h : string) (hs : list string) : option nat :=
  match hs with
  | [] => None
  | x :: r => if String.eqb x h then Some 0%nat else option_map S (index_of h r)
  end.

(** [row[h]]; a header that is absent reads as missing (the program only
    looks up headers of the frame). *)
Definition get_cell (hs : list string) (r : list cell) (h : string) : cell :=
  match index_of h hs with
  | Some i => nth i r NaN
  | None => NaN
  end.

(** [df[h]] *)
Definition column (df : DataFrame) (h : string) : list cell :=
  map (fun r => get_cell (columns df) r h) (rows df).

Definition has_column (df : DataFrame) (h : string) : bool :=
  existsb (String.eqb h) (columns df).

(** [df[hs]]: the columns [hs], in that order. *)
Definition select (df : DataFrame) (hs : list string) : DataFrame :=
  {| columns := hs;
     rows := map (fun r => map (get_cell (columns df) r) hs) (rows df) |}.

(** [df[hs]] for a list of labels, with its failure: [KeyError] when a label
    is not a header of the frame. *)
Definition getitem (df : DataFrame) (hs : list string) : result DataFrame :=
  if forallb (has_column df) hs then Ok (select df hs) else Raise KeyError.

(** *** Sorting *)

Fixpoint insert_by {A : Type} (leb : A -> A -> bool) (x : A) (l : list A) : list A :=
  match l with
  | [] => [x]
  | y :: r => if leb x y then x :: l else y :: insert_by leb x r
  end.

(** Insertion sort; an element goes in front of the ones it is [leb] to, so
    with a [leb] that holds on ties the sort is stable. *)
Fixpoint isort {A : Type} (leb : A -> A -> bool) (l : list A) : list A :=
  match l with
  | [] => []
  | x :: r => insert_by leb x (isort leb r)
  end.

(** Order of two cells under one key as [lexsort_indexer] codes them:
    missing values get the largest code in either direction, the codes of
    the present values are reversed for a descending key. *)
Definition code_cmp (asc : bool) (a b : cell) : comparison :=
  match key_of a, key_of b with
  | None, None => Eq
  | None, Some _ => Gt
  | Some _, None => Lt
  | Some x, Some y => if asc then skey_cmp x y else skey_cmp y x
  end.

Fixpoint lex_cmp (hs : list string) (keys : list (string * bool))
    (r1 r2 : list cell) : comparison :=
  match keys with
  | [] => Eq
  | (h, asc) :: ks =>
      match code_cmp asc (get_cell hs r1 h) (get_cell hs r2 h) with
      | Eq => lex_cmp hs ks r1 r2
      | c => c
      end
  end.

Definition lex_leb (hs : list string) (keys : list (string * bool))
    (r1 r2 : list cell) : bool :=
  match lex_cmp hs keys r1 r2 with Gt => false | _ => true end.

(** [numpy.lexsort] over the codes: a stable sort on the tuple of keys. *)
Definition lexsort (hs : list string) (keys : list (string * bool))
    (rs : list (list cell)) : list (list cell) :=
  isort (lex_leb hs keys) rs.

(** [a[idx]] for a list of positions. *)
Definition take {A : Type} (d : A) (idx : list nat) (l : list A) : list A :=
  map (fun i => nth i l d) idx.

(** [nargsort(items, kind="quicksort", ascending, na_position="last")]:
    the positions of the present values, sorted (for a descending key the
    values are reversed, sorted, and the outcome reversed again), followed by
    the positions of the missing values in their original order. *)
Definition nargsort (L : Lib) (items : list cell) (ascending : bool) : list nat :=
  let idx := seq 0 (length items) in
  let present := fun i => negb (isna (nth i items NaN)) in
  let non_nan_idx := List.filter present idx in
  let nan_idx := List.filter (fun i => negb (present i)) idx in
  let non_nan_idx := if ascending then non_nan_idx else rev non_nan_idx in
  let non_nans := omap (fun i => key_of (nth i items NaN)) non_nan_idx in
  let indexer := take 0%nat (quicksort L non_nans) non_nan_idx in
  let indexer := if ascending then indexer else rev indexer in
  indexer ++ nan_idx.

(** [df.sort_values(by=by, ascending=ascending)]. With one key the column is
    sorted by [nargsort], whose quicksort compares the values themselves and
    fails on a column that holds both numbers and text; with two or more keys
    the columns are coded first and [lexsort] orders the codes. *)
Definition sort_values (L : Lib) (df : DataFrame) (by_ : list string)
    (ascending : list bool) : result DataFrame :=
  if negb (length by_ =? length ascending)%nat then Raise ValueError
  else if negb (forallb (has_column df) by_) then Raise KeyError
  else
    match by_, ascending with
    | [h], [asc] =>
        if sortable (column df h) then
          Ok {| columns := columns df;
                rows := take [] (nargsort L (column df h) asc) (rows df) |}
        else Raise TypeError
    | _, _ =>
        Ok {| columns := columns df;
              rows := lexsort (columns df) (combine by_ ascending) (rows df) |}
    end.

(** *** Conversions *)

(** [Series.astype(str)] and [str(x)] on one cell. *)
Definition astype_str (L : Lib) (c : cell) : string :=
  match c with
  | NaN => "nan"
  | Num q => num_str L q
  | Str s => s
  | Bool true => "True"
  | Bool false => "False"
  end.

(** [pandas.to_numeric(..., errors="coerce")] on one cell. *)
Definition to_numeric (L : Lib) (c : cell) : option Q :=
  match c with
  | NaN => None
  | Num q => Some q
  | Str s => parse_number L s
  | Bool b => Some (bool_num b)
  end.

(** [Series.ge] and [Series.le] against a scalar: false on a missing value. *)
Definition ge (v : option Q) (bound : Q) : bool :=
  match v with Some x => Qle_bool bound x | None => false end.

Definition le (v : option Q) (bound : Q) : bool :=
  match v with Some x => Qle_bool x bound | None => false end.

Inductive dtype : Type := object | bool_ | float64.

Definition is_bool_cell (c : cell) : bool := match c with Bool _ => true | _ => false end.
Definition is_number_cell (c : cell) : bool :=
  match c with Num _ | Bool _ => true | _ => false end.
Definition is_text_cell (c : cell) : bool := match c with Str _ => true | _ => false end.

(** The dtype pandas gives a column: booleans only, numbers with missing
    values, or objects. *)
Definition dtype_of (col : list cell) : dtype :=
  if forallb is_bool_cell col then bool_
  else if forallb (fun c => negb (is_text_cell c) && negb (is_bool_cell c)) col then float64
  else object.

(** [bool(x)] of a cell's value; [bool(nan)] is true. *)
Definition astype_bool (c : cell) : bool :=
  match c with
  | NaN => true
  | Num q => negb (Qeq_bool q 0)
  | Str s => Py.truthy s
  | Bool b => b
  end.

(** ** Column resolver *)

Definition ALIASES : list (string * list string) :=
  [ ("name", ["name"; "therapist"; "provider"]);
    ("city", ["city"; "location_city"; "town"]);
    ("neighborhood", ["neighborhood"; "area"; "district"; "borough"]);
    ("price", ["price"; "rate"; "fee"; "session_cost"]);
    ("currency", ["currency"; "price_currency"]);
    ("rating", ["rating"; "score"; "stars"]);
    ("reviews", ["reviews"; "review_count"]);
    ("modalities", ["modalities"; "techniques"; "specialties"; "services"]);
    ("gender", ["gender"; "therapist_gender"]);
    ("languages", ["languages"; "language"]);
    ("mobileservice", ["mobileservice"; "mobile"; "in_home"; "house_call"]);
    ("availability", ["availability"; "hours"; "schedule"]);
    ("yearsexperience", ["yearsexperience"; "experience_years"; "yrs_exp"; "experience"]);
    ("credentials", ["credentials"; "license"; "certifications"]);
    ("bio", ["bio"; "about"; "description"; "summary"]) ].

(** [key in ALIASES] *)
Definition in_ALIASES (k : string) : bool :=
  existsb (fun e => String.eqb k (fst e)) ALIASES.

(** [{c.lower(): c for c in df.columns}]: a later header overwrites an
    earlier one with the same lower-case form. *)
Definition lowered_headers (hs : list string) : gmap string string :=
  foldl (fun m c => <[Py.lower c := c]> m) ∅ hs.

(** The inner loop of [autodetect_columns]: the header of the first alias
    that is a key of [cols]. *)
Fixpoint first_alias (cols : gmap string string) (aliases : list string) : option string :=
  match aliases with
  | [] => None
  | a :: r =>
      match cols !! a with
      | Some c => Some c
      | None => first_alias cols r
      end
  end.

Definition autodetect_columns (df : DataFrame) : gmap string (option string) :=
  let cols := lowered_headers (columns df) in
  foldl (fun m e => <[fst e := first_alias cols (snd e)]> m) ∅ ALIASES.

(** [mapping.get(k)] *)
Definition get (mapping : gmap string (option string)) (k : string) : option string :=
  default None (mapping !! k).

(** The order in which the resolved fields are put in front. *)
Definition PREFERRED_ORDER : list string :=
  [ "name"; "city"; "neighborhood"; "price"; "currency"; "rating"; "reviews";
    "modalities"; "gender"; "languages"; "mobileservice"; "availability";
    "yearsexperience"; "credentials"; "bio" ].

(** [mapping.get(k) if mapping.get(k)]: the header a field resolves to,
    when it does. *)
Definition resolved (mapping : gmap string (option string)) (k : string) : option string :=
  match get mapping k with
  | Some h => if Py.truthy h then Some h else None
  | None => None
  end.

(** [[mapping.get(k) for k in [...] if mapping.get(k)]] *)
Definition preferred (mapping : gmap string (option string)) : list string :=
  omap (resolved mapping) PREFERRED_ORDER.

(** [[c for c in result.columns if c not in preferred]] *)
Definition trailing (cols pref : list string) : list string :=
  List.filter (fun c => negb (existsb (String.eqb c) pref)) cols.

(** [result[preferred + trailing]] on a frame that has the preferred
    headers. *)
Definition reorder (mapping : gmap string (option string)) (df : DataFrame) : DataFrame :=
  let pref := preferred mapping in
  select df (pref ++ trailing (columns df) pref).

(** ** Criteria *)

(** [contains_all] of the command-line program. *)
Definition contains_all (haystack : string) (needles : list string) : bool :=
  let h := Py.lower haystack in
  forallb (fun n => Py.str_in (Py.lower n) h) needles.

(** [[x.strip() for x in re.split(r"[;,]", s) if x.strip()]] *)
Definition split_strip (s : string) : list string :=
  map Py.strip
    (List.filter (fun x => Py.truthy (Py.strip x))
       (Py.split_on Py.is_comma_or_semicolon s)).

(** [[k.strip() for k in s.split(",") if k.strip()]] *)
Definition sort_tokens (s : string) : list string :=
  map Py.strip
    (List.filter (fun x => Py.truthy (Py.strip x)) (Py.split_on Py.is_comma s)).

Definition nonempty {A : Type} (l : list A) : bool :=
  match l with [] => false | _ :: _ => true end.

Section Criteria.

Context (L : Lib) (df : DataFrame) (mapping : gmap string (option string)).

(** [col(canon)] *)
Definition col (canon : string) : option string := get mapping canon.

(** [if active and col(field): mask &= test(df[col(field)])], seen from one
    row: the row stays unless the criterion is on, the field is resolved
    and the test fails. *)
Definition guarded (active : bool) (field : string) (test : cell -> bool)
    (r : list cell) : bool :=
  match col field with
  | Some h => if active && Py.truthy h then test (get_cell (columns df) r h) else true
  | None => true
  end.

(** [.astype(str).str.lower().eq(v.lower())] *)
Definition eq_lower (v : string) (c : cell) : bool :=
  String.eqb (Py.lower (astype_str L c)) (Py.lower v).

(** [.astype(str).str.lower().str.contains(pat, na=False)] with the pattern
    already compiled to [search]. *)
Definition contains_lower (search : string -> bool) (c : cell) : bool :=
  search (Py.lower (astype_str L c)).

(** [pd.to_numeric(..., errors="coerce").ge(bound)] *)
Definition num_ge (bound : Q) (c : cell) : bool := ge (to_numeric L c) bound.

Definition num_le (bound : Q) (c : cell) : bool := le (to_numeric L c) bound.

(** The mobile-service test: text membership on an object column, the
    boolean value otherwise. *)
Definition mobile_truthy (h : string) (c : cell) : bool :=
  match dtype_of (column df h) with
  | object =>
      existsb (String.eqb (Py.lower (astype_str L c))) ["true"; "yes"; "y"; "1"]
  | _ => astype_bool c
  end.

Definition mobile_ok (active : bool) (r : list cell) : bool :=
  match col "mobileservice" with
  | Some h => if active && Py.truthy h then mobile_truthy h (get_cell (columns df) r h) else true
  | None => true
  end.

(** [.astype(str).apply(lambda s: contains_all(s, req))] *)
Definition all_in (req : list string) (c : cell) : bool :=
  contains_all (astype_str L c) req.

(** [.astype(str).str.lower().apply(lambda s: any(d in s for d in req_days))] *)
Definition any_day (req_days : list string) (c : cell) : bool :=
  let s := Py.lower (astype_str L c) in
  existsb (fun d => Py.str_in d s) req_days.

(** The text that [text_ok] searches: for each of bio and credentials that
    is resolved, a space and the cell's text. *)
Definition block (r : list cell) : string :=
  let part := fun o =>
    match o with
    | Some h =>
        if Py.truthy h then (" " ++ astype_str L (get_cell (columns df) r h))%string
        else ""
    | None => ""
    end in
  (part (col "bio") ++ part (col "credentials"))%string.

End Criteria.

Definition is_set (o : option Q) : bool :=
  match o with Some _ => true | None => false end.

(** The key of one sort token, without its direction marker. *)
Definition sort_key (k : string) : string :=
  if Py.startswith "-" k then Py.drop_first k else k.

Definition warning (key : string) : string :=
  ("Warning: sort key '" ++ key ++ "' not found; ignored.")%string.

(** ** The command-line entry point ([massage_filter.py]) *)

Module Cli.

Record Args : Type := {
  city : option string;
  neighborhood : option string;
  gender : option string;
  modalities : option string;
  languages : option string;
  price_min : option Q;
  price_max : option Q;
  rating_min : option Q;
  reviews_min : option Q;
  years_min : option Q;
  mobile : bool;
  text : option string;
  available : option string;
  sort : option string
}.

Definition split_list (s : option string) : list string :=
  match s with
  | Some s => if Py.truthy s then split_strip s else []
  | None => []
  end.

Section Run.

Context (L : Lib) (df : DataFrame) (a : Args).

Definition req_modalities : list string := split_list (modalities a).
Definition req_languages : list string := split_list (languages a).
Definition req_text : list string := split_list (text a).
Definition req_days : list string :=
  map (fun d => Py.lower (Py.strip d)) (split_list (available a)).

Definition at_least (bound : option Q) (c : cell) : bool :=
  match bound with Some v => num_ge L v c | None => true end.

Definition at_most (bound : option Q) (c : cell) : bool :=
  match bound with Some v => num_le L v c | None => true end.

Definition text_ok (mapping : gmap string (option string)) (r : list cell) : bool :=
  contains_all (block L df mapping r) req_text.

Section Row.

Context (mapping : gmap string (option string)) (r : list cell).

Definition city_ok : bool :=
  guarded df mapping (Py.truthy_opt (city a)) "city"
    (eq_lower L (default "" (city a))) r.

Definition neighborhood_ok (search : string -> bool) : bool :=
  guarded df mapping (Py.truthy_opt (neighborhood a)) "neighborhood"
    (contains_lower L search) r.

Definition gender_ok : bool :=
  guarded df mapping (Py.truthy_opt (gender a)) "gender"
    (eq_lower L (default "" (gender a))) r.

Definition price_ok : bool :=
  guarded df mapping true "price"
    (fun c => at_least (price_min a) c && at_most (price_max a) c) r.

Definition rating_ok : bool :=
  guarded df mapping (is_set (rating_min a)) "rating" (at_least (rating_min a)) r.

Definition reviews_ok : bool :=
  guarded df mapping (is_set (reviews_min a)) "reviews" (at_least (reviews_min a)) r.

Definition years_ok : bool :=
  guarded df mapping (is_set (years_min a)) "yearsexperience"
    (at_least (years_min a)) r.

Definition modalities_ok : bool :=
  guarded df mapping (nonempty req_modalities) "modalities"
    (all_in L req_modalities) r.

Definition languages_ok : bool :=
  guarded df mapping (nonempty req_languages) "languages"
    (all_in L req_languages) r.

Definition availability_ok : bool :=
  guarded df mapping (nonempty req_days) "availability" (any_day L req_days) r.

Definition text_all_ok : bool :=
  if nonempty req_text then text_ok mapping r else true.

(** The conjunction that [mask] accumulates, for one row. *)
Definition keep (search : string -> bool) : bool :=
  city_ok && neighborhood_ok search && gender_ok && price_ok && rating_ok
  && reviews_ok && years_ok && mobile_ok L df mapping (mobile a) r
  && modalities_ok && languages_ok && availability_ok && text_all_ok.

End Row.

(** The pattern of the neighbourhood criterion is compiled once, when the
    criterion is on. *)
Definition neighborhood_search (mapping : gmap string (option string))
    : result (string -> bool) :=
  if Py.truthy_opt (neighborhood a) && Py.truthy_opt (col mapping "neighborhood") then
    match re_compile L (Py.lower (default "" (neighborhood a))) with
    | Some f => Ok f
    | None => Raise ReError
    end
  else Ok (fun _ => true).

(** The rows that [df[mask]] selects. *)
Definition filter_rows (mapping : gmap string (option string))
    : result (list (list cell)) :=
  match neighborhood_search mapping with
  | Ok search => Ok (List.filter (fun r => keep mapping r search) (rows df))
  | Raise e => Raise e
  end.

(** Whether one of the [mask &= ...] statements runs: its criterion is given
    and its field is resolved; the keyword criterion runs whenever keywords
    are given. *)
Definition mask_updated (mapping : gmap string (option string)) : bool :=
  let on := fun field => Py.truthy_opt (col mapping field) in
  (Py.truthy_opt (city a) && on "city")
  || (Py.truthy_opt (neighborhood a) && on "neighborhood")
  || (Py.truthy_opt (gender a) && on "gender")
  || (on "price" && (is_set (price_min a) || is_set (price_max a)))
  || (is_set (rating_min a) && on "rating")
  || (is_set (reviews_min a) && on "reviews")
  || (is_set (years_min a) && on "yearsexperience")
  || (mobile a && on "mobileservice")
  || (nonempty req_modalities && on "modalities")
  || (nonempty req_languages && on "languages")
  || (nonempty req_days && on "availability")
  || nonempty req_text.

(** [result = df[mask].copy()], given the rows the mask selects. [mask]
    starts as [pd.Series([True] * len(df))]: on a frame without rows that is
    an empty Series of dtype object, and only a [mask &= ...] makes it a
    Series of booleans. [df[mask]] reads a Series of booleans as a row mask;
    an empty Series of objects it reads as an empty list of column labels,
    and returns the frame without its columns. *)
Definition masked (mapping : gmap string (option string)) (rs : list (list cell))
    : DataFrame :=
  if nonempty (rows df) || mask_updated mapping
  then {| columns := columns df; rows := rs |}
  else select df [].

(** The loop over the sort tokens: the columns to sort by, their
    directions, and the warnings written to the error stream. *)
Fixpoint resolve (cols : list string) (mapping : gmap string (option string))
    (keys : list string) : list string * list bool * list string :=
  match keys with
  | [] => ([], [], [])
  | k :: rest =>
      let desc := Py.startswith "-" k in
      let key := sort_key k in
      let key_lower := Py.lower key in
      let '(by_, ascending, warnings) := resolve cols mapping rest in
      if existsb (String.eqb key) cols then
        (key :: by_, negb desc :: ascending, warnings)
      else if in_ALIASES key_lower && Py.truthy_opt (get mapping key_lower) then
        (default "" (get mapping key_lower) :: by_, negb desc :: ascending, warnings)
      else
        match List.filter (fun c => String.eqb (Py.lower c) key_lower) cols with
        | m :: _ => (m :: by_, negb desc :: ascending, warnings)
        | [] => (by_, ascending, warning key :: warnings)
        end
  end.

Definition sort_stage (mapping : gmap string (option string)) (result_ : DataFrame)
    : list string * result DataFrame :=
  if Py.truthy_opt (sort a) then
    let '(by_, ascending, warnings) :=
      resolve (columns result_) mapping (sort_tokens (default "" (sort a))) in
    (warnings,
     if nonempty by_ then sort_values L result_ by_ ascending else Ok result_)
  else ([], Ok result_).

(** [main], from the decoded frame to the frame handed to the exporter,
    with the lines written to the error stream. *)
Definition main : list string * result DataFrame :=
  let mapping := autodetect_columns df in
  match filter_rows mapping with
  | Raise e => ([], Raise e)
  | Ok rs =>
      let '(warnings, sorted) := sort_stage mapping (masked mapping rs) in
      (warnings,
       match sorted with
       | Ok r =>
           let pref := preferred mapping in
           getitem r (pref ++ trailing (columns r) pref)
       | Raise e => Raise e
       end)
  end.

End Run.

End Cli.

(** ** The interactive entry point ([massage_filter_app.py]) *)

Module App.

(** The values of the sidebar widgets. *)
Record Form : Type := {
  city : string;
  neighborhood : string;
  gender : string;
  price_min : Q;
  price_max : Q;
  rating_min : Q;
  reviews_min : Q;
  years_min : Q;
  mobile : bool;
  modalities : string;
  languages : string;
  days : string;
  keywords : string;
  sort_keys : string
}.

(** One run of the script, from the uploaded frame and the values of the
    widgets to the frame that is shown and offered for download. Python
    compiles a file as a whole before it runs its first statement. Line 109
    of the script builds the list of requested modalities with
    [for x in re_split := __import__("re").split(...)], an assignment
    expression without parentheses where the grammar of a comprehension wants
    the iterable: the compiler rejects the file, and every run ends in
    [SyntaxError] before the upload or a widget is read. *)
Definition run (L : Lib) (df : DataFrame) (f : Form) : result DataFrame :=
  Raise SyntaxError.

End App.

(** ** A request as command-line arguments and as form values *)

(** How a request given as command-line arguments is entered in the form: a
    text that was not given is the empty field, a bound that was not given
    is the widget's initial 0. *)
Definition form_of_args (a : Cli.Args) : App.Form :=
  {| App.city := default "" (Cli.city a);
     App.neighborhood := default "" (Cli.neighborhood a);
     App.gender := default "" (Cli.gender a);
     App.price_min := default 0%Q (Cli.price_min a);
     App.price_max := default 0%Q (Cli.price_max a);
     App.rating_min := default 0%Q (Cli.rating_min a);
     App.reviews_min := default 0%Q (Cli.reviews_min a);
     App.years_min := default 0%Q (Cli.years_min a);
     App.mobile := Cli.mobile a;
     App.modalities := default "" (Cli.modalities a);
     App.languages := default "" (Cli.languages a);
     App.days := default "" (Cli.available a);
     App.keywords := default "" (Cli.text a);
     App.sort_keys := default "" (Cli.sort a) |}.

(** A sort token that names a column: its key is a header, or a canonical
    field name that is resolved (the first two lookups of the loop). *)
Definition names_column (cols : list string) (mapping : gmap string (option string))
    (k : string) : bool :=
  existsb (String.eqb (sort_key k)) cols
  || (in_ALIASES (Py.lower (sort_key k))
      && Py.truthy_opt (get mapping (Py.lower (sort_key k)))).

(** A sort token that the command line resolves: it names a column, or a
    header is equal to its key up to case. *)
Definition cli_resolves (cols : list string) (mapping : gmap string (option string))
    (k : string) : bool :=
  names_column cols mapping k
  || nonempty (List.filter (fun c => String.eqb (Py.lower c) (Py.lower (sort_key k))) cols).

(** ** Statements about the libraries *)

Definition skey_default : skey := KNum 0.

(** What [argsort] promises whatever the algorithm: the positions of the
    input, each once, in an order that makes the values ascend. *)
Definition argsort_ok (f : list skey -> list nat) : Prop :=
  forall l,
    Permutation (f l) (seq 0 (length l)) /\
    Sorted (fun x y => skey_leb x y = true) (take skey_default (f l) l).

Definition is_plain (c : ascii) : bool :=
  let n := nat_of_ascii c in
  ((97 <=? n)%nat && (n <=? 122)%nat) || ((48 <=? n)%nat && (n <=? 57)%nat)
  || (n =? 32)%nat.

Fixpoint plain (p : string) : bool :=
  match p with
  | EmptyString => true
  | String c r => is_plain c && plain r
  end.

(** A pattern of lower-case letters, digits and spaces matches where it
    occurs. *)
Definition literal_search (L : Lib) : Prop :=
  forall p, plain p = true ->
    exists f, re_compile L p = Some f /\ forall s, f s = Py.str_in p s.

(** [t] occurs in [s], letter case aside. *)
Definition occurs_ci (t s : string) : Prop :=
  exists pre post : string,
    Py.lower s = (pre ++ Py.lower t ++ post)%string.

(** Rows tie under the sort keys. *)
Definition tied (hs : list string) (keys : list (string * bool))
    (r1 r2 : list cell) : bool :=
  match lex_cmp hs keys r1 r2 with Eq => true | _ => false end.

(** No row with [p] comes before a row without it. *)
Fixpoint all_last {A : Type} (p : A -> bool) (l : list A) : bool :=
  match l with
  | [] => true
  | x :: r => if p x then forallb p r else all_last p r
  end.

(** The canonical field whose alias list holds [a]. *)
Definition alias_owner (a : string) : option string :=
  option_map fst (find (fun e => existsb (String.eqb a) (snd e)) ALIASES).

(** The alias list of a canonical field. *)
Definition aliases_of (k : string) : list string :=
  match find (fun e => String.eqb k (fst e)) ALIASES with
  | Some e => snd e
  | None => []
  end.

(** The fields with a numeric bound, and the fields with a token list. *)
Inductive numeric_field : Type := FPrice | FRating | FReviews | FYears.

Inductive token_field : Type := FModalities | FLanguages.

Definition numeric_name (f : numeric_field) : string :=
  match f with
  | FPrice => "price"
  | FRating => "rating"
  | FReviews => "reviews"
  | FYears => "yearsexperience"
  end.

Definition token_name (f : token_field) : string :=
  match f with FModalities => "modalities" | FLanguages => "languages" end.

(** The bounds a request puts on a field, the token list it asks of a
    field, and the conjunct of [Cli.keep] that tests the field. *)
Definition cli_bounds (a : Cli.Args) (f : numeric_field) : list (option Q) :=
  match f with
  | FPrice => [Cli.price_min a; Cli.price_max a]
  | FRating => [Cli.rating_min a]
  | FReviews => [Cli.reviews_min a]
  | FYears => [Cli.years_min a]
  end.

Definition cli_numeric_ok (L : Lib) (df : DataFrame) (a : Cli.Args)
    (mapping : gmap string (option string)) (r : list cell) (f : numeric_field) : bool :=
  match f with
  | FPrice => Cli.price_ok L df a mapping r
  | FRating => Cli.rating_ok L df a mapping r
  | FReviews => Cli.reviews_ok L df a mapping r
  | FYears => Cli.years_ok L df a mapping r
  end.

Definition numeric_field_eqb (f g : numeric_field) : bool :=
  match f, g with
  | FPrice, FPrice | FRating, FRating | FReviews, FReviews | FYears, FYears => true
  | _, _ => false
  end.

(** The conjuncts of [Cli.keep] other than the test of the numeric field
    [f]. *)
Definition cli_others_ok (L : Lib) (df : DataFrame) (a : Cli.Args)
    (mapping : gmap string (option string)) (r : list cell)
    (search : string -> bool) (f : numeric_field) : bool :=
  Cli.city_ok L df a mapping r
  && Cli.neighborhood_ok L df a mapping r search
  && Cli.gender_ok L df a mapping r
  && forallb (fun g => numeric_field_eqb f g || cli_numeric_ok L df a mapping r g)
       [FPrice; FRating; FReviews; FYears]
  && mobile_ok L df mapping (Cli.mobile a) r
  && Cli.modalities_ok L df a mapping r
  && Cli.languages_ok L df a mapping r
  && Cli.availability_ok L df a mapping r
  && Cli.text_all_ok L df a mapping r.

Definition cli_tokens (a : Cli.Args) (f : token_field) : list string :=
  match f with
  | FModalities => Cli.req_modalities a
  | FLanguages => Cli.req_languages a
  end.

Definition cli_tokens_ok (L : Lib) (df : DataFrame) (a : Cli.Args)
    (mapping : gmap string (option string)) (r : list cell) (f : token_field) : bool :=
  match f with
  | FModalities => Cli.modalities_ok L df a mapping r
  | FLanguages => Cli.languages_ok L df a mapping r
  end.

(** The conjuncts of [Cli.keep] that do not test a token list against the
    text of a cell. *)
Definition cli_untokened_ok (L : Lib) (df : DataFrame) (a : Cli.Args)
    (mapping : gmap string (option string)) (r : list cell)
    (search : string -> bool) : bool :=
  Cli.city_ok L df a mapping r
  && Cli.neighborhood_ok L df a mapping r search
  && Cli.gender_ok L df a mapping r
  && Cli.price_ok L df a mapping r
  && Cli.rating_ok L df a mapping r
  && Cli.reviews_ok L df a mapping r
  && Cli.years_ok L df a mapping r
  && mobile_ok L df mapping (Cli.mobile a) r
  && Cli.availability_ok L df a mapping r.

(** A request whose only criteria are token lists: modalities, languages,
    keywords. *)
Definition cli_tokens_only (a : Cli.Args) : bool :=
  negb (Py.truthy_opt (Cli.city a))
  && negb (Py.truthy_opt (Cli.neighborhood a))
  && negb (Py.truthy_opt (Cli.gender a))
  && negb (is_set (Cli.price_min a)) && negb (is_set (Cli.price_max a))
  && negb (is_set (Cli.rating_min a)) && negb (is_set (Cli.reviews_min a))
  && negb (is_set (Cli.years_min a))
  && negb (Cli.mobile a)
  && negb (nonempty (Cli.req_days a)).

(** The text of a token request of the command line. *)
Definition cli_token_request (a : Cli.Args) (f : token_field) : option string :=
  match f with
  | FModalities => Cli.modalities a
  | FLanguages => Cli.languages a
  end.

(** A request without any criterion. *)
Definition cli_unconstrained (a : Cli.Args) : bool :=
  negb (Py.truthy_opt (Cli.city a))
  && negb (Py.truthy_opt (Cli.neighborhood a))
  && negb (Py.truthy_opt (Cli.gender a))
  && negb (is_set (Cli.price_min a)) && negb (is_set (Cli.price_max a))
  && negb (is_set (Cli.rating_min a)) && negb (is_set (Cli.reviews_min a))
  && negb (is_set (Cli.years_min a))
  && negb (Cli.mobile a)
  && negb (nonempty (Cli.req_modalities a))
  && negb (nonempty (Cli.req_languages a))
  && negb (nonempty (Cli.req_days a))
  && negb (nonempty (Cli.req_text a)).

(** ** numpy's quicksort on an array of objects *)

(** [ndarray.argsort(kind="quicksort")] on a column of dtype object, the
    dtype of a column of text: numpy's [npy_aquicksort], which sorts the array
    [tosort] of positions in place and compares the values through the
    positions. [pl], [pr], [pm], [pi], [pj] are positions in [tosort], as in
    numpy. *)
Module Numpy.

Definition SMALL_QUICKSORT : nat := 16.

(** [cmp(a, b) < 0] *)
Definition skey_ltb (a b : skey) : bool :=
  match skey_cmp a b with Lt => true | _ => false end.

(** [v[tosort[i]]] *)
Definition value (v : list skey) (tosort : list nat) (i : nat) : skey :=
  nth (nth i tosort 0%nat) v (KNum 0).

(** [INTP_SWAP(tosort[i], tosort[j])] *)
Definition swap (i j : nat) (tosort : list nat) : list nat :=
  <[i := nth j tosort 0%nat]> (<[j := nth i tosort 0%nat]> tosort).

(** [do { ++pi; } while (v[*pi] < vp)] *)
Fixpoint scan_up (fuel : nat) (v : list skey) (vp : skey) (tosort : list nat)
    (pi : nat) : nat :=
  match fuel with
  | O => S pi
  | S fuel =>
      if skey_ltb (value v tosort (S pi)) vp then scan_up fuel v vp tosort (S pi)
      else S pi
  end.

(** [do { --pj; } while (vp < v[*pj])] *)
Fixpoint scan_down (fuel : nat) (v : list skey) (vp : skey) (tosort : list nat)
    (pj : nat) : nat :=
  match fuel with
  | O => (pj - 1)%nat
  | S fuel =>
      if skey_ltb vp (value v tosort (pj - 1)) then scan_down fuel v vp tosort (pj - 1)%nat
      else (pj - 1)%nat
  end.

(** The partition loop: the two scans, then a swap unless they have met. *)
Fixpoint hoare (fuel : nat) (v : list skey) (vp : skey) (pi pj : nat)
    (tosort : list nat) : list nat * nat :=
  match fuel with
  | O => (tosort, pi)
  | S fuel =>
      let pi := scan_up (length tosort) v vp tosort pi in
      let pj := scan_down (length tosort) v vp tosort pj in
      if (pj <=? pi)%nat then (tosort, pi)
      else hoare fuel v vp pi pj (swap pi pj tosort)
  end.

(** One partition of [pl..pr]: the median of the first, middle and last
    value becomes the pivot and is parked at [pr - 1]; after the loop it is
    put at [pi], the place the scans met. *)
Definition partition (v : list skey) (pl pr : nat) (tosort : list nat)
    : list nat * nat :=
  let pm := (pl + (pr - pl) / 2)%nat in
  let tosort :=
    if skey_ltb (value v tosort pm) (value v tosort pl) then swap pm pl tosort
    else tosort in
  let tosort :=
    if skey_ltb (value v tosort pr) (value v tosort pm) then swap pr pm tosort
    else tosort in
  let tosort :=
    if skey_ltb (value v tosort pm) (value v tosort pl) then swap pm pl tosort
    else tosort in
  let vp := value v tosort pm in
  let tosort := swap pm (pr - 1) tosort in
  let '(tosort, pi) := hoare (length tosort) v vp pl (pr - 1)%nat tosort in
  (swap pi (pr - 1) tosort, pi).

(** The inner loop of the insertion sort: the position [vi] moves down past
    the positions of greater values. *)
Fixpoint shift_down (fuel : nat) (v : list skey) (vi pl pj : nat)
    (tosort : list nat) : list nat :=
  match fuel with
  | O => <[pj := vi]> tosort
  | S fuel =>
      if (pl <? pj)%nat && skey_ltb (nth vi v (KNum 0)) (value v tosort (pj - 1))
      then shift_down fuel v vi pl (pj - 1)%nat
             (<[pj := nth (pj - 1) tosort 0%nat]> tosort)
      else <[pj := vi]> tosort
  end.

(** The insertion sort of [pl..pr]. *)
Definition insertion_range (v : list skey) (pl pr : nat) (tosort : list nat)
    : list nat :=
  fold_left
    (fun tosort pi => shift_down (length tosort) v (nth pi tosort 0%nat) pl pi tosort)
    (seq (pl + 1) (pr - pl)) tosort.

(** The sort of [pl..pr]. A range of more than [SMALL_QUICKSORT] + 1 positions
    is partitioned, the smaller part is sorted next and the larger part is
    taken from the stack later ([popped]), both with the depth budget reduced
    by one; the other ranges are sorted by insertion. A range taken from the
    stack with the budget used up is sorted by heapsort in numpy; here it is
    sorted by insertion, which can differ from numpy in the order of the ties
    of such a range only. *)
Fixpoint aquicksort_range (fuel : nat) (v : list skey) (popped : bool) (cdepth : Z)
    (pl pr : nat) (tosort : list nat) : list nat :=
  match fuel with
  | O => tosort
  | S fuel =>
      if popped && (cdepth <? 0)%Z then insertion_range v pl pr tosort
      else if (SMALL_QUICKSORT <? pr - pl)%nat then
        let '(tosort, pi) := partition v pl pr tosort in
        let cdepth := (cdepth - 1)%Z in
        if (pi - pl <? pr - pi)%nat
        then aquicksort_range fuel v true cdepth (pi + 1)%nat pr
               (aquicksort_range fuel v false cdepth pl (pi - 1)%nat tosort)
        else aquicksort_range fuel v true cdepth pl (pi - 1)%nat
               (aquicksort_range fuel v false cdepth (pi + 1)%nat pr tosort)
      else insertion_range v pl pr tosort
  end.

(** [npy_aquicksort(v, tosort, num)] with [tosort] the positions 0, 1, ...;
    the depth budget is twice the position of the highest bit of [num]. *)
Definition npy_aquicksort (v : list skey) : list nat :=
  let num := length v in
  aquicksort_range (S num) v true (2 * Z.log2 (Z.of_nat num))%Z 0%nat (num - 1)%nat
    (seq 0 num).

End Numpy.

(** ** Sample libraries and frames *)

Module Sample.

Definition is_digit (c : ascii) : bool :=
  let n := nat_of_ascii c in (48 <=? n)%nat && (n <=? 57)%nat.

Fixpoint digits (s : string) (acc : Z) : option Z :=
  match s with
  | EmptyString => Some acc
  | String c r =>
      if is_digit c
      then digits r (10 * acc + Z.of_nat (nat_of_ascii c - 48))%Z
      else None
  end.

(** Unsigned decimal integers parse; nothing else does. *)
Definition parse_integer (s : string) : option Q :=
  match s with
  | EmptyString => None
  | _ => option_map inject_Z (digits s 0%Z)
  end.

(** Integers print in decimal; no example prints another number. *)
Definition print_integer (q : Q) : string :=
  DecimalString.NilZero.string_of_int (Z.to_int (Qnum q / Zpos (Qden q))).

(** Plain patterns match where they occur; the others are not accepted. *)
Definition compile_plain (p : string) : option (string -> bool) :=
  if plain p then Some (Py.str_in p) else None.

Definition argsort_by (leb : skey * nat -> skey * nat -> bool) (l : list skey)
    : list nat :=
  map snd (isort leb (combine l (seq 0 (length l)))).

(** Insertion sort, what numpy's quicksort does on a short array: ties stay
    in order. *)
Definition insertion_argsort : list skey -> list nat :=
  argsort_by (fun x y => skey_leb (fst x) (fst y)).

Definition lib : Lib :=
  {| num_str := print_integer; parse_number := parse_integer;
     re_compile := compile_plain; quicksort := insertion_argsort |}.

Definition no_args : Cli.Args :=
  {| Cli.city := None; Cli.neighborhood := None; Cli.gender := None;
     Cli.modalities := None; Cli.languages := None;
     Cli.price_min := None; Cli.price_max := None; Cli.rating_min := None;
     Cli.reviews_min := None; Cli.years_min := None; Cli.mobile := false;
     Cli.text := None; Cli.available := None; Cli.sort := None |}.

Definition with_text (s : string) : Cli.Args :=
  {| Cli.city := None; Cli.neighborhood := None; Cli.gender := None;
     Cli.modalities := None; Cli.languages := None;
     Cli.price_min := None; Cli.price_max := None; Cli.rating_min := None;
     Cli.reviews_min := None; Cli.years_min := None; Cli.mobile := false;
     Cli.text := Some s; Cli.available := None; Cli.sort := None |}.

Definition with_sort (s : string) : Cli.Args :=
  {| Cli.city := None; Cli.neighborhood := None; Cli.gender := None;
     Cli.modalities := None; Cli.languages := None;
     Cli.price_min := None; Cli.price_max := None; Cli.rating_min := None;
     Cli.reviews_min := None; Cli.years_min := None; Cli.mobile := false;
     Cli.text := None; Cli.available := None; Cli.sort := Some s |}.

Definition with_price_max (v : Q) : Cli.Args :=
  {| Cli.city := None; Cli.neighborhood := None; Cli.gender := None;
     Cli.modalities := None; Cli.languages := None;
     Cli.price_min := None; Cli.price_max := Some v; Cli.rating_min := None;
     Cli.reviews_min := None; Cli.years_min := None; Cli.mobile := false;
     Cli.text := None; Cli.available := None; Cli.sort := None |}.

Definition with_languages (s : string) : Cli.Args :=
  {| Cli.city := None; Cli.neighborhood := None; Cli.gender := None;
     Cli.modalities := None; Cli.languages := Some s;
     Cli.price_min := None; Cli.price_max := None; Cli.rating_min := None;
     Cli.reviews_min := None; Cli.years_min := None; Cli.mobile := false;
     Cli.text := None; Cli.available := None; Cli.sort := None |}.

Definition with_modalities (s : string) : Cli.Args :=
  {| Cli.city := None; Cli.neighborhood := None; Cli.gender := None;
     Cli.modalities := Some s; Cli.languages := None;
     Cli.price_min := None; Cli.price_max := None; Cli.rating_min := None;
     Cli.reviews_min := None; Cli.years_min := None; Cli.mobile := false;
     Cli.text := None; Cli.available := None; Cli.sort := None |}.

(** Two therapists; the second has one modality and no bio. *)
Definition therapists : DataFrame :=
  {| columns := ["Name"; "Modalities"; "Bio"; "Credentials"];
     rows := [ [Str "Ann"; Str "Sports, Deep Tissue"; Str "Gentle hands"; Str "RMT"];
               [Str "Bo"; Str "Deep Tissue"; NaN; Str "RMT"] ] |}.

(** A price column that was read as text. *)
Definition price_as_text : DataFrame :=
  {| columns := ["Name"; "Price"];
     rows := [ [Str "Ann"; Str "N/A"]; [Str "Bo"; Str "100"] ] |}.

Definition with_city (s : string) : Cli.Args :=
  {| Cli.city := Some s; Cli.neighborhood := None; Cli.gender := None;
     Cli.modalities := None; Cli.languages := None;
     Cli.price_min := None; Cli.price_max := None; Cli.rating_min := None;
     Cli.reviews_min := None; Cli.years_min := None; Cli.mobile := false;
     Cli.text := None; Cli.available := None; Cli.sort := None |}.

(** A frame in which the second provider has no city and no bio. *)
Definition city_missing : DataFrame :=
  {| columns := ["Name"; "City"; "Bio"];
     rows := [ [Str "Ann"; Str "Vancouver"; Str "Sports massage"];
               [Str "Bo"; NaN; NaN] ] |}.

(** Three providers, as in the worked example of the design document. *)
Definition providers : DataFrame :=
  {| columns := ["City"; "Price"; "Rating"];
     rows := [ [Str "Vancouver"; Num 100; Num (48 # 10)];
               [Str "Vancouver"; Num 150; Num (49 # 10)];
               [Str "Toronto"; Num 90; Num (45 # 10)] ] |}.

(** A frame without bio and credentials columns. *)
Definition no_text_columns : DataFrame :=
  {| columns := ["Name"; "City"];
     rows := [ [Str "Ann"; Str "Vancouver"]; [Str "Bo"; Str "Toronto"] ] |}.

(** A frame in which the first provider has no price. *)
Definition one_price_missing : DataFrame :=
  {| columns := ["Name"; "Price"];
     rows := [ [Str "Ann"; NaN]; [Str "Bo"; Num 100] ] |}.

Definition two_prices : DataFrame :=
  {| columns := ["Name"; "Price"];
     rows := [ [Str "Ann"; Num 120]; [Str "Bo"; Num 90] ] |}.

Definition bio_city_price : DataFrame :=
  {| columns := ["Bio"; "City"; "Price"];
     rows := [ [Str "sports massage"; Str "Vancouver"; Num 100] ] |}.

End Sample.

(** ** Further definitions for the statements below *)

(** Every character of a text passes a test. *)
Fixpoint string_forallb (p : ascii -> bool) (s : string) : bool :=
  match s with
  | EmptyString => true
  | String c r => p c && string_forallb p r
  end.

(** The request with its texts in lower case. *)
Definition lower_args (a : Cli.Args) : Cli.Args :=
  {| Cli.city := option_map Py.lower (Cli.city a);
     Cli.neighborhood := option_map Py.lower (Cli.neighborhood a);
     Cli.gender := option_map Py.lower (Cli.gender a);
     Cli.modalities := option_map Py.lower (Cli.modalities a);
     Cli.languages := option_map Py.lower (Cli.languages a);
     Cli.price_min := Cli.price_min a;
     Cli.price_max := Cli.price_max a;
     Cli.rating_min := Cli.rating_min a;
     Cli.reviews_min := Cli.reviews_min a;
     Cli.years_min := Cli.years_min a;
     Cli.mobile := Cli.mobile a;
     Cli.text := option_map Py.lower (Cli.text a);
     Cli.available := option_map Py.lower (Cli.available a);
     Cli.sort := Cli.sort a |}.

(** A column without text and without booleans: numbers and gaps. *)
Definition numeric_column (col : list cell) : bool :=
  forallb (fun c => negb (is_text_cell c) && negb (is_bool_cell c)) col.

(** The order of two positions of a column under one key. *)
Definition code_leb_at (items : list cell) (asc : bool) (i j : nat) : bool :=
  match code_cmp asc (nth i items NaN) (nth j items NaN) with
  | Gt => false
  | _ => true
  end.

(** The projection of a row of [df] on the headers [hs]. *)
Definition project (df : DataFrame) (hs : list string) (r : list cell) : list cell :=
  map (get_cell (columns df) r) hs.

Definition args_of (city neighborhood modalities available : option string)
    (price_min price_max : option Q) (mobile : bool) (sort : option string) : Cli.Args :=
  {| Cli.city := city; Cli.neighborhood := neighborhood; Cli.gender := None;
     Cli.modalities := modalities; Cli.languages := None;
     Cli.price_min := price_min; Cli.price_max := price_max; Cli.rating_min := None;
     Cli.reviews_min := None; Cli.years_min := None; Cli.mobile := mobile;
     Cli.text := None; Cli.available := available; Cli.sort := sort |}.

(** Two headers that differ in letter case only, and a header found by a
    later alias of the price field. *)
Definition sample_colliding : DataFrame :=
  {| columns := ["City"; "Fee"; "CITY"; "Rate"];
     rows := [ [Str "Vancouver"; Num 80; Str "Burnaby"; Num 95] ] |}.

(** Mobile service as a numeric column with a gap, and as text. *)
Definition sample_mobile_numeric : DataFrame :=
  {| columns := ["Name"; "Mobile"];
     rows := [ [Str "Ann"; Num 1]; [Str "Bo"; Num 0]; [Str "Cy"; NaN] ] |}.

Definition sample_mobile_text : DataFrame :=
  {| columns := ["Name"; "Mobile"];
     rows := [ [Str "Ann"; Str "Yes"]; [Str "Bo"; Str "No"]; [Str "Cy"; NaN] ] |}.

(** Availability as text. *)
Definition sample_hours : DataFrame :=
  {| columns := ["Name"; "Hours"];
     rows := [ [Str "Ann"; Str "Mon-Fri"]; [Str "Bo"; Str "Sat, Sun"] ] |}.

(** The providers' frame of [Sample.bio_city_price] with its columns in the
    order the program writes them. *)
Definition sample_reordered : DataFrame :=
  {| columns := ["City"; "Price"; "Bio"];
     rows := [ [Str "Vancouver"; Num 100; Str "sports massage"] ] |}.

(** The sample library with numpy's quicksort on objects as its [argsort]. *)
Definition sample_numpy_lib : Lib :=
  {| num_str := Sample.print_integer; parse_number := Sample.parse_integer;
     re_compile := Sample.compile_plain; quicksort := Numpy.npy_aquicksort |}.

(** Eighteen providers of one city. *)
Definition sample_same_city : DataFrame :=
  {| columns := ["Id"; "City"];
     rows := map (fun i => [Num (inject_Z (Z.of_nat i)); Str "Vancouver"]) (seq 0 18) |}.

(** Providers that tie on price and rating, and two without a rating. *)
Definition sample_ties : DataFrame :=
  {| columns := ["Name"; "Price"; "Rating"];
     rows := [ [Str "Ann"; Num 100; Num (48 # 10)];
               [Str "Bo"; Num 100; Num (49 # 10)];
               [Str "Cy"; Num 90; Num (45 # 10)];
               [Str "Di"; Num 100; Num (48 # 10)];
               [Str "Ed"; Num 100; NaN];
               [Str "Flo"; Num 100; NaN] ] |}.

(** Two cities, each with a provider that has a price and one that has
    none. *)
Definition sample_city_price : DataFrame :=
  {| columns := ["City"; "Price"];
     rows := [ [Str "Vancouver"; NaN];
               [Str "Vancouver"; Num 100];
               [Str "Toronto"; NaN];
               [Str "Toronto"; Num 90] ] |}.

(** A frame with two headers that are not aliases among three that are. *)
Definition sample_notes : DataFrame :=
  {| columns := ["Notes"; "Bio"; "Phone"; "City"; "Price"];
     rows := [ [Str "late"; Str "sports massage"; Str "555"; Str "Vancouver"; Num 100] ] |}.

(** A file that holds the header line only: with two headers that are
    aliases, and with none. *)
Definition sample_header_only : DataFrame :=
  {| columns := ["Name"; "Price"]; rows := [] |}.

Definition sample_header_only_notes : DataFrame :=
  {| columns := ["Notes"; "Phone"]; rows := [] |}.

(** A price column that holds a number and a text. *)
Definition sample_mixed_prices : DataFrame :=
  {| columns := ["Name"; "Price"];
     rows := [ [Str "Ann"; Num 100]; [Str "Bo"; Str "cheap"] ] |}.

(** * Properties *)

(** ** Python strings *)

Lemma startswith_spec (p s : string) :
  Py.startswith p s = true <-> exists post, s = (p ++ post)%string.
Proof.
  revert s. induction p as [|a p IH]; intros s; simpl.
  - split; [intros _; exists s; reflexivity | reflexivity].
  - destruct s as [|b s].
    + split; [discriminate | intros [post H]; discriminate].
    + rewrite andb_true_iff, Ascii.eqb_eq, IH. split.
      * intros [-> [post ->]]. exists post. reflexivity.
      * intros [post H]. injection H as -> ->. split; [reflexivity | exists post; reflexivity].
Qed.

Lemma str_in_spec (n h : string) :
  Py.str_in n h = true <-> exists pre post, h = (pre ++ n ++ post)%string.
Proof.
  induction h as [|c h IH].
  - simpl. rewrite orb_false_r, startswith_spec. split.
    + intros [post H]. exists EmptyString, post. exact H.
    + intros [pre [post H]]. destruct pre; [exists post; exact H | discriminate].
  - simpl. rewrite orb_true_iff, startswith_spec, IH. split.
    + intros [[post H] | [pre [post H]]].
      * exists EmptyString, post. exact H.
      * exists (String c pre), post. simpl. rewrite H. reflexivity.
    + intros [pre [post H]]. destruct pre as [|a pre].
      * left. exists post. exact H.
      * right. simpl in H. injection H as _ H. exists pre, post. exact H.
Qed.

Lemma str_in_app (n pre post : string) :
  Py.str_in n (pre ++ n ++ post)%string = true.
Proof. apply str_in_spec. exists pre, post. reflexivity. Qed.

Lemma string_app_assoc (a b c : string) :
  ((a ++ b) ++ c = a ++ b ++ c)%string.
Proof. induction a as [|x a IH]; simpl; [reflexivity | rewrite IH; reflexivity]. Qed.

(** Occurring is transitive: what occurs in a part occurs in the whole. *)
Lemma str_in_trans (a b c : string) :
  Py.str_in a b = true -> Py.str_in b c = true -> Py.str_in a c = true.
Proof.
  rewrite !str_in_spec. intros [p1 [q1 ->]] [p2 [q2 ->]].
  exists (p2 ++ p1)%string, (q1 ++ q2)%string.
  rewrite !string_app_assoc. reflexivity.
Qed.

Lemma lstrip_idem (s : string) : Py.lstrip (Py.lstrip s) = Py.lstrip s.
Proof.
  induction s as [|c s IH]; simpl; [reflexivity |].
  destruct (Py.is_space c) eqn:E; [exact IH | simpl; rewrite E; reflexivity].
Qed.

Lemma rstrip_idem (s : string) : Py.rstrip (Py.rstrip s) = Py.rstrip s.
Proof.
  induction s as [|c s IH]; simpl; [reflexivity |].
  destruct (Py.rstrip s) as [|d t] eqn:E.
  - destruct (Py.is_space c) eqn:Ec; simpl; [reflexivity | rewrite Ec; reflexivity].
  - change (Py.rstrip (String c (String d t)) = String c (String d t)).
    change (Py.rstrip (String c (String d t)))
      with (match Py.rstrip (String d t) with
            | EmptyString => if Py.is_space c then EmptyString else String c EmptyString
            | r' => String c r'
            end).
    rewrite IH. reflexivity.
Qed.

(** Stripping on the left keeps a text free of trailing white space so. *)
Lemma rstrip_lstrip_fixed (s : string) :
  Py.rstrip s = s -> Py.rstrip (Py.lstrip s) = Py.lstrip s.
Proof.
  induction s as [|c s IH]; simpl; [reflexivity |].
  intros H. destruct (Py.is_space c) eqn:Ec.
  - apply IH. destruct (Py.rstrip s) as [|d t] eqn:E.
    + discriminate.
    + injection H as H. exact H.
  - simpl. rewrite Ec. exact H.
Qed.

Lemma strip_idem (s : string) : Py.strip (Py.strip s) = Py.strip s.
Proof.
  unfold Py.strip.
  rewrite (rstrip_lstrip_fixed (Py.rstrip s) (rstrip_idem s)).
  apply lstrip_idem.
Qed.

(** ** Column resolver *)

Lemma foldl_insert_lookup (Q : string -> string -> Prop) (hs : list string) :
  (forall c, In c hs -> Q (Py.lower c) c) ->
  forall m : gmap string string,
    (forall a c, m !! a = Some c -> Q a c) ->
    forall a c,
      foldl (fun m c => <[Py.lower c := c]> m) m hs !! a = Some c -> Q a c.
Proof.
  induction hs as [|x hs IH]; intros Hin m Hm a c; simpl.
  - apply Hm.
  - apply IH.
    + intros c' Hc'. apply Hin. right. exact Hc'.
    + intros a' c' Hl. apply lookup_insert_Some in Hl as [[<- <-] | [_ Hl]].
      * apply Hin. left. reflexivity.
      * apply Hm. exact Hl.
Qed.

(** A key of the lower-cased lookup is the lower-case form of the header it
    maps to, and that header is one of the frame. *)
Lemma lowered_headers_lookup (hs : list string) (a c : string) :
  lowered_headers hs !! a = Some c -> In c hs /\ Py.lower c = a.
Proof.
  unfold lowered_headers.
  apply (foldl_insert_lookup (fun a c => In c hs /\ Py.lower c = a)).
  - intros c' H. split; [exact H | reflexivity].
  - intros a' c' H. rewrite lookup_empty in H. discriminate.
Qed.

Lemma first_alias_Some (cols : gmap string string) (al : list string) (c : string) :
  first_alias cols al = Some c -> exists a, In a al /\ cols !! a = Some c.
Proof.
  induction al as [|a al IH]; simpl; [discriminate |].
  destruct (cols !! a) as [c'|] eqn:E.
  - intros [= <-]. exists a. split; [left; reflexivity | exact E].
  - intros H. destruct (IH H) as [a' [Hin Hl]]. exists a'. split; [right; exact Hin | exact Hl].
Qed.

(** The first alias that is a key wins. *)
Lemma first_alias_first (cols : gmap string string) (pre : list string) (a : string)
    (post : list string) (c : string) :
  Forall (fun b => cols !! b = None) pre -> cols !! a = Some c ->
  first_alias cols (pre ++ a :: post) = Some c.
Proof.
  induction 1 as [|b pre Hb _ IH]; intros Ha; simpl.
  - rewrite Ha. reflexivity.
  - rewrite Hb. apply IH. exact Ha.
Qed.

Lemma first_alias_None (cols : gmap string string) (al : list string) :
  first_alias cols al = None <-> Forall (fun b => cols !! b = None) al.
Proof.
  induction al as [|a al IH]; simpl.
  - split; [constructor | reflexivity].
  - destruct (cols !! a) as [c|] eqn:E.
    + split; [discriminate | intros H; inversion H; congruence].
    + rewrite IH. split; [intros H; constructor; assumption | intros H; inversion H; assumption].
Qed.

(** The mapping of a canonical field is what the inner loop finds in the
    field's alias list. *)
Lemma get_autodetect (df : DataFrame) (k : string) :
  In k PREFERRED_ORDER ->
  get (autodetect_columns df) k
  = first_alias (lowered_headers (columns df)) (aliases_of k).
Proof.
  intros H. unfold get, autodetect_columns. simpl in H.
  repeat (destruct H as [<- | H]; [reflexivity |]). destruct H.
Qed.

Lemma alias_owner_aliases_of (k a : string) :
  In k PREFERRED_ORDER -> In a (aliases_of k) -> alias_owner a = Some k.
Proof.
  intros Hk Ha. simpl in Hk.
  repeat (destruct Hk as [<- | Hk];
          [simpl in Ha; repeat (destruct Ha as [<- | Ha]; [reflexivity |]); destruct Ha |]).
  destruct Hk.
Qed.

(** A resolved field maps to a header of the frame whose lower-case form is
    one of the field's aliases. *)
Lemma resolved_header (df : DataFrame) (k h : string) :
  In k PREFERRED_ORDER ->
  resolved (autodetect_columns df) k = Some h ->
  In h (columns df) /\ In (Py.lower h) (aliases_of k).
Proof.
  intros Hk. unfold resolved. rewrite (get_autodetect df k Hk).
  destruct (first_alias _ _) as [h'|] eqn:E; [|discriminate].
  destruct (Py.truthy h'); [|discriminate]. intros [= ->].
  apply first_alias_Some in E as [a [Ha Hl]].
  apply lowered_headers_lookup in Hl as [Hin Hlow].
  split; [exact Hin | rewrite Hlow; exact Ha].
Qed.

Lemma In_omap {A B : Type} (g : A -> option B) (l : list A) (y : B) :
  In y (omap g l) <-> exists x, In x l /\ g x = Some y.
Proof.
  rewrite <- list_elem_of_In, list_elem_of_omap.
  split; intros [x [H1 H2]]; exists x; split;
    try exact H2; apply list_elem_of_In; exact H1.
Qed.

(** Picking at most one value per key keeps a list free of repetitions when
    every value tells its key. *)
Lemma NoDup_omap_owner {A B : Type} (g : A -> option B) (f : B -> option A)
    (l : list A) :
  List.NoDup l ->
  (forall k h, In k l -> g k = Some h -> f h = Some k) ->
  List.NoDup (omap g l).
Proof.
  induction 1 as [|k l Hk Hl IH]; intros Hf; [constructor |].
  change (omap g (k :: l))
    with (match g k with Some h => h :: omap g l | None => omap g l end).
  assert (IH' : List.NoDup (omap g l)).
  { apply IH. intros k' h' Hin. apply Hf. right. exact Hin. }
  destruct (g k) as [h|] eqn:E; [|exact IH'].
  constructor; [|exact IH'].
  intros Hin. apply In_omap in Hin as [k' [Hk' Hg]].
  assert (Some k = Some k') as [= ->].
  { rewrite <- (Hf k h (or_introl eq_refl) E).
    apply Hf; [right; exact Hk' | exact Hg]. }
  contradiction.
Qed.

Lemma omap_owner_filter {A B : Type} (g : A -> option B) (f : B -> option A)
    (l : list A) :
  (forall k h, In k l -> g k = Some h -> f h = Some k) ->
  omap f (omap g l)
  = List.filter (fun k => match g k with Some _ => true | None => false end) l.
Proof.
  induction l as [|k l IH]; intros Hf; [reflexivity |].
  change (omap g (k :: l))
    with (match g k with Some h => h :: omap g l | None => omap g l end).
  simpl List.filter.
  assert (IH' := IH (fun k' h' Hin => Hf k' h' (or_intror Hin))).
  destruct (g k) as [h|] eqn:E; [|exact IH'].
  change (omap f (h :: omap g l))
    with (match f h with Some y => y :: omap f (omap g l) | None => omap f (omap g l) end).
  rewrite (Hf k h (or_introl eq_refl) E), IH'. reflexivity.
Qed.

Lemma preferred_order_NoDup : List.NoDup PREFERRED_ORDER.
Proof. apply NoDup_ListNoDup. apply (bool_decide_unpack _). vm_compute. exact I. Qed.

Lemma resolved_owner (df : DataFrame) (k h : string) :
  In k PREFERRED_ORDER ->
  resolved (autodetect_columns df) k = Some h ->
  alias_owner (Py.lower h) = Some k.
Proof.
  intros Hk H. apply (alias_owner_aliases_of k); [exact Hk |].
  apply (resolved_header df k h Hk H).
Qed.

(** No header is put in front twice. *)
Lemma preferred_NoDup (df : DataFrame) :
  List.NoDup (preferred (autodetect_columns df)).
Proof.
  unfold preferred.
  apply (NoDup_omap_owner (resolved (autodetect_columns df))
           (fun h => alias_owner (Py.lower h))).
  - exact preferred_order_NoDup.
  - intros k h Hk H. apply (resolved_owner df k h Hk H).
Qed.

Lemma preferred_In_columns (df : DataFrame) (h : string) :
  In h (preferred (autodetect_columns df)) -> In h (columns df).
Proof.
  unfold preferred. intros H. apply In_omap in H as [k [Hk H]].
  apply (resolved_header df k h Hk H).
Qed.

Lemma existsb_eqb_In (c : string) (l : list string) :
  existsb (String.eqb c) l = true <-> In c l.
Proof.
  rewrite existsb_exists. split.
  - intros [x [Hin Heq]]. apply String.eqb_eq in Heq. subst. exact Hin.
  - intros H. exists c. split; [exact H | apply String.eqb_refl].
Qed.

Lemma trailing_In (cols pref : list string) (c : string) :
  In c (trailing cols pref) <-> In c cols /\ ~ In c pref.
Proof.
  unfold trailing. rewrite filter_In, negb_true_iff.
  rewrite <- (existsb_eqb_In c pref).
  destruct (existsb (String.eqb c) pref); intuition congruence.
Qed.

(** Front and rest together are the headers of the frame, each once. *)
Lemma reorder_Permutation (df : DataFrame) :
  List.NoDup (columns df) ->
  Permutation
    (preferred (autodetect_columns df)
     ++ trailing (columns df) (preferred (autodetect_columns df)))
    (columns df).
Proof.
  intros Hnd. apply Permutation.NoDup_Permutation.
  - apply List.NoDup_app.
    + apply preferred_NoDup.
    + apply List.NoDup_filter. exact Hnd.
    + intros x Hx Hx'. apply trailing_In in Hx' as [_ Hx']. contradiction.
  - exact Hnd.
  - intros x. rewrite in_app_iff, trailing_In. split.
    + intros [H | [H _]]; [apply preferred_In_columns in H |]; exact H.
    + intros H.
      destruct (in_dec string_dec x (preferred (autodetect_columns df))) as [Hi | Hi];
        [left; exact Hi | right; split; assumption].
Qed.

(** ** Sorting keeps the headers *)

Lemma sort_values_columns (L : Lib) (df : DataFrame) (by_ : list string)
    (ascending : list bool) (out : DataFrame) :
  sort_values L df by_ ascending = Ok out -> columns out = columns df.
Proof.
  unfold sort_values.
  destruct (negb (length by_ =? length ascending)%nat); [discriminate |].
  destruct (negb (forallb (has_column df) by_)); [discriminate |].
  destruct by_ as [|h [|h' by_]]; destruct ascending as [|b [|b' ascending]];
    try (intros [= <-]; reflexivity).
  destruct (sortable (column df h)); [intros [= <-]; reflexivity | discriminate].
Qed.

Lemma cli_sort_stage_columns (L : Lib) (a : Cli.Args)
    (mapping : gmap string (option string)) (r out : DataFrame) (w : list string) :
  Cli.sort_stage L a mapping r = (w, Ok out) -> columns out = columns r.
Proof.
  unfold Cli.sort_stage.
  destruct (Py.truthy_opt (Cli.sort a)); [|intros [= _ <-]; reflexivity].
  destruct (Cli.resolve _ _ _) as [[by_ ascending] warnings].
  destruct (nonempty by_); intros [= _ H].
  - apply (sort_values_columns _ _ _ _ _ H).
  - subst. reflexivity.
Qed.

(** ** The frame behind the mask, and the column step of [main] *)

Lemma getitem_Ok (df : DataFrame) (hs : list string) (out : DataFrame) :
  getitem df hs = Ok out ->
  out = select df hs /\ forall h, In h hs -> In h (columns df).
Proof.
  unfold getitem. destruct (forallb (has_column df) hs) eqn:E; [|discriminate].
  intros [= <-]. split; [reflexivity |]. intros h Hh.
  rewrite forallb_forall in E. apply existsb_eqb_In. apply (E h Hh).
Qed.

Lemma getitem_headers (df : DataFrame) (hs : list string) :
  (forall h, In h hs -> In h (columns df)) -> getitem df hs = Ok (select df hs).
Proof.
  intros H. unfold getitem.
  assert (E : forallb (has_column df) hs = true).
  { apply forallb_forall. intros h Hh. apply existsb_eqb_In. apply H. exact Hh. }
  rewrite E. reflexivity.
Qed.

(** The column step succeeds exactly when every preferred header is a column
    of the frame it is applied to. *)
Lemma getitem_reorder (mapping : gmap string (option string)) (r : DataFrame) :
  getitem r (preferred mapping ++ trailing (columns r) (preferred mapping))
  = if forallb (has_column r) (preferred mapping) then Ok (reorder mapping r)
    else Raise KeyError.
Proof.
  unfold getitem. rewrite forallb_app.
  assert (E : forallb (has_column r) (trailing (columns r) (preferred mapping)) = true).
  { apply forallb_forall. intros h Hh. apply existsb_eqb_In.
    apply trailing_In in Hh as [Hh _]. exact Hh. }
  rewrite E, andb_true_r. reflexivity.
Qed.

Lemma nonempty_nil {A : Type} (l : list A) : nonempty l = false <-> l = [].
Proof. destruct l; split; intros H; try reflexivity; discriminate. Qed.

(** A frame with rows, or a request one of whose criteria runs, keeps its
    headers behind the mask; a frame without rows and without a criterion
    that runs loses them. *)
Lemma cli_masked_kept (L : Lib) (df : DataFrame) (a : Cli.Args)
    (mapping : gmap string (option string)) (rs : list (list cell)) :
  nonempty (rows df) || Cli.mask_updated a mapping = true ->
  Cli.masked df a mapping rs = {| columns := columns df; rows := rs |}.
Proof. intros H. unfold Cli.masked. rewrite H. reflexivity. Qed.

Lemma cli_masked_lost (L : Lib) (df : DataFrame) (a : Cli.Args)
    (mapping : gmap string (option string)) (rs : list (list cell)) :
  nonempty (rows df) || Cli.mask_updated a mapping = false ->
  rows df = [] /\ Cli.masked df a mapping rs = {| columns := []; rows := [] |}.
Proof.
  intros H. apply orb_false_elim in H as [Hr Hm].
  apply nonempty_nil in Hr. split; [exact Hr |].
  unfold Cli.masked, select. rewrite Hr, Hm. reflexivity.
Qed.

Lemma cli_filter_rows_nil (L : Lib) (df : DataFrame) (a : Cli.Args)
    (mapping : gmap string (option string)) (rs : list (list cell)) :
  rows df = [] -> Cli.filter_rows L df a mapping = Ok rs -> rs = [].
Proof.
  intros Hr. unfold Cli.filter_rows.
  destruct (Cli.neighborhood_search L a mapping); [|discriminate].
  rewrite Hr. intros [= <-]. reflexivity.
Qed.

(** What [main] returns when it returns a frame: the rows the mask selects,
    sorted, with the columns rearranged. *)
Lemma cli_main_Ok (L : Lib) (df : DataFrame) (a : Cli.Args)
    (w : list string) (out : DataFrame) :
  Cli.main L df a = (w, Ok out) ->
  exists rs r,
    Cli.filter_rows L df a (autodetect_columns df) = Ok rs
    /\ Cli.sort_stage L a (autodetect_columns df)
         (Cli.masked df a (autodetect_columns df) rs) = (w, Ok r)
    /\ out = reorder (autodetect_columns df) r
    /\ forall h, In h (preferred (autodetect_columns df)) -> In h (columns r).
Proof.
  unfold Cli.main. cbv zeta. generalize (autodetect_columns df). intros m.
  destruct (Cli.filter_rows L df a m) as [rs | e]; [|discriminate].
  destruct (Cli.sort_stage L a m (Cli.masked df a m rs)) as [w' [r | e]] eqn:E;
    [|discriminate].
  intros [= <- H]. apply getitem_Ok in H as [-> Hin].
  exists rs, r. split; [reflexivity |]. split; [exact E |].
  split; [reflexivity |]. intros h Hh. apply Hin. apply in_or_app. left. exact Hh.
Qed.

(** ** Criteria *)

Lemma guarded_off (df : DataFrame) (mapping : gmap string (option string))
    (field : string) (test : cell -> bool) (r : list cell) :
  guarded df mapping false field test r = true.
Proof. unfold guarded. destruct (col mapping field); reflexivity. Qed.

(** A criterion whose field is not resolved keeps every row. *)
Lemma guarded_unresolved (df : DataFrame) (mapping : gmap string (option string))
    (active : bool) (field : string) (test : cell -> bool) (r : list cell) :
  resolved mapping field = None ->
  guarded df mapping active field test r = true.
Proof.
  unfold resolved, guarded, col. destruct (get mapping field) as [h|]; [|reflexivity].
  destruct (Py.truthy h); [discriminate |]. rewrite andb_false_r. reflexivity.
Qed.

Lemma guarded_on (df : DataFrame) (mapping : gmap string (option string))
    (active : bool) (field : string) (test : cell -> bool) (r : list cell) (h : string) :
  get mapping field = Some h -> Py.truthy h = true ->
  guarded df mapping active field test r
  = if active then test (get_cell (columns df) r h) else true.
Proof.
  intros Hg Ht. unfold guarded, col. rewrite Hg, Ht, andb_true_r. reflexivity.
Qed.

Lemma guarded_true (df : DataFrame) (mapping : gmap string (option string))
    (active : bool) (field : string) (test : cell -> bool) (r : list cell) :
  (forall c, test c = true) ->
  guarded df mapping active field test r = true.
Proof.
  intros H. unfold guarded. destruct (col mapping field); [|reflexivity].
  destruct (active && _); [apply H | reflexivity].
Qed.

Lemma mobile_ok_off (L : Lib) (df : DataFrame) (mapping : gmap string (option string))
    (r : list cell) : mobile_ok L df mapping false r = true.
Proof. unfold mobile_ok. destruct (col mapping "mobileservice"); reflexivity. Qed.

Lemma filter_all_true {A : Type} (f : A -> bool) (l : list A) :
  (forall x, f x = true) -> List.filter f l = l.
Proof.
  intros H. induction l as [|x l IH]; simpl; [reflexivity |].
  rewrite H, IH. reflexivity.
Qed.

Lemma filter_all_false {A : Type} (f : A -> bool) (l : list A) :
  (forall x, f x = false) -> List.filter f l = [].
Proof.
  intros H. induction l as [|x l IH]; simpl; [reflexivity |].
  rewrite H, IH. reflexivity.
Qed.

Lemma nonempty_false {A : Type} (l : list A) : nonempty l = false -> l = [].
Proof. destruct l; [reflexivity | discriminate]. Qed.

(** Without a criterion every conjunct of the mask holds. *)
Lemma cli_unconstrained_keep (L : Lib) (df : DataFrame) (a : Cli.Args)
    (mapping : gmap string (option string)) (r : list cell) (search : string -> bool) :
  cli_unconstrained a = true -> Cli.keep L df a mapping r search = true.
Proof.
  unfold cli_unconstrained. intros H.
  repeat (apply andb_prop in H as [H ?]).
  repeat match goal with
         | X : negb _ = true |- _ => apply negb_true_iff in X
         end.
  unfold Cli.keep, Cli.city_ok, Cli.neighborhood_ok, Cli.gender_ok, Cli.price_ok,
    Cli.rating_ok, Cli.reviews_ok, Cli.years_ok, Cli.modalities_ok,
    Cli.languages_ok, Cli.availability_ok, Cli.text_all_ok.
  repeat match goal with
         | X : _ = false |- _ => rewrite X; clear X
         end.
  rewrite !guarded_off, mobile_ok_off.
  destruct (Cli.price_min a); [discriminate |].
  destruct (Cli.price_max a); [discriminate |].
  rewrite guarded_true; [reflexivity | intros c; reflexivity].
Qed.

Lemma cli_unconstrained_mask (a : Cli.Args) (mapping : gmap string (option string)) :
  cli_unconstrained a = true -> Cli.mask_updated a mapping = false.
Proof.
  unfold cli_unconstrained. intros H.
  repeat (apply andb_prop in H as [H ?]).
  repeat match goal with
         | X : negb _ = true |- _ => apply negb_true_iff in X
         end.
  unfold Cli.mask_updated.
  repeat match goal with
         | X : _ = false |- _ => rewrite X; clear X
         end.
  cbn [andb orb]. rewrite andb_false_r. reflexivity.
Qed.

Lemma forallb_has_column_nil (hs : list string) (rs : list (list cell)) :
  forallb (has_column {| columns := []; rows := rs |}) hs = negb (nonempty hs).
Proof. destruct hs; reflexivity. Qed.

(** C6. With no criterion in the request the filtering step returns the rows
    of the frame, all of them and in their order. On a frame that has rows
    the frame behind the mask is the frame itself, and without a sort request
    the program then only rearranges the columns of each row. On a frame
    without rows there is no row to keep; the frame behind the mask has lost
    its headers, and the column step fails when a header is an alias. *)
Theorem C6_no_criteria_keeps_every_row (L : Lib) (df : DataFrame) (a : Cli.Args) :
  cli_unconstrained a = true ->
  Cli.filter_rows L df a (autodetect_columns df) = Ok (rows df)
  /\ (rows df <> [] ->
      Cli.masked df a (autodetect_columns df) (rows df)
      = {| columns := columns df; rows := rows df |})
  /\ (rows df <> [] -> Py.truthy_opt (Cli.sort a) = false ->
      exists out,
        Cli.main L df a = ([], Ok out)
        /\ rows out = map (fun r => map (get_cell (columns df) r) (columns out)) (rows df))
  /\ (rows df = [] -> Py.truthy_opt (Cli.sort a) = false ->
      Cli.main L df a
      = ([], if nonempty (preferred (autodetect_columns df)) then Raise KeyError
             else Ok {| columns := []; rows := [] |})).
Proof.
  intros H.
  assert (Hf : forall mapping, Cli.filter_rows L df a mapping = Ok (rows df)).
  { intros mapping. unfold Cli.filter_rows, Cli.neighborhood_search.
    assert (Hn : Py.truthy_opt (Cli.neighborhood a) = false).
    { unfold cli_unconstrained in H.
      repeat (apply andb_prop in H as [H ?]).
      apply negb_true_iff. assumption. }
    rewrite Hn. cbn [andb]. f_equal. apply filter_all_true.
    intros r. apply cli_unconstrained_keep. exact H. }
  assert (Hk : forall mapping, rows df <> [] ->
            Cli.masked df a mapping (rows df)
            = {| columns := columns df; rows := rows df |}).
  { intros mapping Hr. apply (cli_masked_kept L).
    destruct (rows df); [contradiction | reflexivity]. }
  assert (Hp := preferred_In_columns df).
  split; [apply Hf |]. split; [apply Hk |].
  unfold Cli.main. cbv zeta.
  revert Hp. generalize (autodetect_columns df). intros m Hp.
  rewrite Hf. unfold Cli.sort_stage. split.
  - intros Hr Hs. rewrite Hs, (Hk m Hr), getitem_reorder.
    assert (E : forallb (has_column {| columns := columns df; rows := rows df |})
                  (preferred m) = true).
    { apply forallb_forall. intros h Hh. apply existsb_eqb_In. apply Hp. exact Hh. }
    rewrite E. eexists. split; [reflexivity |]. reflexivity.
  - intros Hr Hs. rewrite Hs.
    destruct (cli_masked_lost L df a m (rows df)) as [_ ->].
    { rewrite Hr, (cli_unconstrained_mask a m H). reflexivity. }
    rewrite getitem_reorder, forallb_has_column_nil. unfold reorder.
    destruct (preferred m); reflexivity.
Qed.

(** The three providers of the worked example, without a criterion; and a
    file that holds the header line only. *)
Lemma C6_no_criteria_keeps_every_row_witness :
  cli_unconstrained Sample.no_args = true
  /\ Cli.filter_rows Sample.lib Sample.providers Sample.no_args
       (autodetect_columns Sample.providers)
     = Ok (rows Sample.providers)
  /\ Cli.main Sample.lib Sample.providers Sample.no_args
     = ([], Ok Sample.providers)
  /\ Cli.main Sample.lib sample_header_only Sample.no_args = ([], Raise KeyError).
Proof.
  split; [reflexivity |].
  destruct (C6_no_criteria_keeps_every_row Sample.lib Sample.providers Sample.no_args
              eq_refl) as [H1 [_ [H3 _]]].
  destruct (C6_no_criteria_keeps_every_row Sample.lib sample_header_only Sample.no_args
              eq_refl) as [_ [_ [_ H4]]].
  split; [exact H1 |]. split.
  - destruct H3 as [out [E _]]; [discriminate | reflexivity |].
    assert (E' : Cli.main Sample.lib Sample.providers Sample.no_args
                 = ([], Ok Sample.providers)) by (vm_compute; reflexivity).
    rewrite E' in E. injection E as <-. exact E'.
  - rewrite (H4 eq_refl eq_refl). vm_compute. reflexivity.
Defined.

Lemma lower_app (a b : string) :
  Py.lower (a ++ b)%string = (Py.lower a ++ Py.lower b)%string.
Proof. induction a as [|c a IH]; simpl; [reflexivity | rewrite IH; reflexivity]. Qed.

Lemma truthy_lower (s : string) : Py.truthy (Py.lower s) = Py.truthy s.
Proof. destruct s; reflexivity. Qed.

Lemma str_in_empty (t : string) : Py.truthy t = true -> Py.str_in t "" = false.
Proof. destruct t; [discriminate | reflexivity]. Qed.

(** The requested tokens are trimmed and not empty. *)
Lemma split_strip_tokens (s t : string) :
  In t (split_strip s) -> Py.truthy t = true /\ Py.strip t = t.
Proof.
  unfold split_strip. rewrite in_map_iff. intros [x [<- Hx]].
  apply filter_In in Hx as [_ Hx]. split; [exact Hx | apply strip_idem].
Qed.

Lemma split_list_tokens (o : option string) (t : string) :
  In t (Cli.split_list o) -> Py.truthy t = true /\ Py.strip t = t.
Proof.
  unfold Cli.split_list. destruct o as [s|]; [|intros []].
  destruct (Py.truthy s); [apply split_strip_tokens | intros []].
Qed.

(** The conjuncts of the mask, one by one. *)
Lemma cli_keep_true (L : Lib) (df : DataFrame) (a : Cli.Args)
    (mapping : gmap string (option string)) (r : list cell) (search : string -> bool) :
  Cli.keep L df a mapping r search = true <->
  Cli.city_ok L df a mapping r = true
  /\ Cli.neighborhood_ok L df a mapping r search = true
  /\ Cli.gender_ok L df a mapping r = true
  /\ Cli.price_ok L df a mapping r = true
  /\ Cli.rating_ok L df a mapping r = true
  /\ Cli.reviews_ok L df a mapping r = true
  /\ Cli.years_ok L df a mapping r = true
  /\ mobile_ok L df mapping (Cli.mobile a) r = true
  /\ Cli.modalities_ok L df a mapping r = true
  /\ Cli.languages_ok L df a mapping r = true
  /\ Cli.availability_ok L df a mapping r = true
  /\ Cli.text_all_ok L df a mapping r = true.
Proof. unfold Cli.keep. rewrite !andb_true_iff. tauto. Qed.

(** Every criterion that tests one field through its guard keeps every row
    when that field is not resolved. *)
Lemma cli_unresolved_field_noop (L : Lib) (df : DataFrame) (a : Cli.Args)
    (mapping : gmap string (option string)) (r : list cell) (search : string -> bool) :
  (resolved mapping "city" = None -> Cli.city_ok L df a mapping r = true)
  /\ (resolved mapping "neighborhood" = None ->
      Cli.neighborhood_ok L df a mapping r search = true)
  /\ (resolved mapping "gender" = None -> Cli.gender_ok L df a mapping r = true)
  /\ (resolved mapping "price" = None -> Cli.price_ok L df a mapping r = true)
  /\ (resolved mapping "rating" = None -> Cli.rating_ok L df a mapping r = true)
  /\ (resolved mapping "reviews" = None -> Cli.reviews_ok L df a mapping r = true)
  /\ (resolved mapping "yearsexperience" = None -> Cli.years_ok L df a mapping r = true)
  /\ (resolved mapping "mobileservice" = None ->
      mobile_ok L df mapping (Cli.mobile a) r = true)
  /\ (resolved mapping "modalities" = None -> Cli.modalities_ok L df a mapping r = true)
  /\ (resolved mapping "languages" = None -> Cli.languages_ok L df a mapping r = true)
  /\ (resolved mapping "availability" = None ->
      Cli.availability_ok L df a mapping r = true).
Proof.
  repeat split; try (intros H; apply guarded_unresolved; exact H).
  unfold resolved, mobile_ok, col.
  destruct (get mapping "mobileservice") as [h|]; [|reflexivity].
  destruct (Py.truthy h); [discriminate |]. rewrite andb_false_r. reflexivity.
Qed.

Lemma block_unresolved (L : Lib) (df : DataFrame)
    (mapping : gmap string (option string)) (r : list cell) :
  resolved mapping "bio" = None -> resolved mapping "credentials" = None ->
  block L df mapping r = "".
Proof.
  unfold resolved, block, col.
  destruct (get mapping "bio") as [h1|]; destruct (get mapping "credentials") as [h2|];
    try destruct (Py.truthy h1); try destruct (Py.truthy h2);
    try discriminate; reflexivity.
Qed.

(** The text criterion has no such guard: with neither bio nor credentials
    resolved it searches the empty text and rejects every row. *)
Lemma cli_text_all_unresolved (L : Lib) (df : DataFrame) (a : Cli.Args)
    (mapping : gmap string (option string)) (r : list cell) :
  resolved mapping "bio" = None -> resolved mapping "credentials" = None ->
  nonempty (Cli.req_text a) = true ->
  Cli.text_all_ok L df a mapping r = false.
Proof.
  intros Hb Hc Hn. unfold Cli.text_all_ok, Cli.text_ok. rewrite Hn.
  rewrite (block_unresolved L df mapping r Hb Hc).
  unfold Cli.req_text in *.
  destruct (Cli.split_list (Cli.text a)) as [|t ts] eqn:E; [discriminate |].
  assert (Ht : Py.truthy t = true).
  { apply (split_list_tokens (Cli.text a)). rewrite E. left. reflexivity. }
  unfold contains_all. cbn [forallb Py.lower].
  rewrite str_in_empty; [reflexivity | rewrite truthy_lower; exact Ht].
Qed.

(** C1. On a frame without bio and credentials columns a keyword request
    removes every row: the text criterion is the one criterion that does not
    skip an unresolved field. *)
Theorem C1_text_all_unresolved_drops_rows :
  let df := Sample.no_text_columns in
  let a := Sample.with_text "deep" in
  let mapping := autodetect_columns df in
  resolved mapping "bio" = None
  /\ resolved mapping "credentials" = None
  /\ rows df = [ [Str "Ann"; Str "Vancouver"]; [Str "Bo"; Str "Toronto"] ]
  /\ Cli.filter_rows Sample.lib df a mapping = Ok []
  /\ Cli.main Sample.lib df a = ([], Ok {| columns := ["Name"; "City"]; rows := [] |}).
Proof. vm_compute. repeat split. Qed.

(** ** Numeric bounds *)

Lemma cli_numeric_ok_on (L : Lib) (df : DataFrame) (a : Cli.Args)
    (mapping : gmap string (option string)) (r : list cell) (f : numeric_field)
    (h : string) :
  get mapping (numeric_name f) = Some h -> Py.truthy h = true ->
  cli_numeric_ok L df a mapping r f
  = match f with
    | FPrice => Cli.at_least L (Cli.price_min a) (get_cell (columns df) r h)
                && Cli.at_most L (Cli.price_max a) (get_cell (columns df) r h)
    | FRating => Cli.at_least L (Cli.rating_min a) (get_cell (columns df) r h)
    | FReviews => Cli.at_least L (Cli.reviews_min a) (get_cell (columns df) r h)
    | FYears => Cli.at_least L (Cli.years_min a) (get_cell (columns df) r h)
    end.
Proof.
  intros Hg Ht.
  destruct f; unfold cli_numeric_ok, Cli.price_ok, Cli.rating_ok, Cli.reviews_ok,
    Cli.years_ok; rewrite (guarded_on _ _ _ _ _ _ h Hg Ht).
  - reflexivity.
  - destruct (Cli.rating_min a); reflexivity.
  - destruct (Cli.reviews_min a); reflexivity.
  - destruct (Cli.years_min a); reflexivity.
Qed.

Lemma cli_numeric_ok_keep (L : Lib) (df : DataFrame) (a : Cli.Args)
    (mapping : gmap string (option string)) (r : list cell) (f : numeric_field)
    (search : string -> bool) :
  Cli.keep L df a mapping r search = true -> cli_numeric_ok L df a mapping r f = true.
Proof.
  intros H. apply cli_keep_true in H. destruct f; unfold cli_numeric_ok; tauto.
Qed.

Lemma cli_keep_others (L : Lib) (df : DataFrame) (a : Cli.Args)
    (mapping : gmap string (option string)) (r : list cell) (search : string -> bool)
    (f : numeric_field) :
  Cli.keep L df a mapping r search = true
  <-> cli_numeric_ok L df a mapping r f = true
      /\ cli_others_ok L df a mapping r search f = true.
Proof.
  rewrite cli_keep_true. unfold cli_others_ok. cbn [forallb].
  destruct f; cbn [numeric_field_eqb orb cli_numeric_ok];
    rewrite !andb_true_iff; tauto.
Qed.

(** C7. Under a numeric criterion whose field is resolved, a cell that is
    missing or is text that does not parse as a number has no numeric value
    (it is not read as zero, which meets the bound 0) and meets no bound. When
    the request puts a bound on the field, the row is not among the rows the
    filter returns; when it puts none, the row is among them exactly when it
    passes the other criteria. *)
Theorem C7_unparsable_number_is_missing (L : Lib) (df : DataFrame) (a : Cli.Args)
    (mapping : gmap string (option string)) (r : list cell) (f : numeric_field)
    (h : string) :
  get mapping (numeric_name f) = Some h -> Py.truthy h = true ->
  In r (rows df) ->
  (get_cell (columns df) r h = NaN
   \/ exists s, get_cell (columns df) r h = Str s /\ parse_number L s = None) ->
  to_numeric L (get_cell (columns df) r h) = None
  /\ (forall v, num_ge L v (get_cell (columns df) r h) = false
                /\ num_le L v (get_cell (columns df) r h) = false)
  /\ (to_numeric L (Num 0) = Some 0%Q
      /\ num_ge L 0 (Num 0) = true /\ num_le L 0 (Num 0) = true)
  /\ (existsb is_set (cli_bounds a f) = true ->
      match Cli.filter_rows L df a mapping with
      | Ok rs => ~ In r rs
      | Raise e => e = ReError
      end)
  /\ (existsb is_set (cli_bounds a f) = false ->
      forall search,
        Cli.neighborhood_search L a mapping = Ok search ->
        exists rs,
          Cli.filter_rows L df a mapping = Ok rs
          /\ (In r rs <-> cli_others_ok L df a mapping r search f = true)).
Proof.
  intros Hg Ht Hin Hc.
  assert (Hn : to_numeric L (get_cell (columns df) r h) = None).
  { destruct Hc as [-> | [s [-> Hs]]]; [reflexivity | exact Hs]. }
  assert (Hb : forall v, num_ge L v (get_cell (columns df) r h) = false
                         /\ num_le L v (get_cell (columns df) r h) = false).
  { intros v. unfold num_ge, num_le. rewrite Hn. split; reflexivity. }
  assert (Hok : cli_numeric_ok L df a mapping r f = negb (existsb is_set (cli_bounds a f))).
  { rewrite (cli_numeric_ok_on L df a mapping r f h Hg Ht).
    unfold Cli.at_least, Cli.at_most.
    destruct f; cbn [cli_bounds existsb].
    - destruct (Cli.price_min a) as [v|], (Cli.price_max a) as [v'|]; cbn [is_set];
        rewrite ?(proj1 (Hb _)), ?(proj2 (Hb _)); reflexivity.
    - destruct (Cli.rating_min a) as [v|]; cbn [is_set];
        rewrite ?(proj1 (Hb _)); reflexivity.
    - destruct (Cli.reviews_min a) as [v|]; cbn [is_set];
        rewrite ?(proj1 (Hb _)); reflexivity.
    - destruct (Cli.years_min a) as [v|]; cbn [is_set];
        rewrite ?(proj1 (Hb _)); reflexivity. }
  split; [exact Hn |]. split; [exact Hb |].
  split; [repeat split |].
  unfold Cli.filter_rows. split.
  - intros Hact.
    destruct (Cli.neighborhood_search L a mapping) as [search | e] eqn:Es.
    + intros Hr. apply filter_In in Hr as [_ Hr].
      apply (cli_keep_others L df a mapping r search f) in Hr as [Hr _].
      rewrite Hok, Hact in Hr. discriminate.
    + unfold Cli.neighborhood_search in Es.
      destruct (Py.truthy_opt (Cli.neighborhood a) && _); [|discriminate].
      destruct (re_compile L _); [discriminate |]. injection Es as <-. reflexivity.
  - intros Hact search ->. eexists. split; [reflexivity |].
    rewrite filter_In, (cli_keep_others L df a mapping r search f), Hok, Hact.
    cbn [negb]. tauto.
Qed.

(** A price given as N/A: the provider is dropped under a price maximum and
    stays when the request has no price bound. *)
Lemma C7_unparsable_number_is_missing_witness :
  let df := Sample.price_as_text in
  let r := [Str "Ann"; Str "N/A"] in
  get (autodetect_columns df) "price" = Some "Price"
  /\ In r (rows df)
  /\ get_cell (columns df) r "Price" = Str "N/A"
  /\ parse_number Sample.lib "N/A" = None
  /\ Cli.filter_rows Sample.lib df (Sample.with_price_max 120) (autodetect_columns df)
     = Ok [ [Str "Bo"; Str "100"] ]
  /\ ~ In r [ [Str "Bo"; Str "100"] ]
  /\ exists rs,
       Cli.filter_rows Sample.lib df Sample.no_args (autodetect_columns df) = Ok rs
       /\ In r rs.
Proof.
  cbv zeta.
  assert (Hg : get (autodetect_columns Sample.price_as_text) "price" = Some "Price").
  { vm_compute. reflexivity. }
  assert (Hin : In [Str "Ann"; Str "N/A"] (rows Sample.price_as_text)).
  { left. reflexivity. }
  assert (E : Cli.filter_rows Sample.lib Sample.price_as_text (Sample.with_price_max 120)
                (autodetect_columns Sample.price_as_text)
              = Ok [ [Str "Bo"; Str "100"] ]) by (vm_compute; reflexivity).
  split; [exact Hg |]. split; [exact Hin |]. split; [reflexivity |].
  split; [reflexivity |]. split; [exact E |].
  destruct (C7_unparsable_number_is_missing Sample.lib Sample.price_as_text
              (Sample.with_price_max 120) (autodetect_columns Sample.price_as_text)
              [Str "Ann"; Str "N/A"] FPrice "Price" Hg eq_refl Hin
              (or_intror (ex_intro _ "N/A" (conj eq_refl eq_refl))))
    as [_ [_ [_ [H4 _]]]].
  destruct (C7_unparsable_number_is_missing Sample.lib Sample.price_as_text
              Sample.no_args (autodetect_columns Sample.price_as_text)
              [Str "Ann"; Str "N/A"] FPrice "Price" Hg eq_refl Hin
              (or_intror (ex_intro _ "N/A" (conj eq_refl eq_refl))))
    as [_ [_ [_ [_ H5]]]].
  split.
  - specialize (H4 eq_refl). rewrite E in H4. exact H4.
  - destruct (H5 eq_refl (fun _ => true) eq_refl) as [rs [Hrs Hiff]].
    exists rs. split; [exact Hrs |]. apply Hiff. vm_compute. reflexivity.
Defined.

(** ** Token lists *)

Lemma contains_all_spec (haystack : string) (needles : list string) :
  contains_all haystack needles = true
  <-> Forall (fun t => occurs_ci t haystack) needles.
Proof.
  unfold contains_all, occurs_ci. rewrite forallb_forall, List.Forall_forall.
  split; intros H t Ht; apply str_in_spec; apply H; exact Ht.
Qed.

Lemma cli_tokens_ok_on (L : Lib) (df : DataFrame) (a : Cli.Args)
    (mapping : gmap string (option string)) (r : list cell) (f : token_field)
    (h : string) :
  get mapping (token_name f) = Some h -> Py.truthy h = true ->
  cli_tokens_ok L df a mapping r f
  = contains_all (astype_str L (get_cell (columns df) r h)) (cli_tokens a f).
Proof.
  intros Hg Ht.
  destruct f; unfold cli_tokens_ok, Cli.modalities_ok, Cli.languages_ok, cli_tokens;
    rewrite (guarded_on _ _ _ _ _ _ h Hg Ht); unfold all_in.
  - destruct (Cli.req_modalities a); reflexivity.
  - destruct (Cli.req_languages a); reflexivity.
Qed.

Lemma cli_text_all_ok_spec (L : Lib) (df : DataFrame) (a : Cli.Args)
    (mapping : gmap string (option string)) (r : list cell) :
  Cli.text_all_ok L df a mapping r
  = contains_all (block L df mapping r) (Cli.req_text a).
Proof.
  unfold Cli.text_all_ok, Cli.text_ok. destruct (Cli.req_text a); reflexivity.
Qed.

(** ** Missing cells under the text criteria *)

Lemma plain_app (a b : string) : plain (a ++ b)%string = plain a && plain b.
Proof.
  induction a as [|c a IH]; simpl; [reflexivity |].
  rewrite IH, andb_assoc. reflexivity.
Qed.

(** What occurs in a plain text is plain. *)
Lemma plain_str_in (p s : string) :
  Py.str_in p s = true -> plain s = true -> plain p = true.
Proof.
  rewrite str_in_spec. intros [pre [post ->]].
  rewrite !plain_app, !andb_true_iff. tauto.
Qed.

Lemma forallb_str_in_trans (needles : list string) (mid hay : string) :
  Forall (fun t => Py.str_in (Py.lower t) mid = true) needles ->
  Py.str_in mid hay = true ->
  forallb (fun n => Py.str_in (Py.lower n) hay) needles = true.
Proof.
  intros H Hm. apply forallb_forall. intros t Ht.
  rewrite List.Forall_forall in H.
  apply (str_in_trans _ mid); [apply H; exact Ht | exact Hm].
Qed.

Lemma existsb_str_in_nonempty (days : list string) (s : string) :
  nonempty days = true ->
  Forall (fun d => Py.str_in d s = true) days ->
  existsb (fun d => Py.str_in d s) days = true.
Proof.
  destruct days as [|d ds]; [discriminate |].
  intros _ H. inversion H as [|x l Hd _]; subst. simpl. rewrite Hd. reflexivity.
Qed.

(** C10. A missing cell is read as the text nan by every criterion on text:
    city-equals and gender-equals with the request nan keep the row; the
    neighbourhood, modalities, languages, availability and keyword criteria
    keep it when every requested token occurs in nan, letter case aside. *)
Theorem C10_missing_cell_reads_nan (L : Lib) (df : DataFrame) (a : Cli.Args)
    (mapping : gmap string (option string)) (r : list cell) (field h : string) :
  get mapping field = Some h -> Py.truthy h = true ->
  get_cell (columns df) r h = NaN ->
  astype_str L (get_cell (columns df) r h) = "nan"
  /\ (field = "city" ->
      forall c, Cli.city a = Some c -> Py.lower c = "nan" ->
        Cli.city_ok L df a mapping r = true)
  /\ (field = "gender" ->
      forall g, Cli.gender a = Some g -> Py.lower g = "nan" ->
        Cli.gender_ok L df a mapping r = true)
  /\ (field = "neighborhood" -> literal_search L ->
      forall n, Cli.neighborhood a = Some n -> Py.str_in (Py.lower n) "nan" = true ->
        exists search,
          Cli.neighborhood_search L a mapping = Ok search
          /\ Cli.neighborhood_ok L df a mapping r search = true)
  /\ (field = "modalities" ->
      Forall (fun t => Py.str_in (Py.lower t) "nan" = true) (Cli.req_modalities a) ->
      Cli.modalities_ok L df a mapping r = true)
  /\ (field = "languages" ->
      Forall (fun t => Py.str_in (Py.lower t) "nan" = true) (Cli.req_languages a) ->
      Cli.languages_ok L df a mapping r = true)
  /\ (field = "availability" ->
      Forall (fun d => Py.str_in d "nan" = true) (Cli.req_days a) ->
      Cli.availability_ok L df a mapping r = true)
  /\ (field = "bio" \/ field = "credentials" ->
      Forall (fun t => Py.str_in (Py.lower t) "nan" = true) (Cli.req_text a) ->
      Cli.text_all_ok L df a mapping r = true).
Proof.
  intros Hg Ht Hc.
  split; [rewrite Hc; reflexivity |].
  split.
  { intros -> c Hcity Hlow. unfold Cli.city_ok.
    rewrite (guarded_on _ _ _ _ _ _ h Hg Ht), Hcity.
    destruct (Py.truthy_opt (Some c)); [|reflexivity].
    unfold eq_lower. rewrite Hc. simpl. rewrite Hlow. reflexivity. }
  split.
  { intros -> g Hgen Hlow. unfold Cli.gender_ok.
    rewrite (guarded_on _ _ _ _ _ _ h Hg Ht), Hgen.
    destruct (Py.truthy_opt (Some g)); [|reflexivity].
    unfold eq_lower. rewrite Hc. simpl. rewrite Hlow. reflexivity. }
  split.
  { intros -> Hlit n Hn Hin. unfold Cli.neighborhood_search, col.
    rewrite Hg, Hn. simpl. rewrite Ht, andb_true_r.
    destruct (Py.truthy n) eqn:En.
    - destruct (Hlit (Py.lower n)) as [s [Hs Hsearch]].
      { apply (plain_str_in _ "nan" Hin). reflexivity. }
      rewrite Hs. exists s. split; [reflexivity |].
      unfold Cli.neighborhood_ok.
      rewrite (guarded_on _ _ _ _ _ _ h Hg Ht), Hn. simpl. rewrite En.
      unfold contains_lower. rewrite Hc, Hsearch. exact Hin.
    - exists (fun _ => true). split; [reflexivity |].
      unfold Cli.neighborhood_ok.
      rewrite (guarded_on _ _ _ _ _ _ h Hg Ht), Hn. simpl. rewrite En.
      reflexivity. }
  split.
  { intros -> Hall. unfold Cli.modalities_ok.
    rewrite (guarded_on _ _ _ _ _ _ h Hg Ht).
    destruct (nonempty (Cli.req_modalities a)); [|reflexivity].
    unfold all_in, contains_all. rewrite Hc.
    apply (forallb_str_in_trans _ "nan"); [exact Hall | reflexivity]. }
  split.
  { intros -> Hall. unfold Cli.languages_ok.
    rewrite (guarded_on _ _ _ _ _ _ h Hg Ht).
    destruct (nonempty (Cli.req_languages a)); [|reflexivity].
    unfold all_in, contains_all. rewrite Hc.
    apply (forallb_str_in_trans _ "nan"); [exact Hall | reflexivity]. }
  split.
  { intros -> Hall. unfold Cli.availability_ok.
    rewrite (guarded_on _ _ _ _ _ _ h Hg Ht).
    destruct (nonempty (Cli.req_days a)) eqn:En; [|reflexivity].
    unfold any_day. rewrite Hc.
    apply existsb_str_in_nonempty; [exact En | exact Hall]. }
  intros Hf Hall. rewrite cli_text_all_ok_spec. unfold contains_all.
  apply (forallb_str_in_trans _ "nan"); [exact Hall |].
  unfold block, col. destruct Hf as [-> | ->]; rewrite Hg, Ht, Hc; cbn [astype_str].
  - rewrite lower_app. apply (str_in_app "nan" " ").
  - rewrite lower_app. apply str_in_spec.
    exists (Py.lower
              match get mapping "bio" with
              | Some h0 =>
                  if Py.truthy h0
                  then (" " ++ astype_str L (get_cell (columns df) r h0))%string
                  else ""
              | None => ""
              end ++ " ")%string, "".
    rewrite string_app_assoc. reflexivity.
Qed.

(** The provider without a city is found by asking for the city nan, and
    the provider without a bio by the keyword na. *)
Lemma C10_missing_cell_reads_nan_witness :
  let df := Sample.city_missing in
  let mapping := autodetect_columns df in
  get mapping "city" = Some "City"
  /\ get_cell (columns df) [Str "Bo"; NaN; NaN] "City" = NaN
  /\ Cli.city_ok Sample.lib df (Sample.with_city "NaN") mapping [Str "Bo"; NaN; NaN] = true
  /\ Cli.filter_rows Sample.lib df (Sample.with_city "NaN") mapping
     = Ok [ [Str "Bo"; NaN; NaN] ]
  /\ Cli.filter_rows Sample.lib df (Sample.with_text "na") mapping
     = Ok [ [Str "Bo"; NaN; NaN] ].
Proof.
  cbv zeta.
  assert (Hg : get (autodetect_columns Sample.city_missing) "city" = Some "City").
  { vm_compute. reflexivity. }
  split; [exact Hg |]. split; [reflexivity |].
  split.
  { destruct (C10_missing_cell_reads_nan Sample.lib Sample.city_missing
                (Sample.with_city "NaN") (autodetect_columns Sample.city_missing)
                [Str "Bo"; NaN; NaN] "city" "City" Hg eq_refl eq_refl)
      as [_ [Hcity _]].
    apply (Hcity eq_refl "NaN"); reflexivity. }
  split; vm_compute; reflexivity.
Defined.

(** ** Order of sort keys *)

Lemma skey_cmp_antisym (a b : skey) : skey_cmp b a = CompOpp (skey_cmp a b).
Proof.
  destruct a as [x | s], b as [y | t]; simpl; try reflexivity.
  - symmetry. apply Qcompare_antisym.
  - apply String.compare_antisym.
Qed.

Lemma string_compare_refl (s : string) : String.compare s s = Eq.
Proof.
  induction s as [|c s IH]; simpl; [reflexivity |].
  unfold Ascii.compare. rewrite N.compare_refl. exact IH.
Qed.

Lemma skey_cmp_refl (a : skey) : skey_cmp a a = Eq.
Proof.
  destruct a as [x | s]; simpl.
  - apply Qeq_alt. reflexivity.
  - apply string_compare_refl.
Qed.

(** Two keys that tie with a third tie with each other. *)
Lemma skey_cmp_eq_trans (a b c : skey) :
  skey_cmp a b = Eq -> skey_cmp a c = Eq -> skey_cmp b c = Eq.
Proof.
  destruct a as [x | s], b as [y | t], c as [z | u]; simpl; try discriminate.
  - rewrite <- !Qeq_alt. intros H1 H2. rewrite <- H1, <- H2. reflexivity.
  - intros H1 H2. apply String.compare_eq_iff in H1, H2. subst.
    apply string_compare_refl.
Qed.

Lemma skey_leb_total (a b : skey) : skey_leb a b = false -> skey_leb b a = true.
Proof.
  unfold skey_leb. rewrite (skey_cmp_antisym a b).
  destruct (skey_cmp a b); simpl; congruence.
Qed.

Lemma code_cmp_antisym (asc : bool) (a b : cell) :
  code_cmp asc b a = CompOpp (code_cmp asc a b).
Proof.
  unfold code_cmp. destruct (key_of a) as [x|], (key_of b) as [y|]; try reflexivity.
  destruct asc; apply skey_cmp_antisym.
Qed.

Lemma code_cmp_eq_trans (asc : bool) (a b c : cell) :
  code_cmp asc a b = Eq -> code_cmp asc a c = Eq -> code_cmp asc b c = Eq.
Proof.
  unfold code_cmp.
  destruct (key_of a) as [x|], (key_of b) as [y|], (key_of c) as [z|];
    try discriminate; try reflexivity.
  destruct asc.
  - apply skey_cmp_eq_trans.
  - intros H1 H2. apply (skey_cmp_eq_trans x z y).
    + rewrite (skey_cmp_antisym z x), H2. reflexivity.
    + rewrite (skey_cmp_antisym y x), H1. reflexivity.
Qed.

Lemma lex_cmp_antisym (hs : list string) (keys : list (string * bool))
    (r1 r2 : list cell) :
  lex_cmp hs keys r2 r1 = CompOpp (lex_cmp hs keys r1 r2).
Proof.
  induction keys as [|[h asc] ks IH]; simpl; [reflexivity |].
  rewrite (code_cmp_antisym asc (get_cell hs r1 h) (get_cell hs r2 h)).
  destruct (code_cmp asc (get_cell hs r1 h) (get_cell hs r2 h)); simpl;
    [exact IH | reflexivity | reflexivity].
Qed.

Lemma lex_cmp_eq_trans (hs : list string) (keys : list (string * bool))
    (r1 r2 r3 : list cell) :
  lex_cmp hs keys r1 r2 = Eq -> lex_cmp hs keys r1 r3 = Eq ->
  lex_cmp hs keys r2 r3 = Eq.
Proof.
  induction keys as [|[h asc] ks IH]; simpl; [reflexivity |].
  destruct (code_cmp asc (get_cell hs r1 h) (get_cell hs r2 h)) eqn:E1; try discriminate.
  destruct (code_cmp asc (get_cell hs r1 h) (get_cell hs r3 h)) eqn:E2; try discriminate.
  rewrite (code_cmp_eq_trans asc _ _ _ E1 E2). exact IH.
Qed.

Lemma lex_leb_total (hs : list string) (keys : list (string * bool))
    (r1 r2 : list cell) :
  lex_leb hs keys r1 r2 = false -> lex_leb hs keys r2 r1 = true.
Proof.
  unfold lex_leb. rewrite (lex_cmp_antisym hs keys r1 r2).
  destruct (lex_cmp hs keys r1 r2); simpl; congruence.
Qed.

(** Rows that tie with a third row are in order. *)
Lemma tied_leb (hs : list string) (keys : list (string * bool)) (x a y : list cell) :
  tied hs keys x a = true -> tied hs keys x y = true -> lex_leb hs keys a y = true.
Proof.
  unfold tied, lex_leb.
  destruct (lex_cmp hs keys x a) eqn:E1; try discriminate.
  destruct (lex_cmp hs keys x y) eqn:E2; try discriminate.
  rewrite (lex_cmp_eq_trans hs keys x a y E1 E2). reflexivity.
Qed.

(** ** Insertion sort *)

Lemma insert_by_Permutation {A : Type} (leb : A -> A -> bool) (x : A) (l : list A) :
  Permutation (insert_by leb x l) (x :: l).
Proof.
  induction l as [|y l IH]; simpl; [apply Permutation_refl |].
  destruct (leb x y); [apply Permutation_refl |].
  apply (Permutation_trans (perm_skip y IH)). apply perm_swap.
Qed.

Lemma isort_Permutation {A : Type} (leb : A -> A -> bool) (l : list A) :
  Permutation (isort leb l) l.
Proof.
  induction l as [|x l IH]; simpl; [apply perm_nil |].
  apply (Permutation_trans (insert_by_Permutation leb x (isort leb l))).
  apply perm_skip. exact IH.
Qed.

Lemma insert_by_Sorted {A : Type} (leb : A -> A -> bool) (x : A) (l : list A) :
  (forall a b, leb a b = false -> leb b a = true) ->
  Sorted (fun a b => leb a b = true) l ->
  Sorted (fun a b => leb a b = true) (insert_by leb x l).
Proof.
  intros Htot. induction 1 as [|y l Hs IH Hhd]; simpl.
  - constructor; constructor.
  - destruct (leb x y) eqn:E.
    + constructor; [constructor; assumption | constructor; exact E].
    + constructor; [exact IH |].
      destruct l as [|z l]; simpl.
      * constructor. apply Htot. exact E.
      * destruct (leb x z); constructor.
        -- apply Htot. exact E.
        -- inversion Hhd. assumption.
Qed.

Lemma isort_Sorted {A : Type} (leb : A -> A -> bool) (l : list A) :
  (forall a b, leb a b = false -> leb b a = true) ->
  Sorted (fun a b => leb a b = true) (isort leb l).
Proof.
  intros Htot. induction l as [|x l IH]; simpl; [constructor |].
  apply insert_by_Sorted; assumption.
Qed.

(** Insertion sort is stable: the elements of a class whose members the
    order does not separate come out in the order they went in. *)
Lemma insert_by_stable {A : Type} (leb : A -> A -> bool) (eqv : A -> bool)
    (x : A) (l : list A) :
  (forall a y, eqv a = true -> eqv y = true -> leb a y = true) ->
  List.filter eqv (insert_by leb x l) = List.filter eqv (x :: l).
Proof.
  intros H. induction l as [|y l IH]; [reflexivity |].
  simpl insert_by. destruct (leb x y) eqn:E; [reflexivity |].
  simpl in *. destruct (eqv x) eqn:Ex, (eqv y) eqn:Ey; rewrite IH; try reflexivity.
  rewrite (H x y Ex Ey) in E. discriminate.
Qed.

Lemma isort_stable {A : Type} (leb : A -> A -> bool) (eqv : A -> bool) (l : list A) :
  (forall a y, eqv a = true -> eqv y = true -> leb a y = true) ->
  List.filter eqv (isort leb l) = List.filter eqv l.
Proof.
  intros H. induction l as [|x l IH]; [reflexivity |].
  simpl isort. rewrite (insert_by_stable leb eqv _ _ H).
  simpl. rewrite IH. reflexivity.
Qed.

(** ** [sort_values] with two or more keys *)

Lemma sort_values_lexsort (L : Lib) (df : DataFrame) (by_ : list string)
    (ascending : list bool) :
  length by_ = length ascending -> (2 <= length by_)%nat ->
  forallb (has_column df) by_ = true ->
  sort_values L df by_ ascending
  = Ok {| columns := columns df;
          rows := lexsort (columns df) (combine by_ ascending) (rows df) |}.
Proof.
  intros Hlen H2 Hc. unfold sort_values.
  rewrite Hlen, Nat.eqb_refl, Hc. cbn [negb].
  destruct by_ as [|h [|h' by_]]; simpl in H2; try lia.
  destruct ascending as [|b [|b' ascending]]; simpl in Hlen; try lia.
  reflexivity.
Qed.

(** C5. With two or more resolved keys the sort is the stable lexsort,
    whatever the columns hold: it returns the rows rearranged, in the order
    of the keys, and rows that tie under every key keep the order they had
    before the sort. *)
Theorem C5_multi_key_sort_is_stable (L : Lib) (df : DataFrame) (by_ : list string)
    (ascending : list bool) :
  length by_ = length ascending -> (2 <= length by_)%nat ->
  forallb (has_column df) by_ = true ->
  exists out,
    sort_values L df by_ ascending = Ok out
    /\ columns out = columns df
    /\ Permutation (rows out) (rows df)
    /\ Sorted (fun r1 r2 => lex_leb (columns df) (combine by_ ascending) r1 r2 = true)
         (rows out)
    /\ forall r,
         List.filter (tied (columns df) (combine by_ ascending) r) (rows out)
         = List.filter (tied (columns df) (combine by_ ascending) r) (rows df).
Proof.
  intros Hlen H2 Hc.
  eexists. split; [apply sort_values_lexsort; assumption |].
  cbn [columns rows]. split; [reflexivity |]. unfold lexsort.
  split; [apply isort_Permutation |].
  split; [apply isort_Sorted; intros a b; apply lex_leb_total |].
  intros r. apply isort_stable. intros a y. apply tied_leb.
Qed.

(** Sorting by price, then by descending rating: the two providers with the
    same price and the same rating, and the two without a rating, stay in
    the order of the file. *)
Lemma C5_multi_key_sort_is_stable_witness :
  exists out,
    sort_values Sample.lib sample_ties ["Price"; "Rating"] [true; false] = Ok out
    /\ Cli.main Sample.lib sample_ties (Sample.with_sort "price,-rating") = ([], Ok out)
    /\ rows out
       = [ [Str "Cy"; Num 90; Num (45 # 10)];
           [Str "Bo"; Num 100; Num (49 # 10)];
           [Str "Ann"; Num 100; Num (48 # 10)];
           [Str "Di"; Num 100; Num (48 # 10)];
           [Str "Ed"; Num 100; NaN];
           [Str "Flo"; Num 100; NaN] ]
    /\ forall r,
         List.filter (tied (columns sample_ties) [("Price", true); ("Rating", false)] r)
           (rows out)
         = List.filter (tied (columns sample_ties) [("Price", true); ("Rating", false)] r)
             (rows sample_ties).
Proof.
  destruct (C5_multi_key_sort_is_stable Sample.lib sample_ties
              ["Price"; "Rating"] [true; false] eq_refl (le_n 2) eq_refl)
    as [out [H1 [_ [_ [_ H5]]]]].
  exists out. split; [exact H1 |].
  assert (E : sort_values Sample.lib sample_ties ["Price"; "Rating"] [true; false]
              = Ok {| columns := ["Name"; "Price"; "Rating"];
                      rows := [ [Str "Cy"; Num 90; Num (45 # 10)];
                                [Str "Bo"; Num 100; Num (49 # 10)];
                                [Str "Ann"; Num 100; Num (48 # 10)];
                                [Str "Di"; Num 100; Num (48 # 10)];
                                [Str "Ed"; Num 100; NaN];
                                [Str "Flo"; Num 100; NaN] ] |}).
  { vm_compute. reflexivity. }
  rewrite E in H1. injection H1 as <-.
  split; [vm_compute; reflexivity |]. split; [reflexivity | exact H5].
Defined.

(** ** Positions *)

Lemma map_nth_seq {A : Type} (d : A) (l : list A) :
  map (fun i => nth i l d) (seq 0 (length l)) = l.
Proof.
  induction l as [|x l IH]; [reflexivity |].
  cbn [length seq map nth]. rewrite <- seq_shift, map_map. cbn [nth].
  rewrite IH. reflexivity.
Qed.

(** Taking the elements at a rearrangement of all positions rearranges the
    list. *)
Lemma take_Permutation {A : Type} (d : A) (idx : list nat) (l : list A) :
  Permutation idx (seq 0 (length l)) -> Permutation (take d idx l) l.
Proof.
  intros H. unfold take.
  apply (Permutation_trans (Permutation_map (fun i => nth i l d) H)).
  rewrite map_nth_seq. apply Permutation_refl.
Qed.

Lemma filter_split_Permutation {A : Type} (f : A -> bool) (l : list A) :
  Permutation (List.filter f l ++ List.filter (fun x => negb (f x)) l) l.
Proof.
  induction l as [|x l IH]; simpl; [apply perm_nil |].
  destruct (f x); simpl.
  - apply perm_skip. exact IH.
  - apply Permutation_sym. apply Permutation_cons_app. apply Permutation_sym. exact IH.
Qed.

Lemma get_cell_nil (hs : list string) (h : string) : get_cell hs [] h = NaN.
Proof. unfold get_cell. destruct (index_of h hs) as [[|i]|]; reflexivity. Qed.

(** The cell of the [i]-th row is the [i]-th cell of the column. *)
Lemma get_cell_nth_row (df : DataFrame) (h : string) (i : nat) :
  get_cell (columns df) (nth i (rows df) []) h = nth i (column df h) NaN.
Proof.
  unfold column.
  rewrite <- (get_cell_nil (columns df) h).
  rewrite (map_nth (fun r => get_cell (columns df) r h)). reflexivity.
Qed.

Lemma key_of_isna (c : cell) : isna c = false -> exists k, key_of c = Some k.
Proof. destruct c; try discriminate; eexists; reflexivity. Qed.

Lemma omap_key_length (items : list cell) (idx : list nat) :
  Forall (fun i => isna (nth i items NaN) = false) idx ->
  length (omap (fun i => key_of (nth i items NaN)) idx) = length idx.
Proof.
  induction 1 as [|i idx Hi _ IH]; [reflexivity |].
  destruct (key_of_isna _ Hi) as [k Hk].
  change (omap (fun i => key_of (nth i items NaN)) (i :: idx))
    with (match key_of (nth i items NaN) with
          | Some k => k :: omap (fun i => key_of (nth i items NaN)) idx
          | None => omap (fun i => key_of (nth i items NaN)) idx
          end).
  rewrite Hk. simpl. rewrite IH. reflexivity.
Qed.

(** [nargsort] returns every position once, the positions of the missing
    values after the others. *)
Lemma nargsort_spec (L : Lib) (items : list cell) (ascending : bool) :
  argsort_ok (quicksort L) ->
  exists front back,
    nargsort L items ascending = front ++ back
    /\ Permutation (front ++ back) (seq 0 (length items))
    /\ Forall (fun i => isna (nth i items NaN) = false) front
    /\ Forall (fun i => isna (nth i items NaN) = true) back.
Proof.
  intros Hq. unfold nargsort.
  set (present := fun i => negb (isna (nth i items NaN))).
  set (idx := seq 0 (length items)).
  set (ni := if ascending then List.filter present idx else rev (List.filter present idx)).
  set (ks := omap (fun i => key_of (nth i items NaN)) ni).
  assert (Hni : Permutation ni (List.filter present idx)).
  { unfold ni. destruct ascending; [apply Permutation_refl |].
    apply Permutation_sym, Permutation_rev. }
  assert (Hpres : Forall (fun i => isna (nth i items NaN) = false) ni).
  { apply List.Forall_forall. intros i Hi.
    apply (Permutation_in _ Hni) in Hi. apply filter_In in Hi as [_ Hi].
    unfold present in Hi. apply negb_true_iff in Hi. exact Hi. }
  assert (Hlen : length ks = length ni) by (apply omap_key_length; exact Hpres).
  assert (Hix : Permutation (take 0%nat (quicksort L ks) ni) ni).
  { apply take_Permutation. rewrite <- Hlen. apply (Hq ks). }
  set (indexer := if ascending then take 0%nat (quicksort L ks) ni
                  else rev (take 0%nat (quicksort L ks) ni)).
  assert (Hind : Permutation indexer (List.filter present idx)).
  { unfold indexer. destruct ascending.
    - apply (Permutation_trans Hix Hni).
    - apply (Permutation_trans (Permutation_sym (Permutation_rev _))).
      apply (Permutation_trans Hix Hni). }
  exists indexer, (List.filter (fun i => negb (present i)) idx).
  split; [reflexivity |]. split.
  { apply (Permutation_trans (Permutation_app_tail _ Hind)).
    apply filter_split_Permutation. }
  split.
  - apply List.Forall_forall. intros i Hi.
    apply (Permutation_in _ Hind) in Hi. apply filter_In in Hi as [_ Hi].
    unfold present in Hi. apply negb_true_iff in Hi. exact Hi.
  - apply List.Forall_forall. intros i Hi. apply filter_In in Hi as [_ Hi].
    unfold present in Hi. rewrite negb_involutive in Hi. exact Hi.
Qed.

Lemma column_length (df : DataFrame) (h : string) :
  length (column df h) = length (rows df).
Proof. unfold column. apply length_map. Qed.

(** ** The sample sorts keep the promise of [argsort] *)

Lemma combine_seq_nth (d : skey) (l : list skey) (a : nat) (k : skey) (i : nat) :
  In (k, i) (combine l (seq a (length l))) ->
  (a <= i)%nat /\ nth (i - a) l d = k.
Proof.
  revert a. induction l as [|x l IH]; intros a; [intros [] |].
  cbn [length seq combine]. intros [H | H].
  - injection H as <- <-. rewrite Nat.sub_diag. split; [lia | reflexivity].
  - destruct (IH (S a) H) as [Hle Hn]. split; [lia |].
    replace (i - a)%nat with (S (i - S a)) by lia. exact Hn.
Qed.

Lemma map_snd_combine {A B : Type} (l : list A) (l' : list B) :
  length l = length l' -> map snd (combine l l') = l'.
Proof.
  revert l'. induction l as [|x l IH]; intros [|y l'] H; try discriminate; [reflexivity |].
  simpl. rewrite IH; [reflexivity | simpl in H; lia].
Qed.

Lemma Sorted_map {A B : Type} (R : A -> A -> Prop) (R' : B -> B -> Prop)
    (f : A -> B) (l : list A) :
  (forall a b, R a b -> R' (f a) (f b)) ->
  Sorted R l -> Sorted R' (map f l).
Proof.
  intros H. induction 1 as [|x l Hs IH Hhd]; simpl; constructor; [exact IH |].
  destruct Hhd; simpl; constructor. apply H. assumption.
Qed.

Lemma argsort_by_ok (leb : skey * nat -> skey * nat -> bool) :
  (forall a b, leb a b = false -> leb b a = true) ->
  (forall a b, leb a b = true -> skey_leb (fst a) (fst b) = true) ->
  argsort_ok (Sample.argsort_by leb).
Proof.
  intros Htot Hkey l. unfold Sample.argsort_by.
  set (pairs := combine l (seq 0 (length l))).
  assert (Hp : Permutation (isort leb pairs) pairs) by apply isort_Permutation.
  split.
  - apply (Permutation_trans (Permutation_map snd Hp)).
    unfold pairs. rewrite map_snd_combine; [apply Permutation_refl |].
    rewrite length_seq. reflexivity.
  - unfold take. rewrite map_map.
    rewrite (map_ext_in _ fst).
    + apply (Sorted_map (fun a b => leb a b = true)); [exact Hkey |].
      apply isort_Sorted. exact Htot.
    + intros [k i] Hin. apply (Permutation_in _ Hp) in Hin.
      destruct (combine_seq_nth skey_default l 0 k i Hin) as [_ Hn].
      rewrite Nat.sub_0_r in Hn. exact Hn.
Qed.

Lemma insertion_argsort_ok : argsort_ok Sample.insertion_argsort.
Proof.
  apply argsort_by_ok.
  - intros a b. apply skey_leb_total.
  - intros a b H. exact H.
Qed.

(** ** Missing values under a sort key *)

(** Under one key a missing value is after every present value, whatever
    the direction. *)
Lemma code_cmp_missing (asc : bool) (c d : cell) :
  isna c = true -> isna d = false ->
  code_cmp asc c d = Gt /\ code_cmp asc d c = Lt.
Proof.
  intros Hc Hd. destruct c; try discriminate.
  destruct (key_of_isna d Hd) as [k Hk]. unfold code_cmp. rewrite Hk.
  split; reflexivity.
Qed.

(** The provider without a price is listed after the provider with one when
    the frame is sorted by ascending price, where a lowest value would come
    first, and equally when it is sorted by descending price, where a highest
    value would come first. *)
Lemma C2_missing_value_is_not_lowest :
  rows Sample.one_price_missing = [ [Str "Ann"; NaN]; [Str "Bo"; Num 100] ]
  /\ Cli.main Sample.lib Sample.one_price_missing (Sample.with_sort "price")
     = ([], Ok {| columns := ["Name"; "Price"];
                  rows := [ [Str "Bo"; Num 100]; [Str "Ann"; NaN] ] |})
  /\ Cli.main Sample.lib Sample.one_price_missing (Sample.with_sort "-price")
     = ([], Ok {| columns := ["Name"; "Price"];
                  rows := [ [Str "Bo"; Num 100]; [Str "Ann"; NaN] ] |})
  /\ ~ (forall out,
          Cli.main Sample.lib Sample.one_price_missing (Sample.with_sort "price")
          = ([], Ok out) ->
          all_last (fun r => negb (isna (get_cell (columns out) r "Price"))) (rows out)
          = true).
Proof.
  assert (E : Cli.main Sample.lib Sample.one_price_missing (Sample.with_sort "price")
              = ([], Ok {| columns := ["Name"; "Price"];
                           rows := [ [Str "Bo"; Num 100]; [Str "Ann"; NaN] ] |})).
  { vm_compute. reflexivity. }
  split; [reflexivity |]. split; [exact E |].
  split; [vm_compute; reflexivity |].
  intros H. specialize (H _ E). vm_compute in H. discriminate.
Qed.

(** With one key the rows are ordered by numpy's quicksort. The eighteen
    providers of one city, sorted by city, come back with the second to the
    sixteenth in reverse: rows that tie under the one key do not keep their
    order. *)
Lemma C5_single_key_ties_move :
  (forall r, In r (rows sample_same_city) ->
     tied (columns sample_same_city) [("City", true)] [Num 0; Str "Vancouver"] r = true)
  /\ Cli.main sample_numpy_lib sample_same_city (Sample.with_sort "city")
     = ([], Ok {| columns := ["City"; "Id"];
                  rows := map (fun i => [Str "Vancouver"; Num (inject_Z i)])
                            [0; 15; 14; 13; 12; 11; 10; 9; 8; 7; 6; 5; 4; 3; 2; 1; 16; 17]%Z |})
  /\ sort_values sample_numpy_lib sample_same_city ["City"] [true]
     = Ok {| columns := ["Id"; "City"];
             rows := map (fun i => [Num (inject_Z i); Str "Vancouver"])
                       [0; 15; 14; 13; 12; 11; 10; 9; 8; 7; 6; 5; 4; 3; 2; 1; 16; 17]%Z |}
  /\ ~ (forall (df : DataFrame) (by_ : list string) (ascending : list bool)
           (out : DataFrame),
         sort_values sample_numpy_lib df by_ ascending = Ok out ->
         forall r,
           List.filter (tied (columns df) (combine by_ ascending) r) (rows out)
           = List.filter (tied (columns df) (combine by_ ascending) r) (rows df)).
Proof.
  assert (E : sort_values sample_numpy_lib sample_same_city ["City"] [true]
              = Ok {| columns := ["Id"; "City"];
                      rows := map (fun i => [Num (inject_Z i); Str "Vancouver"])
                                [0; 15; 14; 13; 12; 11; 10; 9; 8; 7; 6; 5; 4; 3; 2; 1;
                                 16; 17]%Z |}).
  { vm_compute. reflexivity. }
  split.
  { intros r Hr. vm_compute in Hr.
    repeat (destruct Hr as [<- | Hr]; [vm_compute; reflexivity |]). destruct Hr. }
  split; [vm_compute; reflexivity |].
  split; [exact E |].
  intros H.
  specialize (H sample_same_city ["City"] [true] _ E [Num 0; Str "Vancouver"]).
  vm_compute in H. discriminate.
Qed.

(** ** Sort keys that do not resolve *)

Lemma cli_resolve_cons (cols : list string) (mapping : gmap string (option string))
    (k : string) (rest : list string) :
  Cli.resolve cols mapping (k :: rest)
  = let '(by_, ascending, warnings) := Cli.resolve cols mapping rest in
    if existsb (String.eqb (sort_key k)) cols then
      (sort_key k :: by_, negb (Py.startswith "-" k) :: ascending, warnings)
    else if in_ALIASES (Py.lower (sort_key k))
            && Py.truthy_opt (get mapping (Py.lower (sort_key k))) then
      (default "" (get mapping (Py.lower (sort_key k))) :: by_,
       negb (Py.startswith "-" k) :: ascending, warnings)
    else
      match List.filter (fun c => String.eqb (Py.lower c) (Py.lower (sort_key k))) cols with
      | m :: _ => (m :: by_, negb (Py.startswith "-" k) :: ascending, warnings)
      | [] => (by_, ascending, warning (sort_key k) :: warnings)
      end.
Proof. reflexivity. Qed.

(** X12. The command line drops exactly the tokens it cannot resolve, warns
    once for each with the key in the message, and sorts as if the request
    had named the other tokens only, each with its own direction. *)
Lemma cli_resolve_drops_unresolved (cols : list string)
    (mapping : gmap string (option string)) (keys : list string)
    (by_ : list string) (ascending : list bool) (warnings : list string) :
  Cli.resolve cols mapping keys = (by_, ascending, warnings) ->
  warnings
  = map (fun k => warning (sort_key k))
      (List.filter (fun k => negb (cli_resolves cols mapping k)) keys)
  /\ Cli.resolve cols mapping (List.filter (cli_resolves cols mapping) keys)
     = (by_, ascending, [])
  /\ ascending
     = map (fun k => negb (Py.startswith "-" k))
         (List.filter (cli_resolves cols mapping) keys)
  /\ length by_ = length ascending.
Proof.
  revert by_ ascending warnings.
  induction keys as [|k keys IH]; intros by_ ascending warnings.
  - intros [= <- <- <-]. repeat split.
  - rewrite cli_resolve_cons.
    destruct (Cli.resolve cols mapping keys) as [[by' asc'] w'] eqn:E.
    destruct (IH by' asc' w' eq_refl) as [Hw [Hr [Ha Hl]]].
    assert (Hk : cli_resolves cols mapping k
                 = existsb (String.eqb (sort_key k)) cols
                   || (in_ALIASES (Py.lower (sort_key k))
                       && Py.truthy_opt (get mapping (Py.lower (sort_key k))))
                   || nonempty (List.filter
                                  (fun c => String.eqb (Py.lower c) (Py.lower (sort_key k)))
                                  cols)) by reflexivity.
    cbn [List.filter].
    destruct (existsb (String.eqb (sort_key k)) cols) eqn:E1.
    { intros [= <- <- <-]. cbn [orb] in Hk. rewrite Hk. cbn [negb map].
      rewrite cli_resolve_cons, Hr, E1. cbn [length]. rewrite <- Ha, Hl.
      repeat split; assumption. }
    destruct (in_ALIASES (Py.lower (sort_key k))
              && Py.truthy_opt (get mapping (Py.lower (sort_key k)))) eqn:E2.
    { intros [= <- <- <-]. cbn [orb] in Hk. rewrite Hk. cbn [negb map].
      rewrite cli_resolve_cons, Hr, E1, E2. cbn [length]. rewrite <- Ha, Hl.
      repeat split; assumption. }
    destruct (List.filter (fun c => String.eqb (Py.lower c) (Py.lower (sort_key k))) cols)
      as [|m ms] eqn:E3.
    { intros [= <- <- <-]. cbn [orb nonempty] in Hk. rewrite Hk. cbn [negb map].
      rewrite <- Hw. repeat split; assumption. }
    intros [= <- <- <-]. cbn [orb nonempty] in Hk. rewrite Hk. cbn [negb map].
    rewrite cli_resolve_cons, Hr, E1, E2, E3. cbn [length]. rewrite <- Ha, Hl.
    repeat split; assumption.
Qed.

(** C3. For the request foo,price on a frame with the headers Name and
    Price the command line warns about foo, naming it, and sorts by price
    alone. The form does none of this: its script is rejected when Python
    compiles it, and the run ends in [SyntaxError] before a sort key is
    read. *)
Theorem C3_form_never_reads_the_sort_keys :
  let df := Sample.two_prices in
  let a := Sample.with_sort "foo,price" in
  cli_resolves (columns df) (autodetect_columns df) "foo" = false
  /\ Cli.main Sample.lib df a
     = (["Warning: sort key 'foo' not found; ignored."],
        Ok {| columns := ["Name"; "Price"];
              rows := [ [Str "Bo"; Num 90]; [Str "Ann"; Num 120] ] |})
  /\ App.sort_keys (form_of_args a) = "foo,price"
  /\ App.run Sample.lib df (form_of_args a) = Raise SyntaxError.
Proof. vm_compute. repeat split. Qed.

(** ** The form on the same request *)

(** C4. On the worked example of the design document (city Vancouver, price
    at most 120) the command line returns the one provider that matches; the
    form, given the same frame and the same request, returns no frame: its
    run ends in [SyntaxError], as every run of the form does. *)
Theorem C4_form_returns_no_frame :
  let a := args_of (Some "Vancouver") None None None None (Some 120%Q) false None in
  Cli.main Sample.lib Sample.providers a
  = ([], Ok {| columns := ["City"; "Price"; "Rating"];
               rows := [ [Str "Vancouver"; Num 100; Num (48 # 10)] ] |})
  /\ App.city (form_of_args a) = "Vancouver"
  /\ App.price_max (form_of_args a) = 120%Q
  /\ App.run Sample.lib Sample.providers (form_of_args a) = Raise SyntaxError
  /\ App.run Sample.lib Sample.providers (form_of_args a)
     <> snd (Cli.main Sample.lib Sample.providers a)
  /\ forall (L : Lib) (df : DataFrame) (f : App.Form) (out : DataFrame),
       App.run L df f <> Ok out.
Proof.
  cbv zeta.
  assert (E : Cli.main Sample.lib Sample.providers
                (args_of (Some "Vancouver") None None None None (Some 120%Q) false None)
              = ([], Ok {| columns := ["City"; "Price"; "Rating"];
                           rows := [ [Str "Vancouver"; Num 100; Num (48 # 10)] ] |}))
    by (vm_compute; reflexivity).
  split; [exact E |]. split; [reflexivity |]. split; [reflexivity |].
  split; [reflexivity |]. split; [rewrite E; discriminate |].
  intros L df f out. discriminate.
Qed.

(** ** Requests *)

Lemma truthy_default (o : option string) :
  Py.truthy (default "" o) = Py.truthy_opt o.
Proof. destruct o; reflexivity. Qed.

Lemma guarded_ext (df : DataFrame) (mapping : gmap string (option string))
    (active : bool) (field : string) (t1 t2 : cell -> bool) (r : list cell) :
  (forall c, t1 c = t2 c) ->
  guarded df mapping active field t1 r = guarded df mapping active field t2 r.
Proof.
  intros H. unfold guarded. destruct (col mapping field); [|reflexivity].
  destruct (active && _); [apply H | reflexivity].
Qed.

Lemma split_list_default (o : option string) :
  Cli.split_list o = split_strip (default "" o).
Proof.
  destruct o as [s|]; [|reflexivity]. simpl.
  destruct s; reflexivity.
Qed.

(** * The resolver, the request, the filter and the sort in detail *)

(** ** The column resolver *)

Lemma foldl_insert_None (hs : list string) (m : gmap string string) (a : string) :
  foldl (fun m c => <[Py.lower c := c]> m) m hs !! a = None
  <-> m !! a = None /\ Forall (fun h => Py.lower h <> a) hs.
Proof.
  revert m. induction hs as [|x hs IH]; intros m; simpl.
  - split; [intros H; split; [exact H | constructor] | intros [H _]; exact H].
  - rewrite IH, lookup_insert_None. split.
    + intros [[Hm Hx] Hhs]. split; [exact Hm | constructor; assumption].
    + intros [Hm Hall]. inversion Hall; subst. repeat split; assumption.
Qed.

Lemma lowered_headers_None (hs : list string) (a : string) :
  lowered_headers hs !! a = None <-> Forall (fun h => Py.lower h <> a) hs.
Proof.
  unfold lowered_headers. rewrite foldl_insert_None, lookup_empty. tauto.
Qed.

Lemma foldl_insert_keep (hs : list string) (m : gmap string string) (a : string) :
  Forall (fun h => Py.lower h <> a) hs ->
  foldl (fun m c => <[Py.lower c := c]> m) m hs !! a = m !! a.
Proof.
  intros H. revert m. induction H as [|x hs Hx _ IH]; intros m; simpl; [reflexivity |].
  rewrite IH. apply lookup_insert_ne. exact Hx.
Qed.

Lemma foldl_insert_app (hs1 hs2 : list string) (m : gmap string string) :
  foldl (fun m c => <[Py.lower c := c]> m) m (hs1 ++ hs2)
  = foldl (fun m c => <[Py.lower c := c]> m)
      (foldl (fun m c => <[Py.lower c := c]> m) m hs1) hs2.
Proof. revert m. induction hs1 as [|x hs1 IH]; intros m; simpl; [reflexivity | apply IH]. Qed.

(** Of the headers with the same lower-case form the last one is kept. *)
Lemma lowered_headers_last (hs1 hs2 : list string) (c : string) :
  Forall (fun h => Py.lower h <> Py.lower c) hs2 ->
  lowered_headers (hs1 ++ c :: hs2) !! Py.lower c = Some c.
Proof.
  intros H. unfold lowered_headers. rewrite foldl_insert_app. simpl.
  rewrite (foldl_insert_keep hs2 _ _ H). apply lookup_insert_eq.
Qed.

Lemma aliases_truthy (k a : string) :
  In k PREFERRED_ORDER -> In a (aliases_of k) -> Py.truthy a = true.
Proof.
  intros Hk Ha. simpl in Hk.
  repeat (destruct Hk as [<- | Hk];
          [simpl in Ha; repeat (destruct Ha as [<- | Ha]; [reflexivity |]); destruct Ha |]).
  destruct Hk.
Qed.

(** X1. A canonical field is unresolved exactly when no header of the frame
    is, in lower case, one of the field's aliases; a resolved field maps to
    a non-empty header of the frame whose lower-case form is one of the
    aliases, so the truth test on the mapped header never fails. *)
Theorem X1_field_unresolved_iff_no_alias_matches (df : DataFrame) (k : string) :
  In k PREFERRED_ORDER ->
  (get (autodetect_columns df) k = None
   <-> forall h, In h (columns df) -> ~ In (Py.lower h) (aliases_of k))
  /\ (forall h, get (autodetect_columns df) k = Some h ->
        In h (columns df) /\ In (Py.lower h) (aliases_of k) /\ Py.truthy h = true)
  /\ resolved (autodetect_columns df) k = get (autodetect_columns df) k.
Proof.
  intros Hk.
  assert (Hsome : forall h, get (autodetect_columns df) k = Some h ->
            In h (columns df) /\ In (Py.lower h) (aliases_of k) /\ Py.truthy h = true).
  { intros h. rewrite (get_autodetect df k Hk). intros E.
    apply first_alias_Some in E as [a [Ha Hl]].
    apply lowered_headers_lookup in Hl as [Hin Hlow].
    split; [exact Hin |]. split; [rewrite Hlow; exact Ha |].
    rewrite <- (truthy_lower h), Hlow. apply (aliases_truthy k a Hk Ha). }
  split; [|split; [exact Hsome |]].
  - rewrite (get_autodetect df k Hk), first_alias_None. split.
    + intros H h Hh Hin. rewrite List.Forall_forall in H.
      specialize (H _ Hin). apply lowered_headers_None in H.
      rewrite List.Forall_forall in H. apply (H h Hh). reflexivity.
    + intros H. apply List.Forall_forall. intros a Ha.
      apply lowered_headers_None. apply List.Forall_forall. intros h Hh Hl.
      apply (H h Hh). rewrite Hl. exact Ha.
  - unfold resolved. destruct (get (autodetect_columns df) k) as [h|] eqn:E; [|reflexivity].
    destruct (Hsome h eq_refl) as [_ [_ Ht]]. rewrite Ht. reflexivity.
Qed.

Lemma X1_field_unresolved_iff_no_alias_matches_witness :
  In "name" PREFERRED_ORDER
  /\ get (autodetect_columns Sample.providers) "name" = None
  /\ resolved (autodetect_columns Sample.providers) "city" = Some "City".
Proof.
  assert (Hk : In "name" PREFERRED_ORDER) by (left; reflexivity).
  assert (Hc : In "city" PREFERRED_ORDER) by (right; left; reflexivity).
  split; [exact Hk |]. split.
  - destruct (X1_field_unresolved_iff_no_alias_matches Sample.providers "name" Hk)
      as [Hiff _].
    apply Hiff. intros h Hh. simpl in Hh.
    repeat (destruct Hh as [<- | Hh]); try contradiction;
      vm_compute; intros H;
      repeat (destruct H as [H | H]; try discriminate); contradiction.
  - destruct (X1_field_unresolved_iff_no_alias_matches Sample.providers "city" Hc)
      as [_ [_ ->]].
    vm_compute. reflexivity.
Defined.

(** X2. The alias that decides is the first one, in the order of the alias
    list, that some header matches in lower case, wherever that header
    stands; and of the headers that match it the last one is taken. *)
Theorem X2_first_alias_last_header (df : DataFrame) (k : string)
    (pre post : list string) (hs1 hs2 : list string) (c : string) :
  In k PREFERRED_ORDER ->
  aliases_of k = pre ++ Py.lower c :: post ->
  columns df = hs1 ++ c :: hs2 ->
  (forall h, In h (columns df) -> ~ In (Py.lower h) pre) ->
  (forall h, In h hs2 -> Py.lower h <> Py.lower c) ->
  get (autodetect_columns df) k = Some c.
Proof.
  intros Hk Hal Hcols Hpre Hlast.
  rewrite (get_autodetect df k Hk), Hal. apply first_alias_first.
  - apply List.Forall_forall. intros b Hb. apply lowered_headers_None.
    apply List.Forall_forall. intros h Hh Hl. apply (Hpre h Hh). rewrite Hl. exact Hb.
  - rewrite Hcols. apply lowered_headers_last.
    apply List.Forall_forall. exact Hlast.
Qed.

(** With the headers City, Fee, CITY, Rate the city field maps to CITY and
    the price field to Rate: rate is listed before fee. *)
Lemma X2_first_alias_last_header_witness :
  get (autodetect_columns sample_colliding) "city" = Some "CITY"
  /\ get (autodetect_columns sample_colliding) "price" = Some "Rate".
Proof.
  split.
  - apply (X2_first_alias_last_header sample_colliding "city" [] ["location_city"; "town"]
             ["City"; "Fee"] ["Rate"] "CITY").
    + right; left; reflexivity.
    + reflexivity.
    + reflexivity.
    + intros h _ [].
    + intros h [<- | []]. vm_compute. discriminate.
  - apply (X2_first_alias_last_header sample_colliding "price" ["price"]
             ["fee"; "session_cost"] ["City"; "Fee"; "CITY"] [] "Rate").
    + do 3 right; left; reflexivity.
    + reflexivity.
    + reflexivity.
    + intros h Hh. simpl in Hh.
      repeat (destruct Hh as [<- | Hh]); try contradiction;
        vm_compute; intros [H | []]; discriminate.
    + intros h [].
Defined.

Lemma lowered_headers_In (hs : list string) (c : string) :
  List.NoDup (map Py.lower hs) -> In c hs ->
  lowered_headers hs !! Py.lower c = Some c.
Proof.
  intros Hnd Hin. apply in_split in Hin as [hs1 [hs2 ->]].
  apply lowered_headers_last. apply List.Forall_forall. intros h Hh Heq.
  rewrite map_app in Hnd. simpl in Hnd. apply NoDup_remove_2 in Hnd.
  apply Hnd. apply in_or_app. right. rewrite <- Heq. apply in_map. exact Hh.
Qed.

(** When no two headers agree up to letter case, the lower-cased lookup
    does not depend on the order of the headers. *)
Lemma lowered_headers_Permutation (hs hs' : list string) :
  Permutation hs hs' -> List.NoDup (map Py.lower hs) ->
  lowered_headers hs = lowered_headers hs'.
Proof.
  intros Hp Hnd.
  assert (Hnd' : List.NoDup (map Py.lower hs')).
  { apply (Permutation_NoDup (Permutation_map Py.lower Hp) Hnd). }
  apply map_eq. intros a.
  destruct (lowered_headers hs !! a) as [c|] eqn:E.
  - apply lowered_headers_lookup in E as [Hin <-].
    symmetry. apply lowered_headers_In; [exact Hnd' |].
    apply (Permutation_in _ Hp Hin).
  - symmetry. apply lowered_headers_None. apply lowered_headers_None in E.
    rewrite List.Forall_forall in *. intros h Hh. apply E.
    apply (Permutation_in _ (Permutation_sym Hp) Hh).
Qed.

(** X3. When no two headers agree up to letter case, the column mapping
    does not depend on the order of the columns in the file. *)
Theorem X3_mapping_independent_of_column_order (df df' : DataFrame) :
  Permutation (columns df) (columns df') ->
  List.NoDup (map Py.lower (columns df)) ->
  autodetect_columns df = autodetect_columns df'.
Proof.
  intros Hp Hnd. unfold autodetect_columns.
  rewrite (lowered_headers_Permutation _ _ Hp Hnd). reflexivity.
Qed.

Lemma X3_mapping_independent_of_column_order_witness :
  columns Sample.bio_city_price = ["Bio"; "City"; "Price"]
  /\ columns sample_reordered = ["City"; "Price"; "Bio"]
  /\ autodetect_columns Sample.bio_city_price = autodetect_columns sample_reordered.
Proof.
  split; [reflexivity |]. split; [reflexivity |].
  apply X3_mapping_independent_of_column_order.
  - apply (Permutation_cons_append ["City"; "Price"] "Bio").
  - apply NoDup_ListNoDup. apply (bool_decide_unpack _). vm_compute. exact I.
Defined.

(** ** Reordering the columns *)

Lemma index_of_In (h : string) (hs : list string) :
  In h hs -> exists i, index_of h hs = Some i /\ (i < length hs)%nat /\ nth i hs "" = h.
Proof.
  induction hs as [|x hs IH]; [intros [] |]. intros Hin. simpl.
  destruct (String.eqb x h) eqn:E.
  - apply String.eqb_eq in E. subst. exists 0%nat. repeat split. simpl. lia.
  - destruct Hin as [-> | Hin]; [rewrite String.eqb_refl in E; discriminate |].
    destruct (IH Hin) as [i [Hi [Hlt Hn]]]. exists (S i). rewrite Hi.
    repeat split; [simpl; lia | exact Hn].
Qed.

(** A projected row holds, under each header it was projected on, the cell
    the row had under that header. *)
Lemma get_cell_project (hs : list string) (f : string -> cell) (h : string) :
  In h hs -> get_cell hs (map f hs) h = f h.
Proof.
  intros Hin. destruct (index_of_In h hs Hin) as [i [Hi [Hlt Hn]]].
  unfold get_cell. rewrite Hi.
  rewrite (nth_indep (map f hs) NaN (f "")) by (rewrite length_map; exact Hlt).
  rewrite map_nth, Hn. reflexivity.
Qed.

Lemma Forall2_map_r {A B : Type} (P : A -> B -> Prop) (F : A -> B) (l : list A) :
  (forall x, P x (F x)) -> Forall2 P l (map F l).
Proof. intros H. induction l as [|x l IH]; simpl; constructor; auto. Qed.

(** X4. Reordering loses nothing: the output has the headers of the frame,
    as many rows, and each row holds under every header the cell it held
    before. *)
Theorem X4_reorder_keeps_columns_and_cells (df : DataFrame) :
  (forall c, In c (columns (reorder (autodetect_columns df) df)) <-> In c (columns df))
  /\ length (rows (reorder (autodetect_columns df) df)) = length (rows df)
  /\ Forall2
       (fun r r' =>
          forall h, In h (columns df) ->
            get_cell (columns (reorder (autodetect_columns df) df)) r' h
            = get_cell (columns df) r h)
       (rows df) (rows (reorder (autodetect_columns df) df)).
Proof.
  assert (Hcols : forall c,
            In c (preferred (autodetect_columns df)
                  ++ trailing (columns df) (preferred (autodetect_columns df)))
            <-> In c (columns df)).
  { intros c. rewrite in_app_iff, trailing_In. split.
    - intros [H | [H _]]; [apply preferred_In_columns in H |]; exact H.
    - intros H.
      destruct (in_dec string_dec c (preferred (autodetect_columns df))) as [Hi | Hi];
        [left; exact Hi | right; split; assumption]. }
  unfold reorder, select. cbn [columns rows].
  split; [exact Hcols |]. split; [apply length_map |].
  apply Forall2_map_r. intros r h Hh.
  apply get_cell_project. apply Hcols. exact Hh.
Qed.

Lemma filter_none {A : Type} (f : A -> bool) (l : list A) :
  (forall x, In x l -> f x = false) -> List.filter f l = [].
Proof.
  induction l as [|x l IH]; intros H; [reflexivity |]. simpl.
  rewrite (H x (or_introl eq_refl)). apply IH. intros y Hy. apply H. right. exact Hy.
Qed.

Lemma filter_idem {A : Type} (f : A -> bool) (l : list A) :
  List.filter f (List.filter f l) = List.filter f l.
Proof.
  induction l as [|x l IH]; [reflexivity |]. simpl.
  destruct (f x) eqn:E; [simpl; rewrite E, IH; reflexivity | exact IH].
Qed.

Lemma trailing_again (cols pref : list string) :
  trailing (pref ++ trailing cols pref) pref = trailing cols pref.
Proof.
  unfold trailing. rewrite List.filter_app, filter_idem.
  rewrite filter_none; [reflexivity |].
  intros x Hx. apply negb_false_iff. apply existsb_eqb_In. exact Hx.
Qed.

(** X5. When no two headers agree up to letter case, the frame the program
    writes is a fixed point of its column step: resolving and reordering the
    columns of the output again changes nothing. *)
Theorem X5_reorder_is_idempotent (df : DataFrame) :
  List.NoDup (map Py.lower (columns df)) ->
  reorder (autodetect_columns (reorder (autodetect_columns df) df))
    (reorder (autodetect_columns df) df)
  = reorder (autodetect_columns df) df.
Proof.
  intros Hnd.
  assert (Hm : autodetect_columns (reorder (autodetect_columns df) df)
               = autodetect_columns df).
  { assert (Hl : lowered_headers (columns (reorder (autodetect_columns df) df))
                 = lowered_headers (columns df)).
    { symmetry. apply lowered_headers_Permutation; [|exact Hnd].
      apply Permutation_sym. unfold reorder, select. cbn [columns].
      apply reorder_Permutation. eapply List.NoDup_map_inv; exact Hnd. }
    unfold autodetect_columns at 1. rewrite Hl. reflexivity. }
  rewrite Hm. generalize (autodetect_columns df). intros m.
  unfold reorder, select. cbn [columns rows].
  rewrite trailing_again. f_equal.
  rewrite map_map. apply map_ext. intros r.
  apply map_ext_in. intros h Hh. apply get_cell_project. exact Hh.
Qed.

Lemma X5_reorder_is_idempotent_witness :
  reorder (autodetect_columns Sample.bio_city_price) Sample.bio_city_price
  = sample_reordered
  /\ reorder (autodetect_columns sample_reordered) sample_reordered = sample_reordered.
Proof.
  assert (E : reorder (autodetect_columns Sample.bio_city_price) Sample.bio_city_price
              = sample_reordered) by (vm_compute; reflexivity).
  split; [exact E |].
  rewrite <- E at 3. rewrite <- E at 1 2.
  apply X5_reorder_is_idempotent.
  apply NoDup_ListNoDup. apply (bool_decide_unpack _). vm_compute. exact I.
Defined.

(** ** The request tokens *)

Lemma split_on_nonempty (sep : ascii -> bool) (s : string) : Py.split_on sep s <> [].
Proof.
  destruct s as [|c r]; simpl; [discriminate |].
  destruct (sep c); [discriminate |]. destruct (Py.split_on sep r); discriminate.
Qed.

Lemma split_on_sep_free (sep : ascii -> bool) (s x : string) :
  In x (Py.split_on sep s) -> string_forallb (fun c => negb (sep c)) x = true.
Proof.
  revert x. induction s as [|c r IH]; intros x; simpl.
  - intros [<- | []]. reflexivity.
  - destruct (sep c) eqn:E.
    + intros [<- | H]; [reflexivity | apply IH; exact H].
    + destruct (Py.split_on sep r) as [|y ys] eqn:Er.
      * intros [<- | []]. simpl. rewrite E. reflexivity.
      * intros [<- | H].
        -- simpl. rewrite E. apply IH. left. reflexivity.
        -- apply IH. right. exact H.
Qed.

Lemma split_on_head_prefix (sep : ascii -> bool) (s y : string) (ys : list string) :
  Py.split_on sep s = y :: ys -> Py.startswith y s = true.
Proof.
  revert y ys. induction s as [|c r IH]; intros y ys; simpl.
  - intros [= <- <-]. reflexivity.
  - destruct (sep c).
    + intros [= <- _]. reflexivity.
    + destruct (Py.split_on sep r) as [|z zs] eqn:Er.
      * intros [= <- _]. simpl. rewrite Ascii.eqb_refl. reflexivity.
      * intros [= <- _]. simpl. rewrite Ascii.eqb_refl. apply (IH z zs eq_refl).
Qed.

Lemma str_in_cons (x : string) (c : ascii) (r : string) :
  Py.str_in x r = true -> Py.str_in x (String c r) = true.
Proof. intros H. simpl. rewrite H. apply orb_true_r. Qed.

Lemma startswith_str_in (x s : string) :
  Py.startswith x s = true -> Py.str_in x s = true.
Proof. intros H. destruct s; simpl; rewrite H; reflexivity. Qed.

(** Every piece of a split occurs in the text that was split. *)
Lemma split_on_str_in (sep : ascii -> bool) (s x : string) :
  In x (Py.split_on sep s) -> Py.str_in x s = true.
Proof.
  revert x. induction s as [|c r IH]; intros x.
  - intros [<- | []]. reflexivity.
  - intros H. assert (Hp := split_on_head_prefix sep (String c r)).
    simpl in H, Hp. destruct (sep c).
    + destruct H as [<- | H]; [reflexivity | apply str_in_cons, IH; exact H].
    + destruct (Py.split_on sep r) as [|y ys] eqn:Er.
      * destruct H as [<- | []]. apply startswith_str_in. apply (Hp _ _ eq_refl).
      * destruct H as [<- | H].
        -- apply startswith_str_in. apply (Hp _ _ eq_refl).
        -- apply str_in_cons, IH. right. exact H.
Qed.

Lemma lstrip_str_in (s : string) : Py.str_in (Py.lstrip s) s = true.
Proof.
  induction s as [|c r IH]; [reflexivity |]. simpl Py.lstrip.
  destruct (Py.is_space c).
  - apply str_in_cons. exact IH.
  - apply str_in_spec. exists "", "". simpl.
    clear. induction r as [|d r IH]; simpl; [reflexivity |].
    injection IH as IH. rewrite <- IH. reflexivity.
Qed.

Lemma string_app_nil_r (s : string) : (s ++ "")%string = s.
Proof. induction s as [|c s IH]; simpl; [reflexivity | rewrite IH; reflexivity]. Qed.

Lemma rstrip_prefix (s : string) : Py.startswith (Py.rstrip s) s = true.
Proof.
  induction s as [|c r IH]; [reflexivity |]. simpl.
  destruct (Py.rstrip r) as [|d t].
  - destruct (Py.is_space c); simpl; [reflexivity |].
    rewrite Ascii.eqb_refl. reflexivity.
  - simpl. rewrite Ascii.eqb_refl. exact IH.
Qed.

Lemma strip_str_in (s : string) : Py.str_in (Py.strip s) s = true.
Proof.
  unfold Py.strip. apply (str_in_trans _ (Py.rstrip s)).
  - apply lstrip_str_in.
  - apply startswith_str_in, rstrip_prefix.
Qed.

Lemma string_forallb_app (p : ascii -> bool) (a b : string) :
  string_forallb p (a ++ b)%string = string_forallb p a && string_forallb p b.
Proof.
  induction a as [|c a IH]; simpl; [reflexivity |].
  rewrite IH, andb_assoc. reflexivity.
Qed.

(** What holds of every character of a text holds of every character of
    what occurs in it. *)
Lemma string_forallb_str_in (p : ascii -> bool) (x s : string) :
  Py.str_in x s = true -> string_forallb p s = true -> string_forallb p x = true.
Proof.
  rewrite str_in_spec. intros [pre [post ->]].
  rewrite !string_forallb_app, !andb_true_iff. tauto.
Qed.

Lemma strip_blank (s : string) :
  string_forallb Py.is_space s = true -> Py.strip s = "".
Proof.
  intros H. unfold Py.strip.
  assert (Hr : Py.rstrip s = "").
  { induction s as [|c r IH]; [reflexivity |]. simpl in *.
    apply andb_prop in H as [Hc Hr]. rewrite (IH Hr), Hc. reflexivity. }
  rewrite Hr. reflexivity.
Qed.

(** X6. The tokens of a request are not empty, carry no white space at
    either end and no comma or semicolon, and each occurs in the request; a
    request that is absent, or made of separators and white space only,
    gives no token. *)
Theorem X6_request_tokens (o : option string) :
  (forall t, In t (Cli.split_list o) ->
     Py.truthy t = true
     /\ Py.strip t = t
     /\ string_forallb (fun c => negb (Py.is_comma_or_semicolon c)) t = true
     /\ exists s, o = Some s /\ Py.str_in t s = true)
  /\ (o = None -> Cli.split_list o = [])
  /\ (forall s, o = Some s ->
        string_forallb (fun c => Py.is_comma_or_semicolon c || Py.is_space c) s = true ->
        Cli.split_list o = []).
Proof.
  split; [|split].
  - intros t Ht. destruct (split_list_tokens o t Ht) as [H1 H2].
    split; [exact H1 |]. split; [exact H2 |].
    unfold Cli.split_list in Ht. destruct o as [s|]; [|destruct Ht].
    destruct (Py.truthy s); [|destruct Ht].
    unfold split_strip in Ht. apply in_map_iff in Ht as [x [<- Hx]].
    apply filter_In in Hx as [Hx _]. split.
    + apply (string_forallb_str_in _ _ x (strip_str_in x)).
      apply (split_on_sep_free _ s). exact Hx.
    + exists s. split; [reflexivity |].
      apply (str_in_trans _ x); [apply strip_str_in | apply (split_on_str_in _ _ _ Hx)].
  - intros ->. reflexivity.
  - intros s -> Hs. unfold Cli.split_list. destruct (Py.truthy s); [|reflexivity].
    unfold split_strip. rewrite filter_none; [reflexivity |].
    intros x Hx. rewrite strip_blank; [reflexivity |].
    assert (H1 := split_on_sep_free _ _ _ Hx).
    assert (H2 := string_forallb_str_in _ _ _ (split_on_str_in _ _ _ Hx) Hs).
    clear Hx Hs. induction x as [|c x IH]; [reflexivity |]. simpl in *.
    apply andb_prop in H1 as [Hc H1]. apply andb_prop in H2 as [Hc' H2].
    rewrite (IH H1 H2), andb_true_r.
    apply negb_true_iff in Hc. rewrite Hc in Hc'. exact Hc'.
Qed.

(** ** Token lists against the text of a cell *)

Lemma split_on_app_sep (sep : ascii -> bool) (s1 : string) (c : ascii) (s2 : string) :
  sep c = true ->
  Py.split_on sep (s1 ++ String c s2)%string
  = Py.split_on sep s1 ++ Py.split_on sep s2.
Proof.
  intros Hc. induction s1 as [|d s1 IH]; simpl.
  - rewrite Hc. reflexivity.
  - rewrite IH. destruct (sep d); [reflexivity |].
    destruct (Py.split_on sep s1) as [|x xs] eqn:E; [|reflexivity].
    exfalso. apply (split_on_nonempty sep s1). exact E.
Qed.

Lemma split_on_whole (sep : ascii -> bool) (s : string) :
  string_forallb (fun c => negb (sep c)) s = true -> Py.split_on sep s = [s].
Proof.
  induction s as [|c s IH]; simpl; [reflexivity |].
  intros H. apply andb_prop in H as [Hc Hs]. apply negb_true_iff in Hc.
  rewrite Hc, (IH Hs). reflexivity.
Qed.

(** A comma or a semicolon cuts the request in two requests. *)
Lemma split_strip_app_sep (s1 : string) (c : ascii) (s2 : string) :
  Py.is_comma_or_semicolon c = true ->
  split_strip (s1 ++ String c s2)%string = split_strip s1 ++ split_strip s2.
Proof.
  intros Hc. unfold split_strip.
  rewrite (split_on_app_sep _ s1 c s2 Hc), List.filter_app, map_app. reflexivity.
Qed.

(** A request without comma and semicolon is one token, trimmed, or none. *)
Lemma split_strip_whole (s : string) :
  string_forallb (fun c => negb (Py.is_comma_or_semicolon c)) s = true ->
  split_strip s = if Py.truthy (Py.strip s) then [Py.strip s] else [].
Proof.
  intros H. unfold split_strip. rewrite (split_on_whole _ s H). simpl.
  destruct (Py.truthy (Py.strip s)); reflexivity.
Qed.

Lemma split_list_Some (s : string) : Cli.split_list (Some s) = split_strip s.
Proof. destruct s; reflexivity. Qed.

(** The text the keyword criterion searches, by the fields that resolve. *)
Lemma block_parts (L : Lib) (df : DataFrame) (mapping : gmap string (option string))
    (r : list cell) :
  block L df mapping r
  = (match resolved mapping "bio" with
     | Some h => " " ++ astype_str L (get_cell (columns df) r h)
     | None => ""
     end
     ++ match resolved mapping "credentials" with
        | Some h => " " ++ astype_str L (get_cell (columns df) r h)
        | None => ""
        end)%string.
Proof.
  unfold block, resolved, col.
  destruct (get mapping "bio") as [hb|]; destruct (get mapping "credentials") as [hc|];
    try destruct (Py.truthy hb); try destruct (Py.truthy hc); reflexivity.
Qed.

Lemma cli_keep_tokens (L : Lib) (df : DataFrame) (a : Cli.Args)
    (mapping : gmap string (option string)) (r : list cell) (search : string -> bool) :
  Cli.keep L df a mapping r search = true
  <-> cli_tokens_ok L df a mapping r FModalities = true
      /\ cli_tokens_ok L df a mapping r FLanguages = true
      /\ Cli.text_all_ok L df a mapping r = true
      /\ cli_untokened_ok L df a mapping r search = true.
Proof.
  rewrite cli_keep_true. unfold cli_untokened_ok, cli_tokens_ok.
  rewrite !andb_true_iff. tauto.
Qed.

Lemma cli_tokens_only_rest (L : Lib) (df : DataFrame) (a : Cli.Args)
    (mapping : gmap string (option string)) (r : list cell) (search : string -> bool) :
  cli_tokens_only a = true -> cli_untokened_ok L df a mapping r search = true.
Proof.
  unfold cli_tokens_only. intros H.
  repeat (apply andb_prop in H as [H ?]).
  repeat match goal with
         | X : negb _ = true |- _ => apply negb_true_iff in X
         end.
  unfold cli_untokened_ok, Cli.city_ok, Cli.neighborhood_ok, Cli.gender_ok, Cli.price_ok,
    Cli.rating_ok, Cli.reviews_ok, Cli.years_ok, Cli.availability_ok.
  repeat match goal with
         | X : _ = false |- _ => rewrite X; clear X
         end.
  rewrite !guarded_off, mobile_ok_off.
  destruct (Cli.price_min a); [discriminate |].
  destruct (Cli.price_max a); [discriminate |].
  rewrite guarded_true; [reflexivity | intros c; reflexivity].
Qed.

(** C8. A request is cut into its tokens at every comma and at every
    semicolon, and a piece without either is one token, trimmed, or none when
    it is blank. Under modalities-all and languages-all, with the field
    resolved, a row passes exactly when every token occurs, letter case
    aside, in the text of the cell; under text-all exactly when every token
    occurs in the text made of a space and the bio cell, if bio is resolved,
    and a space and the credentials cell, if credentials is resolved. The
    filter returns a row exactly when it passes these three tests and the
    criteria that are not token lists; a request made of token lists only
    has no other criterion to pass. *)
Theorem C8_every_token_must_occur (L : Lib) (df : DataFrame) (a : Cli.Args)
    (mapping : gmap string (option string)) (r : list cell) :
  (forall s1 s2,
     Cli.split_list (Some (s1 ++ "," ++ s2)%string)
     = Cli.split_list (Some s1) ++ Cli.split_list (Some s2)
     /\ Cli.split_list (Some (s1 ++ ";" ++ s2)%string)
        = Cli.split_list (Some s1) ++ Cli.split_list (Some s2))
  /\ (forall s,
        string_forallb (fun c => negb (Py.is_comma_or_semicolon c)) s = true ->
        Cli.split_list (Some s) = if Py.truthy (Py.strip s) then [Py.strip s] else [])
  /\ Cli.split_list None = []
  /\ (forall f h,
        get mapping (token_name f) = Some h -> Py.truthy h = true ->
        (cli_tokens_ok L df a mapping r f = true
         <-> Forall (fun t => occurs_ci t (astype_str L (get_cell (columns df) r h)))
               (Cli.split_list (cli_token_request a f))))
  /\ (Cli.text_all_ok L df a mapping r = true
      <-> Forall
            (fun t =>
               occurs_ci t
                 (match resolved mapping "bio" with
                  | Some h => " " ++ astype_str L (get_cell (columns df) r h)
                  | None => ""
                  end
                  ++ match resolved mapping "credentials" with
                     | Some h => " " ++ astype_str L (get_cell (columns df) r h)
                     | None => ""
                     end)%string)
            (Cli.split_list (Cli.text a)))
  /\ (forall search,
        Cli.neighborhood_search L a mapping = Ok search ->
        exists rs,
          Cli.filter_rows L df a mapping = Ok rs
          /\ (In r rs
              <-> In r (rows df)
                  /\ cli_tokens_ok L df a mapping r FModalities = true
                  /\ cli_tokens_ok L df a mapping r FLanguages = true
                  /\ Cli.text_all_ok L df a mapping r = true
                  /\ cli_untokened_ok L df a mapping r search = true))
  /\ (cli_tokens_only a = true ->
      forall search, cli_untokened_ok L df a mapping r search = true).
Proof.
  split.
  { intros s1 s2. rewrite !split_list_Some. split; apply split_strip_app_sep; reflexivity. }
  split.
  { intros s Hs. rewrite split_list_Some. apply split_strip_whole. exact Hs. }
  split; [reflexivity |].
  split.
  { intros f h Hg Ht. rewrite (cli_tokens_ok_on L df a mapping r f h Hg Ht).
    rewrite contains_all_spec. destruct f; reflexivity. }
  split.
  { rewrite cli_text_all_ok_spec, contains_all_spec, block_parts. reflexivity. }
  split.
  { intros search Hs. unfold Cli.filter_rows. rewrite Hs.
    eexists. split; [reflexivity |].
    rewrite filter_In, cli_keep_tokens. tauto. }
  intros H search. apply cli_tokens_only_rest. exact H.
Qed.

(** Deep tissue and sports, asked with a semicolon and with a comma: the
    provider who offers both stays, the one who offers one of them goes.
    Keywords are looked up in bio and credentials together, and in the bio
    alone on a frame without credentials. *)
Lemma C8_every_token_must_occur_witness :
  let df := Sample.therapists in
  let mapping := autodetect_columns df in
  let ann := [Str "Ann"; Str "Sports, Deep Tissue"; Str "Gentle hands"; Str "RMT"] in
  let bo := [Str "Bo"; Str "Deep Tissue"; NaN; Str "RMT"] in
  get mapping "modalities" = Some "Modalities"
  /\ Cli.split_list (Some "deep tissue; SPORTS") = ["deep tissue"; "SPORTS"]
  /\ Cli.split_list (Some "deep tissue, SPORTS") = ["deep tissue"; "SPORTS"]
  /\ Forall (fun t => occurs_ci t "Sports, Deep Tissue") ["deep tissue"; "SPORTS"]
  /\ ~ Forall (fun t => occurs_ci t "Deep Tissue") ["deep tissue"; "SPORTS"]
  /\ Cli.filter_rows Sample.lib df (Sample.with_modalities "deep tissue; SPORTS") mapping
     = Ok [ann]
  /\ Cli.filter_rows Sample.lib df (Sample.with_modalities "deep tissue, SPORTS") mapping
     = Ok [ann]
  /\ Forall (fun t => occurs_ci t " Gentle hands RMT") (Cli.split_list (Some "rmt, gentle"))
  /\ Cli.filter_rows Sample.lib df (Sample.with_text "rmt, gentle") mapping = Ok [ann]
  /\ Cli.filter_rows Sample.lib df (Sample.with_text "rmt") mapping = Ok [ann; bo]
  /\ Cli.filter_rows Sample.lib Sample.city_missing (Sample.with_text "sports; MASSAGE")
       (autodetect_columns Sample.city_missing)
     = Ok [ [Str "Ann"; Str "Vancouver"; Str "Sports massage"] ].
Proof.
  cbv zeta.
  assert (Hg : get (autodetect_columns Sample.therapists) "modalities" = Some "Modalities").
  { vm_compute. reflexivity. }
  destruct (C8_every_token_must_occur Sample.lib Sample.therapists
              (Sample.with_modalities "deep tissue; SPORTS")
              (autodetect_columns Sample.therapists)
              [Str "Ann"; Str "Sports, Deep Tissue"; Str "Gentle hands"; Str "RMT"])
    as [Hcut [_ [_ [Hann _]]]].
  destruct (C8_every_token_must_occur Sample.lib Sample.therapists
              (Sample.with_modalities "deep tissue; SPORTS")
              (autodetect_columns Sample.therapists)
              [Str "Bo"; Str "Deep Tissue"; NaN; Str "RMT"])
    as [_ [_ [_ [Hbo _]]]].
  destruct (C8_every_token_must_occur Sample.lib Sample.therapists
              (Sample.with_text "rmt, gentle")
              (autodetect_columns Sample.therapists)
              [Str "Ann"; Str "Sports, Deep Tissue"; Str "Gentle hands"; Str "RMT"])
    as [_ [_ [_ [_ [Htext _]]]]].
  specialize (Hann FModalities "Modalities" Hg eq_refl).
  specialize (Hbo FModalities "Modalities" Hg eq_refl).
  split; [exact Hg |].
  split.
  { exact (eq_trans (proj2 (Hcut "deep tissue" " SPORTS")) eq_refl). }
  split.
  { exact (eq_trans (proj1 (Hcut "deep tissue" " SPORTS")) eq_refl). }
  split. { apply Hann. vm_compute. reflexivity. }
  split. { intros H. apply Hbo in H. vm_compute in H. discriminate. }
  split; [vm_compute; reflexivity |]. split; [vm_compute; reflexivity |].
  split.
  { assert (E : Cli.text_all_ok Sample.lib Sample.therapists (Sample.with_text "rmt, gentle")
                  (autodetect_columns Sample.therapists)
                  [Str "Ann"; Str "Sports, Deep Tissue"; Str "Gentle hands"; Str "RMT"]
                = true) by (vm_compute; reflexivity).
    apply Htext in E.
    assert (Eb : resolved (autodetect_columns Sample.therapists) "bio" = Some "Bio")
      by (vm_compute; reflexivity).
    assert (Ec : resolved (autodetect_columns Sample.therapists) "credentials"
                 = Some "Credentials") by (vm_compute; reflexivity).
    rewrite Eb, Ec in E. exact E. }
  repeat split; vm_compute; reflexivity.
Defined.

(** ** Letter case of the request *)

Lemma lower_ascii_idem (c : ascii) :
  Py.lower_ascii (Py.lower_ascii c) = Py.lower_ascii c.
Proof. destruct c as [[] [] [] [] [] [] [] []]; reflexivity. Qed.

Lemma is_space_lower (c : ascii) : Py.is_space (Py.lower_ascii c) = Py.is_space c.
Proof. destruct c as [[] [] [] [] [] [] [] []]; reflexivity. Qed.

Lemma is_sep_lower (c : ascii) :
  Py.is_comma_or_semicolon (Py.lower_ascii c) = Py.is_comma_or_semicolon c.
Proof. destruct c as [[] [] [] [] [] [] [] []]; reflexivity. Qed.

Lemma lower_idem (s : string) : Py.lower (Py.lower s) = Py.lower s.
Proof.
  induction s as [|c s IH]; simpl; [reflexivity |].
  rewrite lower_ascii_idem, IH. reflexivity.
Qed.

Lemma lstrip_lower (s : string) : Py.lstrip (Py.lower s) = Py.lower (Py.lstrip s).
Proof.
  induction s as [|c s IH]; simpl; [reflexivity |].
  rewrite is_space_lower. destruct (Py.is_space c); [exact IH | reflexivity].
Qed.

Lemma rstrip_lower (s : string) : Py.rstrip (Py.lower s) = Py.lower (Py.rstrip s).
Proof.
  induction s as [|c s IH]; simpl; [reflexivity |].
  rewrite IH, is_space_lower.
  destruct (Py.rstrip s); simpl; [destruct (Py.is_space c) |]; reflexivity.
Qed.

Lemma strip_lower (s : string) : Py.strip (Py.lower s) = Py.lower (Py.strip s).
Proof. unfold Py.strip. rewrite rstrip_lower, lstrip_lower. reflexivity. Qed.

Lemma split_on_lower (sep : ascii -> bool) (s : string) :
  (forall c, sep (Py.lower_ascii c) = sep c) ->
  Py.split_on sep (Py.lower s) = map Py.lower (Py.split_on sep s).
Proof.
  intros Hsep. induction s as [|c s IH]; simpl; [reflexivity |].
  rewrite Hsep, IH. destruct (sep c); [reflexivity |].
  destruct (Py.split_on sep s); reflexivity.
Qed.

Lemma filter_map_comm {A B : Type} (f : B -> bool) (g : A -> B) (l : list A) :
  List.filter f (map g l) = map g (List.filter (fun x => f (g x)) l).
Proof.
  induction l as [|x l IH]; simpl; [reflexivity |].
  destruct (f (g x)); simpl; rewrite IH; reflexivity.
Qed.

Lemma split_strip_lower (s : string) :
  split_strip (Py.lower s) = map Py.lower (split_strip s).
Proof.
  unfold split_strip. rewrite (split_on_lower _ s is_sep_lower).
  rewrite filter_map_comm, !map_map.
  rewrite (filter_ext (fun x => Py.truthy (Py.strip (Py.lower x)))
             (fun x => Py.truthy (Py.strip x))).
  - apply map_ext. intros x. apply strip_lower.
  - intros x. rewrite strip_lower. apply truthy_lower.
Qed.

Lemma split_list_lower (o : option string) :
  Cli.split_list (option_map Py.lower o) = map Py.lower (Cli.split_list o).
Proof.
  destruct o as [s|]; [|reflexivity]. simpl.
  rewrite truthy_lower. destruct (Py.truthy s); [apply split_strip_lower | reflexivity].
Qed.

Lemma contains_all_lower (h : string) (needles : list string) :
  contains_all h (map Py.lower needles) = contains_all h needles.
Proof.
  unfold contains_all. induction needles as [|n ns IH]; [reflexivity |].
  simpl. rewrite lower_idem, IH. reflexivity.
Qed.

Lemma nonempty_map {A B : Type} (g : A -> B) (l : list A) :
  nonempty (map g l) = nonempty l.
Proof. destruct l; reflexivity. Qed.

Lemma truthy_opt_lower (o : option string) :
  Py.truthy_opt (option_map Py.lower o) = Py.truthy_opt o.
Proof. destruct o as [s|]; [apply truthy_lower | reflexivity]. Qed.

Lemma eq_lower_lower (L : Lib) (o : option string) (c : cell) :
  eq_lower L (default "" (option_map Py.lower o)) c = eq_lower L (default "" o) c.
Proof. destruct o as [s|]; [|reflexivity]. unfold eq_lower. simpl. rewrite lower_idem. reflexivity. Qed.

Lemma cli_keep_lower (L : Lib) (df : DataFrame) (a : Cli.Args)
    (mapping : gmap string (option string)) (r : list cell) (search : string -> bool) :
  Cli.keep L df (lower_args a) mapping r search = Cli.keep L df a mapping r search.
Proof.
  assert (H1 : Cli.city_ok L df (lower_args a) mapping r = Cli.city_ok L df a mapping r).
  { unfold Cli.city_ok, lower_args. cbn [Cli.city]. rewrite truthy_opt_lower.
    apply guarded_ext. intros c. apply eq_lower_lower. }
  assert (H2 : Cli.neighborhood_ok L df (lower_args a) mapping r search
               = Cli.neighborhood_ok L df a mapping r search).
  { unfold Cli.neighborhood_ok, lower_args. cbn [Cli.neighborhood].
    rewrite truthy_opt_lower. reflexivity. }
  assert (H3 : Cli.gender_ok L df (lower_args a) mapping r = Cli.gender_ok L df a mapping r).
  { unfold Cli.gender_ok, lower_args. cbn [Cli.gender]. rewrite truthy_opt_lower.
    apply guarded_ext. intros c. apply eq_lower_lower. }
  assert (H4 : Cli.modalities_ok L df (lower_args a) mapping r
               = Cli.modalities_ok L df a mapping r).
  { unfold Cli.modalities_ok, Cli.req_modalities, lower_args. cbn [Cli.modalities].
    rewrite split_list_lower, nonempty_map.
    apply guarded_ext. intros c. apply contains_all_lower. }
  assert (H5 : Cli.languages_ok L df (lower_args a) mapping r
               = Cli.languages_ok L df a mapping r).
  { unfold Cli.languages_ok, Cli.req_languages, lower_args. cbn [Cli.languages].
    rewrite split_list_lower, nonempty_map.
    apply guarded_ext. intros c. apply contains_all_lower. }
  assert (H6 : Cli.req_days (lower_args a) = Cli.req_days a).
  { unfold Cli.req_days, lower_args. cbn [Cli.available].
    rewrite split_list_lower, map_map. apply map_ext. intros d.
    rewrite strip_lower. apply lower_idem. }
  assert (H7 : Cli.availability_ok L df (lower_args a) mapping r
               = Cli.availability_ok L df a mapping r).
  { unfold Cli.availability_ok. rewrite H6. reflexivity. }
  assert (H8 : Cli.text_all_ok L df (lower_args a) mapping r
               = Cli.text_all_ok L df a mapping r).
  { unfold Cli.text_all_ok, Cli.text_ok, Cli.req_text, lower_args. cbn [Cli.text].
    rewrite split_list_lower, nonempty_map, contains_all_lower. reflexivity. }
  unfold Cli.keep. rewrite H1, H2, H3, H4, H5, H7, H8. reflexivity.
Qed.

Lemma cli_mask_updated_lower (a : Cli.Args) (mapping : gmap string (option string)) :
  Cli.mask_updated (lower_args a) mapping = Cli.mask_updated a mapping.
Proof.
  assert (Hd : Cli.req_days (lower_args a) = Cli.req_days a).
  { unfold Cli.req_days, lower_args. cbn [Cli.available].
    rewrite split_list_lower, map_map. apply map_ext. intros d.
    rewrite strip_lower. apply lower_idem. }
  unfold Cli.mask_updated. rewrite Hd.
  unfold Cli.req_modalities, Cli.req_languages, Cli.req_text, lower_args.
  cbn [Cli.city Cli.neighborhood Cli.gender Cli.modalities Cli.languages Cli.text
       Cli.price_min Cli.price_max Cli.rating_min Cli.reviews_min Cli.years_min
       Cli.mobile].
  rewrite !truthy_opt_lower, !split_list_lower, !nonempty_map. reflexivity.
Qed.

(** X8. The letter case of the request does not matter: with the city,
    neighbourhood, gender, modalities, languages, keywords and days of the
    request put in lower case the program keeps the same rows and returns
    the same frame and warnings. *)
Theorem X8_request_case_does_not_matter (L : Lib) (df : DataFrame) (a : Cli.Args) :
  (forall mapping,
     Cli.filter_rows L df (lower_args a) mapping = Cli.filter_rows L df a mapping)
  /\ Cli.main L df (lower_args a) = Cli.main L df a.
Proof.
  assert (Hf : forall mapping,
            Cli.filter_rows L df (lower_args a) mapping = Cli.filter_rows L df a mapping).
  { intros mapping. unfold Cli.filter_rows, Cli.neighborhood_search.
    unfold lower_args at 1 2. cbn [Cli.neighborhood]. rewrite truthy_opt_lower.
    assert (Hp : Py.lower (default "" (option_map Py.lower (Cli.neighborhood a)))
                 = Py.lower (default "" (Cli.neighborhood a))).
    { destruct (Cli.neighborhood a); [apply lower_idem | reflexivity]. }
    rewrite Hp.
    destruct (Py.truthy_opt (Cli.neighborhood a) && _).
    - destruct (re_compile L _) as [s|]; [|reflexivity].
      f_equal. apply filter_ext. intros r. apply cli_keep_lower.
    - f_equal. apply filter_ext. intros r. apply cli_keep_lower. }
  split; [exact Hf |].
  unfold Cli.main. cbv zeta. generalize (autodetect_columns df). intros m.
  rewrite Hf. unfold Cli.masked. rewrite cli_mask_updated_lower. reflexivity.
Qed.

(** ** The filter *)

Lemma filter_sublist {A : Type} (f : A -> bool) (l : list A) :
  sublist (List.filter f l) l.
Proof.
  induction l as [|x l IH]; simpl; [constructor |].
  destruct (f x); [apply sublist_skip | apply sublist_cons]; exact IH.
Qed.

(** X7. The filter never reorders and never invents: the rows it returns
    are a subsequence of the rows of the frame, namely the rows for which
    the conjunction of the criteria holds. It fails in one case only: the
    neighbourhood criterion is on and its text is not a regular expression. *)
Theorem X7_filter_selects_a_subsequence (L : Lib) (df : DataFrame) (a : Cli.Args)
    (mapping : gmap string (option string)) :
  (forall rs, Cli.filter_rows L df a mapping = Ok rs ->
     sublist rs (rows df)
     /\ (length rs <= length (rows df))%nat
     /\ exists search,
          Cli.neighborhood_search L a mapping = Ok search
          /\ forall r, In r rs <-> In r (rows df) /\ Cli.keep L df a mapping r search = true)
  /\ (forall e, Cli.filter_rows L df a mapping = Raise e ->
        e = ReError
        /\ Py.truthy_opt (Cli.neighborhood a) = true
        /\ Py.truthy_opt (col mapping "neighborhood") = true
        /\ re_compile L (Py.lower (default "" (Cli.neighborhood a))) = None).
Proof.
  unfold Cli.filter_rows. split.
  - intros rs. destruct (Cli.neighborhood_search L a mapping) as [search | e];
      [|discriminate].
    intros [= <-]. split; [apply filter_sublist |].
    split; [apply sublist_length, filter_sublist |].
    exists search. split; [reflexivity |]. intros r. apply filter_In.
  - intros e. unfold Cli.neighborhood_search.
    destruct (Py.truthy_opt (Cli.neighborhood a)); [|discriminate].
    destruct (Py.truthy_opt (col mapping "neighborhood")); [|discriminate].
    cbn [andb].
    destruct (re_compile L (Py.lower (default "" (Cli.neighborhood a)))); [discriminate |].
    intros [= <-]. repeat split.
Qed.

Lemma In_column (df : DataFrame) (h : string) (r : list cell) :
  In r (rows df) -> In (get_cell (columns df) r h) (column df h).
Proof. intros H. unfold column. apply in_map_iff. exists r. split; [reflexivity | exact H]. Qed.

Lemma dtype_of_numeric (col : list cell) (c : cell) :
  In c col -> numeric_column col = true -> dtype_of col = float64.
Proof.
  intros Hin Hn. unfold dtype_of. unfold numeric_column in Hn. rewrite Hn.
  destruct (forallb is_bool_cell col) eqn:E; [|reflexivity].
  rewrite forallb_forall in E, Hn. specialize (E c Hin). specialize (Hn c Hin).
  rewrite E in Hn. rewrite andb_false_r in Hn. discriminate.
Qed.

Lemma dtype_of_text (col : list cell) :
  existsb is_text_cell col = true -> dtype_of col = object.
Proof.
  intros H. apply existsb_exists in H as [c [Hin Hc]]. unfold dtype_of.
  assert (E1 : forallb is_bool_cell col = false).
  { destruct (forallb is_bool_cell col) eqn:E; [|reflexivity].
    rewrite forallb_forall in E. specialize (E c Hin). destruct c; discriminate. }
  assert (E2 : forallb (fun c => negb (is_text_cell c) && negb (is_bool_cell c)) col
               = false).
  { destruct (forallb (fun c => negb (is_text_cell c) && negb (is_bool_cell c)) col)
      eqn:E; [|reflexivity].
    rewrite forallb_forall in E. specialize (E c Hin). rewrite Hc in E. discriminate. }
  rewrite E1, E2. reflexivity.
Qed.

(** X9. Under the mobile requirement, with the field resolved: in a column
    of numbers with gaps a row passes when its number is not zero and also
    when its cell is missing; in a column that holds text a row passes
    exactly when its text is, in lower case, one of true, yes, y, 1, so a
    missing cell does not pass. *)
Theorem X9_mobile_requirement (L : Lib) (df : DataFrame) (a : Cli.Args)
    (mapping : gmap string (option string)) (r : list cell) (h : string) :
  get mapping "mobileservice" = Some h -> Py.truthy h = true ->
  Cli.mobile a = true -> In r (rows df) ->
  (numeric_column (column df h) = true ->
   (mobile_ok L df mapping (Cli.mobile a) r = true
    <-> get_cell (columns df) r h = NaN
        \/ exists q, get_cell (columns df) r h = Num q /\ ~ (q == 0)%Q))
  /\ (existsb is_text_cell (column df h) = true ->
      (mobile_ok L df mapping (Cli.mobile a) r = true
       <-> In (Py.lower (astype_str L (get_cell (columns df) r h)))
             ["true"; "yes"; "y"; "1"])
      /\ (get_cell (columns df) r h = NaN ->
          mobile_ok L df mapping (Cli.mobile a) r = false)).
Proof.
  intros Hg Ht Hm Hr.
  assert (Hok : mobile_ok L df mapping (Cli.mobile a) r
                = mobile_truthy L df h (get_cell (columns df) r h)).
  { unfold mobile_ok, col. rewrite Hg, Ht, Hm. reflexivity. }
  rewrite Hok. unfold mobile_truthy. split.
  - intros Hn. rewrite (dtype_of_numeric _ _ (In_column df h r Hr) Hn).
    assert (Hc : is_text_cell (get_cell (columns df) r h) = false
                 /\ is_bool_cell (get_cell (columns df) r h) = false).
    { unfold numeric_column in Hn. rewrite forallb_forall in Hn.
      specialize (Hn _ (In_column df h r Hr)).
      apply andb_prop in Hn as [H1 H2].
      apply negb_true_iff in H1, H2. split; assumption. }
    destruct (get_cell (columns df) r h) as [|q|s|b]; simpl in *.
    + split; [intros _; left; reflexivity | reflexivity].
    + rewrite negb_true_iff. split.
      * intros H. right. exists q. split; [reflexivity |].
        intros Hq. apply Qeq_bool_iff in Hq. congruence.
      * intros [H | [q' [[= <-] Hq]]]; [discriminate |].
        destruct (Qeq_bool q 0) eqn:E; [|reflexivity].
        apply Qeq_bool_iff in E. contradiction.
    + destruct Hc; discriminate.
    + destruct Hc; discriminate.
  - intros Hx. rewrite (dtype_of_text _ Hx). split.
    + apply existsb_eqb_In.
    + intros ->. reflexivity.
Qed.

Lemma X9_mobile_requirement_witness :
  let a := args_of None None None None None None true None in
  get (autodetect_columns sample_mobile_numeric) "mobileservice" = Some "Mobile"
  /\ mobile_ok Sample.lib sample_mobile_numeric (autodetect_columns sample_mobile_numeric)
       (Cli.mobile a) [Str "Cy"; NaN] = true
  /\ Cli.filter_rows Sample.lib sample_mobile_numeric a
       (autodetect_columns sample_mobile_numeric)
     = Ok [ [Str "Ann"; Num 1]; [Str "Cy"; NaN] ]
  /\ Cli.filter_rows Sample.lib sample_mobile_text a
       (autodetect_columns sample_mobile_text)
     = Ok [ [Str "Ann"; Str "Yes"] ].
Proof.
  cbv zeta.
  assert (Hg : get (autodetect_columns sample_mobile_numeric) "mobileservice"
               = Some "Mobile") by (vm_compute; reflexivity).
  split; [exact Hg |]. split.
  - destruct (X9_mobile_requirement Sample.lib sample_mobile_numeric
                (args_of None None None None None None true None)
                (autodetect_columns sample_mobile_numeric) [Str "Cy"; NaN] "Mobile"
                Hg eq_refl eq_refl) as [H _].
    { right; right; left; reflexivity. }
    apply (H eq_refl). left. reflexivity.
  - split; vm_compute; reflexivity.
Defined.

Lemma occurs_ci_str_in (t s : string) :
  occurs_ci t s <-> Py.str_in (Py.lower t) (Py.lower s) = true.
Proof. unfold occurs_ci. symmetry. apply str_in_spec. Qed.

(** X10. Under the availability criterion, with the field resolved, a row
    passes exactly when the request names no day or at least one of its day
    tokens occurs, letter case aside, in the text of the cell. *)
Theorem X10_any_requested_day (L : Lib) (df : DataFrame) (a : Cli.Args)
    (mapping : gmap string (option string)) (r : list cell) (h : string) :
  get mapping "availability" = Some h -> Py.truthy h = true ->
  (Cli.availability_ok L df a mapping r = true
   <-> Cli.split_list (Cli.available a) = []
       \/ exists t, In t (Cli.split_list (Cli.available a))
                    /\ occurs_ci t (astype_str L (get_cell (columns df) r h))).
Proof.
  intros Hg Ht. unfold Cli.availability_ok.
  rewrite (guarded_on _ _ _ _ _ _ h Hg Ht).
  unfold Cli.req_days. rewrite nonempty_map.
  destruct (Cli.split_list (Cli.available a)) as [|t0 ts] eqn:E.
  { simpl. split; [intros _; left; reflexivity | reflexivity]. }
  cbn [nonempty]. unfold any_day. rewrite existsb_exists. split.
  - intros [d [Hd Hin]]. right. apply in_map_iff in Hd as [t [<- Ht']].
    exists t. split; [exact Ht' |]. apply occurs_ci_str_in.
    assert (Hs : Py.strip t = t).
    { apply (split_list_tokens (Cli.available a)). rewrite E. exact Ht'. }
    rewrite Hs in Hin. exact Hin.
  - intros [H | [t [Ht' Hocc]]]; [discriminate |].
    exists (Py.lower (Py.strip t)). split.
    + apply in_map_iff. exists t. split; [reflexivity | exact Ht'].
    + assert (Hs : Py.strip t = t).
      { apply (split_list_tokens (Cli.available a)). rewrite E. exact Ht'. }
      rewrite Hs. apply occurs_ci_str_in. exact Hocc.
Qed.

Lemma X10_any_requested_day_witness :
  let a := args_of None None None (Some "SAT; tue") None None false None in
  get (autodetect_columns sample_hours) "availability" = Some "Hours"
  /\ Cli.availability_ok Sample.lib sample_hours a (autodetect_columns sample_hours)
       [Str "Bo"; Str "Sat, Sun"] = true
  /\ Cli.filter_rows Sample.lib sample_hours a (autodetect_columns sample_hours)
     = Ok [ [Str "Bo"; Str "Sat, Sun"] ].
Proof.
  cbv zeta.
  assert (Hg : get (autodetect_columns sample_hours) "availability" = Some "Hours")
    by (vm_compute; reflexivity).
  split; [exact Hg |]. split; [|vm_compute; reflexivity].
  apply (X10_any_requested_day Sample.lib sample_hours
           (args_of None None None (Some "SAT; tue") None None false None)
           (autodetect_columns sample_hours) [Str "Bo"; Str "Sat, Sun"] "Hours"
           Hg eq_refl).
  right. exists "SAT". split; [left; reflexivity |].
  exists "", ", sun". reflexivity.
Defined.

(** X11. With a price minimum and a price maximum and the field resolved, a
    row passes exactly when its cell has a numeric value between the two
    bounds, the bounds included; when the maximum is below the minimum no
    row of the frame is returned. *)
Theorem X11_price_range_is_inclusive (L : Lib) (df : DataFrame) (a : Cli.Args)
    (mapping : gmap string (option string)) (r : list cell) (h : string) (lo hi : Q) :
  get mapping "price" = Some h -> Py.truthy h = true ->
  Cli.price_min a = Some lo -> Cli.price_max a = Some hi ->
  (Cli.price_ok L df a mapping r = true
   <-> exists v, to_numeric L (get_cell (columns df) r h) = Some v
                 /\ (lo <= v)%Q /\ (v <= hi)%Q)
  /\ ((hi < lo)%Q ->
      forall rs, Cli.filter_rows L df a mapping = Ok rs -> ~ In r rs).
Proof.
  intros Hg Ht Hlo Hhi.
  assert (Hiff : Cli.price_ok L df a mapping r = true
                 <-> exists v, to_numeric L (get_cell (columns df) r h) = Some v
                               /\ (lo <= v)%Q /\ (v <= hi)%Q).
  { unfold Cli.price_ok. rewrite (guarded_on _ _ _ _ _ _ h Hg Ht), Hlo, Hhi.
    unfold Cli.at_least, Cli.at_most, num_ge, num_le, ge, le.
    destruct (to_numeric L (get_cell (columns df) r h)) as [v|].
    - rewrite andb_true_iff, !Qle_bool_iff. split.
      + intros [H1 H2]. exists v. repeat split; assumption.
      + intros [v' [[= <-] [H1 H2]]]. split; assumption.
    - split; [discriminate | intros [v [H _]]; discriminate]. }
  split; [exact Hiff |].
  intros Hlt rs Hf Hin. unfold Cli.filter_rows in Hf.
  destruct (Cli.neighborhood_search L a mapping) as [search | e]; [|discriminate].
  injection Hf as <-. apply filter_In in Hin as [_ Hk].
  apply cli_keep_true in Hk. destruct Hk as [_ [_ [_ [Hp _]]]].
  apply Hiff in Hp as [v [_ [H1 H2]]].
  apply (Qlt_not_le _ _ Hlt). apply (Qle_trans _ v); assumption.
Qed.

Lemma X11_price_range_is_inclusive_witness :
  let a := args_of None None None None (Some 100%Q) (Some 150%Q) false None in
  get (autodetect_columns Sample.providers) "price" = Some "Price"
  /\ Cli.price_ok Sample.lib Sample.providers a (autodetect_columns Sample.providers)
       [Str "Vancouver"; Num 100; Num (48 # 10)] = true
  /\ Cli.filter_rows Sample.lib Sample.providers a (autodetect_columns Sample.providers)
     = Ok [ [Str "Vancouver"; Num 100; Num (48 # 10)];
            [Str "Vancouver"; Num 150; Num (49 # 10)] ].
Proof.
  cbv zeta.
  assert (Hg : get (autodetect_columns Sample.providers) "price" = Some "Price")
    by (vm_compute; reflexivity).
  split; [exact Hg |]. split; [|vm_compute; reflexivity].
  destruct (X11_price_range_is_inclusive Sample.lib Sample.providers
              (args_of None None None None (Some 100%Q) (Some 150%Q) false None)
              (autodetect_columns Sample.providers)
              [Str "Vancouver"; Num 100; Num (48 # 10)] "Price" 100%Q 150%Q
              Hg eq_refl eq_refl eq_refl) as [H _].
  apply H. exists 100%Q. split; [reflexivity |]. split; [apply Qle_refl | discriminate].
Defined.

(** ** Sort keys *)

Lemma X12_cli_resolve_witness :
  Cli.resolve ["Name"; "Price"] (autodetect_columns Sample.two_prices)
    ["foo"; "-price"; "NAME"]
  = (["Price"; "Name"], [false; true], ["Warning: sort key 'foo' not found; ignored."])
  /\ List.filter (cli_resolves ["Name"; "Price"] (autodetect_columns Sample.two_prices))
       ["foo"; "-price"; "NAME"]
     = ["-price"; "NAME"]
  /\ Cli.resolve ["Name"; "Price"] (autodetect_columns Sample.two_prices)
       (List.filter (cli_resolves ["Name"; "Price"] (autodetect_columns Sample.two_prices))
          ["foo"; "-price"; "NAME"])
     = (["Price"; "Name"], [false; true], []).
Proof.
  assert (E : Cli.resolve ["Name"; "Price"] (autodetect_columns Sample.two_prices)
                ["foo"; "-price"; "NAME"]
              = (["Price"; "Name"], [false; true],
                 ["Warning: sort key 'foo' not found; ignored."]))
    by (vm_compute; reflexivity).
  split; [exact E |]. split; [vm_compute; reflexivity |].
  apply (cli_resolve_drops_unresolved _ _ _ _ _ _ E).
Defined.

Lemma in_ALIASES_In (k : string) : in_ALIASES k = true -> In k PREFERRED_ORDER.
Proof.
  unfold in_ALIASES. rewrite existsb_exists. intros [e [He Hk]].
  apply String.eqb_eq in Hk. subst.
  change PREFERRED_ORDER with (map fst ALIASES). apply in_map. exact He.
Qed.

(** The columns the command line sorts by are headers of the frame, one
    direction each. *)
Lemma cli_resolve_headers (df : DataFrame) (keys : list string) (by_ : list string)
    (ascending : list bool) (warnings : list string) :
  Cli.resolve (columns df) (autodetect_columns df) keys = (by_, ascending, warnings) ->
  Forall (fun h => In h (columns df)) by_ /\ length by_ = length ascending.
Proof.
  assert (Hm : forall k h, in_ALIASES k = true ->
            Py.truthy_opt (get (autodetect_columns df) k) = true ->
            default "" (get (autodetect_columns df) k) = h -> In h (columns df)).
  { intros k h Hk Ht <-. apply in_ALIASES_In in Hk.
    destruct (get (autodetect_columns df) k) as [h|] eqn:E; [|discriminate].
    simpl in *. apply (resolved_header df k h Hk). unfold resolved. rewrite E, Ht.
    reflexivity. }
  revert Hm. generalize (autodetect_columns df). intros m Hm.
  revert by_ ascending warnings.
  induction keys as [|k keys IH]; intros by_ ascending warnings.
  - intros [= <- <- <-]. split; [constructor | reflexivity].
  - rewrite cli_resolve_cons.
    destruct (Cli.resolve (columns df) m keys) as [[by' asc'] w'].
    destruct (IH by' asc' w' eq_refl) as [Hall Hlen].
    destruct (existsb (String.eqb (sort_key k)) (columns df)) eqn:E1.
    { intros [= <- <- <-]. split; [|simpl; rewrite Hlen; reflexivity].
      constructor; [apply existsb_eqb_In; exact E1 | exact Hall]. }
    destruct (in_ALIASES (Py.lower (sort_key k))
              && Py.truthy_opt (get m (Py.lower (sort_key k)))) eqn:E2.
    { intros [= <- <- <-]. split; [|simpl; rewrite Hlen; reflexivity].
      apply andb_prop in E2 as [Ha Ht].
      constructor; [apply (Hm _ _ Ha Ht eq_refl) | exact Hall]. }
    destruct (List.filter (fun c => String.eqb (Py.lower c) (Py.lower (sort_key k)))
                (columns df)) as [|x xs] eqn:E3.
    { intros [= <- <- <-]. split; assumption. }
    intros [= <- <- <-]. split; [|simpl; rewrite Hlen; reflexivity].
    constructor; [|exact Hall].
    assert (Hx : In x (List.filter
                         (fun c => String.eqb (Py.lower c) (Py.lower (sort_key k)))
                         (columns df))) by (rewrite E3; left; reflexivity).
    apply filter_In in Hx as [Hx _]. exact Hx.
Qed.

Lemma forallb_exists_false {A : Type} (f : A -> bool) (l : list A) :
  forallb f l = false -> exists x, In x l /\ f x = false.
Proof.
  induction l as [|x l IH]; simpl; [discriminate |].
  destruct (f x) eqn:E.
  - intros H. destruct (IH H) as [y [Hy Hf]]. exists y. split; [right |]; assumption.
  - intros _. exists x. split; [left; reflexivity | exact E].
Qed.

Lemma cli_filter_rows_raises (L : Lib) (df : DataFrame) (a : Cli.Args)
    (mapping : gmap string (option string)) (e : exn) :
  Cli.filter_rows L df a mapping = Raise e ->
  e = ReError /\ re_compile L (Py.lower (default "" (Cli.neighborhood a))) = None.
Proof.
  unfold Cli.filter_rows, Cli.neighborhood_search.
  destruct (Py.truthy_opt (Cli.neighborhood a) && _); [|discriminate].
  destruct (re_compile L (Py.lower (default "" (Cli.neighborhood a)))); [discriminate |].
  intros [= <-]. split; reflexivity.
Qed.

Lemma cli_resolve_lengths (cols : list string) (mapping : gmap string (option string))
    (keys : list string) (by_ : list string) (ascending : list bool)
    (warnings : list string) :
  Cli.resolve cols mapping keys = (by_, ascending, warnings) ->
  length by_ = length ascending.
Proof.
  revert by_ ascending warnings.
  induction keys as [|k keys IH]; intros by_ ascending warnings.
  - intros [= <- <- <-]. reflexivity.
  - rewrite cli_resolve_cons.
    destruct (Cli.resolve cols mapping keys) as [[by' asc'] w'].
    specialize (IH by' asc' w' eq_refl).
    destruct (existsb (String.eqb (sort_key k)) cols);
      [intros [= <- <- <-]; simpl; rewrite IH; reflexivity |].
    destruct (in_ALIASES (Py.lower (sort_key k))
              && Py.truthy_opt (get mapping (Py.lower (sort_key k))));
      [intros [= <- <- <-]; simpl; rewrite IH; reflexivity |].
    destruct (List.filter (fun c => String.eqb (Py.lower c) (Py.lower (sort_key k))) cols);
      intros [= <- <- <-]; simpl; rewrite ?IH; reflexivity.
Qed.

(** Against a frame without columns a sort token resolves only through the
    mapping, to a header that a canonical field resolved to. *)
Lemma cli_resolve_no_columns (mapping : gmap string (option string))
    (keys : list string) (by_ : list string) (ascending : list bool)
    (warnings : list string) :
  Cli.resolve [] mapping keys = (by_, ascending, warnings) ->
  Forall (fun h => In h (preferred mapping)) by_.
Proof.
  revert by_ ascending warnings.
  induction keys as [|k keys IH]; intros by_ ascending warnings.
  - intros [= <- <- <-]. constructor.
  - rewrite cli_resolve_cons.
    destruct (Cli.resolve [] mapping keys) as [[by' asc'] w'].
    specialize (IH by' asc' w' eq_refl). cbn [existsb List.filter].
    destruct (in_ALIASES (Py.lower (sort_key k))
              && Py.truthy_opt (get mapping (Py.lower (sort_key k)))) eqn:E;
      [|intros [= <- <- <-]; exact IH].
    intros [= <- <- <-]. constructor; [|exact IH].
    apply andb_prop in E as [Ha Ht]. apply in_ALIASES_In in Ha.
    unfold preferred. apply In_omap. exists (Py.lower (sort_key k)).
    split; [exact Ha |]. unfold resolved.
    destruct (get mapping (Py.lower (sort_key k))) as [h|]; [|discriminate].
    simpl in Ht. rewrite Ht. reflexivity.
Qed.

(** [sort_values] with as many directions as columns fails on a column that
    is not a header of the frame, and on a single column that holds text and
    numbers. *)
Lemma sort_values_raises (L : Lib) (df : DataFrame) (by_ : list string)
    (ascending : list bool) (e : exn) :
  length by_ = length ascending ->
  sort_values L df by_ ascending = Raise e ->
  (e = KeyError /\ exists h, In h by_ /\ ~ In h (columns df))
  \/ (e = TypeError
      /\ exists h asc,
           by_ = [h] /\ ascending = [asc] /\ In h (columns df)
           /\ sortable (column df h) = false).
Proof.
  intros Hlen. unfold sort_values. rewrite Hlen, Nat.eqb_refl. cbn [negb].
  destruct (forallb (has_column df) by_) eqn:Ec; cbn [negb].
  - destruct by_ as [|h [|h' by_]]; destruct ascending as [|b [|b' ascending]];
      try discriminate.
    destruct (sortable (column df h)) eqn:Es; [discriminate |].
    intros [= <-]. right. split; [reflexivity |]. exists h, b.
    repeat split; try assumption.
    cbn [forallb] in Ec. rewrite andb_true_r in Ec. apply existsb_eqb_In. exact Ec.
  - intros [= <-]. left. split; [reflexivity |].
    destruct (forallb_exists_false _ _ Ec) as [h [Hh Hs]].
    exists h. split; [exact Hh |]. intros Hin.
    apply existsb_eqb_In in Hin. unfold has_column in Hs. congruence.
Qed.

(** X13. The command line fails in three ways only: with the error of the
    regular expression engine, before any warning, when the neighbourhood
    text is not a pattern; with [TypeError] when one sort key resolves and its
    column holds both text and numbers among the kept rows; and with
    [KeyError] when the frame has no rows, no criterion of the request runs
    and some header is an alias of a canonical field. *)
Theorem X13_command_line_failures (L : Lib) (df : DataFrame) (a : Cli.Args)
    (w : list string) (e : exn) :
  Cli.main L df a = (w, Raise e) ->
  (e = ReError /\ w = []
   /\ re_compile L (Py.lower (default "" (Cli.neighborhood a))) = None)
  \/ (e = TypeError
      /\ exists rs h asc,
           Cli.filter_rows L df a (autodetect_columns df) = Ok rs
           /\ Cli.resolve (columns df) (autodetect_columns df)
                (sort_tokens (default "" (Cli.sort a)))
              = ([h], [asc], w)
           /\ In h (columns df)
           /\ sortable (column {| columns := columns df; rows := rs |} h) = false)
  \/ (e = KeyError
      /\ rows df = []
      /\ Cli.mask_updated a (autodetect_columns df) = false
      /\ preferred (autodetect_columns df) <> []).
Proof.
  assert (Hp := preferred_In_columns df).
  assert (Hh := cli_resolve_headers df (sort_tokens (default "" (Cli.sort a)))).
  unfold Cli.main. cbv zeta.
  destruct (Cli.filter_rows L df a (autodetect_columns df)) as [rs | e'] eqn:Ef.
  2:{ intros [= <- <-]. left.
      destruct (cli_filter_rows_raises L df a (autodetect_columns df) e' Ef) as [-> H].
      repeat split. exact H. }
  revert Hp Hh. generalize (autodetect_columns df). intros m Hp Hh.
  destruct (nonempty (rows df) || Cli.mask_updated a m) eqn:Ek.
  - rewrite (cli_masked_kept L df a m rs Ek).
    destruct (Cli.sort_stage L a m {| columns := columns df; rows := rs |})
      as [w' [r | e']] eqn:Es.
    + assert (Hc := cli_sort_stage_columns L a m _ r w' Es). cbn [columns] in Hc.
      assert (E : forallb (has_column r) (preferred m) = true).
      { apply forallb_forall. intros h Hin. apply existsb_eqb_In. rewrite Hc.
        apply Hp. exact Hin. }
      rewrite getitem_reorder, E. discriminate.
    + intros [= <- <-]. right. left.
      unfold Cli.sort_stage in Es.
      destruct (Py.truthy_opt (Cli.sort a)); [|discriminate].
      cbn [columns] in Es.
      destruct (Cli.resolve (columns df) m (sort_tokens (default "" (Cli.sort a))))
        as [[by_ ascending] warnings] eqn:Er.
      destruct (Hh by_ ascending warnings eq_refl) as [Hall Hlen].
      destruct (nonempty by_); [|discriminate].
      injection Es as <- Es.
      destruct (sort_values_raises L _ by_ ascending e' Hlen Es)
        as [[_ [h [Hin Hnot]]] | [-> [h [asc [-> [-> [Hin Hs]]]]]]].
      * exfalso. apply Hnot. rewrite List.Forall_forall in Hall. apply Hall. exact Hin.
      * split; [reflexivity |]. exists rs, h, asc. repeat split; assumption.
  - destruct (cli_masked_lost L df a m rs Ek) as [Hr ->].
    apply orb_false_elim in Ek as [_ Hm].
    destruct (Cli.sort_stage L a m {| columns := []; rows := [] |})
      as [w' [r | e']] eqn:Es.
    + assert (Hc := cli_sort_stage_columns L a m _ r w' Es). cbn [columns] in Hc.
      destruct r as [cs rws]. cbn [columns] in Hc. subst cs.
      rewrite getitem_reorder, forallb_has_column_nil.
      destruct (preferred m) as [|x xs] eqn:Epref; [discriminate |].
      intros [= <- <-]. right. right. repeat split; try assumption. discriminate.
    + intros [= <- <-]. right. right.
      unfold Cli.sort_stage in Es.
      destruct (Py.truthy_opt (Cli.sort a)); [|discriminate].
      cbn [columns] in Es.
      destruct (Cli.resolve [] m (sort_tokens (default "" (Cli.sort a))))
        as [[by_ ascending] warnings] eqn:Er.
      assert (Hlen := cli_resolve_lengths _ _ _ _ _ _ Er).
      assert (Hpref := cli_resolve_no_columns _ _ _ _ _ Er).
      destruct (nonempty by_); [|discriminate].
      injection Es as <- Es.
      destruct (sort_values_raises L _ by_ ascending e' Hlen Es)
        as [[-> [h [Hin _]]] | [_ [h [asc [_ [_ [[] _]]]]]]].
      repeat split; try assumption.
      rewrite List.Forall_forall in Hpref. specialize (Hpref h Hin).
      intros Hnil. rewrite Hnil in Hpref. destruct Hpref.
Qed.

(** Sorting by a price column that holds a number and a text fails; so does
    reading a file that holds the header line only. *)
Lemma X13_command_line_failures_witness :
  Cli.main Sample.lib sample_mixed_prices (Sample.with_sort "price")
  = ([], Raise TypeError)
  /\ sortable (column sample_mixed_prices "Price") = false
  /\ Cli.main Sample.lib sample_header_only Sample.no_args = ([], Raise KeyError)
  /\ preferred (autodetect_columns sample_header_only) <> [].
Proof.
  assert (E : Cli.main Sample.lib sample_mixed_prices (Sample.with_sort "price")
              = ([], Raise TypeError)) by (vm_compute; reflexivity).
  assert (E' : Cli.main Sample.lib sample_header_only Sample.no_args
               = ([], Raise KeyError)) by (vm_compute; reflexivity).
  split; [exact E |]. split; [reflexivity |]. split; [exact E' |].
  destruct (X13_command_line_failures Sample.lib sample_header_only
              Sample.no_args [] KeyError E')
    as [[H _] | [[H _] | [_ [_ [_ H]]]]]; [discriminate | discriminate | exact H].
Defined.

(** ** [sort_values] orders the rows *)

Lemma Sorted_app_all {A : Type} (R : A -> A -> Prop) (l1 l2 : list A) :
  Sorted R l1 -> Sorted R l2 ->
  (forall x y, In x l1 -> In y l2 -> R x y) ->
  Sorted R (l1 ++ l2).
Proof.
  induction 1 as [|x l1 Hs IH Hhd]; intros H2 Hall; [exact H2 |].
  simpl. constructor.
  - apply IH; [exact H2 |]. intros a b Ha Hb. apply Hall; [right |]; assumption.
  - destruct Hhd as [|y l1 Hxy]; simpl.
    + destruct l2 as [|z l2]; constructor.
      apply Hall; left; reflexivity.
    + constructor. exact Hxy.
Qed.

Lemma Sorted_all_related {A : Type} (R : A -> A -> Prop) (l : list A) :
  (forall x y, In x l -> In y l -> R x y) -> Sorted R l.
Proof.
  induction l as [|x l IH]; intros H; constructor.
  - apply IH. intros a b Ha Hb. apply H; right; assumption.
  - destruct l as [|y l]; constructor. apply H; [left | right; left]; reflexivity.
Qed.

Lemma Sorted_map_In {A B C : Type} (R : B -> B -> Prop) (R' : C -> C -> Prop)
    (f : A -> B) (g : A -> C) (l : list A) :
  (forall a b, In a l -> In b l -> R (f a) (f b) -> R' (g a) (g b)) ->
  Sorted R (map f l) -> Sorted R' (map g l).
Proof.
  induction l as [|x l IH]; intros H Hs; simpl; [constructor |].
  simpl in Hs. inversion Hs as [|? ? Hs' Hhd]; subst. constructor.
  - apply IH; [|exact Hs']. intros a b Ha Hb. apply H; right; assumption.
  - destruct l as [|y l]; simpl in *; constructor.
    inversion Hhd; subst. apply H; [left | right; left |]; try reflexivity. assumption.
Qed.

Lemma Sorted_rev_append {A : Type} (R : A -> A -> Prop) (l acc : list A) :
  Sorted R l -> Sorted (fun x y => R y x) acc ->
  match l, acc with
  | x :: _, a :: _ => R a x
  | _, _ => True
  end ->
  Sorted (fun x y => R y x) (rev_append l acc).
Proof.
  revert acc. induction l as [|x l IH]; intros acc Hl Hacc Hlink; [exact Hacc |].
  simpl. inversion Hl as [|? ? Hl' Hhd]; subst. apply IH.
  - exact Hl'.
  - constructor; [exact Hacc |]. destruct acc as [|a acc]; constructor. exact Hlink.
  - destruct l as [|y l]; [exact I |]. inversion Hhd; subst. assumption.
Qed.

Lemma Sorted_rev {A : Type} (R : A -> A -> Prop) (l : list A) :
  Sorted R l -> Sorted (fun x y => R y x) (rev l).
Proof.
  intros H. rewrite rev_alt. apply Sorted_rev_append; [exact H | constructor |].
  destruct l; exact I.
Qed.

Lemma omap_key_nth (items : list cell) (idx : list nat) (j : nat) (d : skey) :
  Forall (fun i => isna (nth i items NaN) = false) idx ->
  (j < length idx)%nat ->
  key_of (nth (nth j idx 0%nat) items NaN)
  = Some (nth j (omap (fun i => key_of (nth i items NaN)) idx) d).
Proof.
  intros H. revert j. induction H as [|i idx Hi _ IH]; intros j Hj; [simpl in Hj; lia |].
  destruct (key_of_isna _ Hi) as [k Hk].
  change (omap (fun i => key_of (nth i items NaN)) (i :: idx))
    with (match key_of (nth i items NaN) with
          | Some k => k :: omap (fun i => key_of (nth i items NaN)) idx
          | None => omap (fun i => key_of (nth i items NaN)) idx
          end).
  rewrite Hk. destruct j as [|j]; simpl; [exact Hk |].
  apply IH. simpl in Hj. lia.
Qed.

Lemma code_leb_at_present (items : list cell) (i j : nat) (ki kj : skey) :
  key_of (nth i items NaN) = Some ki -> key_of (nth j items NaN) = Some kj ->
  code_leb_at items true i j = skey_leb ki kj
  /\ code_leb_at items false i j = skey_leb kj ki.
Proof.
  intros Hi Hj. unfold code_leb_at, code_cmp, skey_leb. rewrite Hi, Hj.
  split; reflexivity.
Qed.

(** The positions [nargsort] returns are in the order of the key: ascending
    or descending among the present values, the missing values last. *)
Lemma nargsort_sorted (L : Lib) (items : list cell) (ascending : bool) :
  argsort_ok (quicksort L) ->
  Sorted (fun i j => code_leb_at items ascending i j = true)
    (nargsort L items ascending).
Proof.
  intros Hq. unfold nargsort.
  set (present := fun i => negb (isna (nth i items NaN))).
  set (idx := seq 0 (length items)).
  set (ni := if ascending then List.filter present idx else rev (List.filter present idx)).
  set (ks := omap (fun i => key_of (nth i items NaN)) ni).
  assert (Hni : Permutation ni (List.filter present idx)).
  { unfold ni. destruct ascending; [apply Permutation_refl |].
    apply Permutation_sym, Permutation_rev. }
  assert (Hpres : Forall (fun i => isna (nth i items NaN) = false) ni).
  { apply List.Forall_forall. intros i Hi.
    apply (Permutation_in _ Hni) in Hi. apply filter_In in Hi as [_ Hi].
    unfold present in Hi. apply negb_true_iff in Hi. exact Hi. }
  assert (Hlen : length ks = length ni) by (apply omap_key_length; exact Hpres).
  destruct (Hq ks) as [Hperm Hsorted].
  assert (Hix : Permutation (take 0%nat (quicksort L ks) ni) ni).
  { apply take_Permutation. rewrite <- Hlen. exact Hperm. }
  assert (Hin : forall x, In x (take 0%nat (quicksort L ks) ni) ->
                  exists k, key_of (nth x items NaN) = Some k).
  { intros x Hx. apply (Permutation_in _ Hix) in Hx.
    rewrite List.Forall_forall in Hpres. apply key_of_isna. apply Hpres. exact Hx. }
  assert (HA : Sorted (fun i j => code_leb_at items true i j = true)
                 (take 0%nat (quicksort L ks) ni)).
  { unfold take in *.
    apply (Sorted_map_In (fun x y => skey_leb x y = true) _
             (fun j => nth j ks skey_default)); [|exact Hsorted].
    intros a b Ha Hb Hab.
    assert (Hlt : forall c, In c (quicksort L ks) -> (c < length ni)%nat).
    { intros c Hc. apply (Permutation_in _ Hperm) in Hc. apply in_seq in Hc. lia. }
    destruct (code_leb_at_present items (nth a ni 0%nat) (nth b ni 0%nat) _ _
                (omap_key_nth items ni a skey_default Hpres (Hlt a Ha))
                (omap_key_nth items ni b skey_default Hpres (Hlt b Hb))) as [-> _].
    exact Hab. }
  set (indexer := if ascending then take 0%nat (quicksort L ks) ni
                  else rev (take 0%nat (quicksort L ks) ni)).
  assert (Hind : forall x, In x indexer -> exists k, key_of (nth x items NaN) = Some k).
  { intros x Hx. apply Hin. unfold indexer in Hx.
    destruct ascending; [exact Hx | apply in_rev; exact Hx]. }
  apply Sorted_app_all.
  - unfold indexer. destruct ascending; [exact HA |].
    rewrite <- (map_id (rev (take 0%nat (quicksort L ks) ni))).
    apply (Sorted_map_In (fun i j => code_leb_at items true j i = true) _ id).
    + intros a b Ha Hb Hab. unfold id in *.
      destruct (Hin a (proj2 (in_rev _ a) Ha)) as [ka Hka].
      destruct (Hin b (proj2 (in_rev _ b) Hb)) as [kb Hkb].
      destruct (code_leb_at_present items a b ka kb Hka Hkb) as [_ ->].
      destruct (code_leb_at_present items b a kb ka Hkb Hka) as [E _].
      rewrite <- E. exact Hab.
    + rewrite map_id. apply Sorted_rev. exact HA.
  - apply Sorted_all_related. intros x y Hx Hy.
    apply filter_In in Hx as [_ Hx]. apply filter_In in Hy as [_ Hy].
    unfold present in Hx, Hy. rewrite negb_involutive in Hx, Hy.
    unfold code_leb_at. destruct (nth x items NaN); try discriminate.
    destruct (nth y items NaN); try discriminate. reflexivity.
  - intros x y Hx Hy. destruct (Hind x Hx) as [k Hk].
    apply filter_In in Hy as [_ Hy]. unfold present in Hy.
    rewrite negb_involutive in Hy.
    unfold code_leb_at, code_cmp. rewrite Hk.
    destruct (nth y items NaN); try discriminate. reflexivity.
Qed.

Lemma sort_values_Ok (L : Lib) (df : DataFrame) (by_ : list string)
    (ascending : list bool) :
  length by_ = length ascending ->
  forallb (has_column df) by_ = true ->
  (forall h, by_ = [h] -> sortable (column df h) = true) ->
  exists out, sort_values L df by_ ascending = Ok out.
Proof.
  intros Hlen Hc Hs. unfold sort_values. rewrite Hlen, Nat.eqb_refl, Hc. cbn [negb].
  destruct by_ as [|h [|h' by_]]; destruct ascending as [|b [|b' ascending]];
    try discriminate; try (eexists; reflexivity).
  rewrite (Hs h eq_refl). eexists. reflexivity.
Qed.

Lemma sort_values_Permutation (L : Lib) (df : DataFrame) (by_ : list string)
    (ascending : list bool) (out : DataFrame) :
  argsort_ok (quicksort L) ->
  sort_values L df by_ ascending = Ok out ->
  Permutation (rows out) (rows df).
Proof.
  intros Hq. unfold sort_values.
  destruct (negb (length by_ =? length ascending)%nat); [discriminate |].
  destruct (negb (forallb (has_column df) by_)); [discriminate |].
  assert (Hlex : forall keys, Permutation (lexsort (columns df) keys (rows df)) (rows df)).
  { intros keys. apply isort_Permutation. }
  destruct by_ as [|h [|h' by_]]; destruct ascending as [|b [|b' ascending]];
    try (intros [= <-]; cbn [rows]; apply Hlex).
  destruct (sortable (column df h)); [|discriminate].
  intros [= <-]. cbn [rows].
  destruct (nargsort_spec L (column df h) b Hq) as [front [back [Hn [Hperm _]]]].
  rewrite Hn. apply take_Permutation. rewrite <- (column_length df h). exact Hperm.
Qed.

(** The rows [sort_values] returns are in the order of the keys. *)
Lemma sort_values_Sorted (L : Lib) (df : DataFrame) (by_ : list string)
    (ascending : list bool) (out : DataFrame) :
  argsort_ok (quicksort L) ->
  sort_values L df by_ ascending = Ok out ->
  Sorted (fun r1 r2 => lex_leb (columns df) (combine by_ ascending) r1 r2 = true)
    (rows out).
Proof.
  intros Hq. unfold sort_values.
  destruct (negb (length by_ =? length ascending)%nat); [discriminate |].
  destruct (negb (forallb (has_column df) by_)); [discriminate |].
  assert (Hlex : forall keys,
            Sorted (fun r1 r2 => lex_leb (columns df) keys r1 r2 = true)
              (lexsort (columns df) keys (rows df))).
  { intros keys. apply isort_Sorted. intros x y. apply lex_leb_total. }
  destruct by_ as [|h [|h' by_]]; destruct ascending as [|b [|b' ascending]];
    try (intros [= <-]; cbn [rows]; apply Hlex).
  destruct (sortable (column df h)); [|discriminate].
  intros [= <-]. cbn [rows combine]. unfold take.
  apply (Sorted_map (fun i j => code_leb_at (column df h) b i j = true));
    [|apply nargsort_sorted; exact Hq].
  intros i j Hij. unfold lex_leb. cbn [lex_cmp].
  rewrite !get_cell_nth_row. unfold code_leb_at in Hij.
  destruct (code_cmp b (nth i (column df h) NaN) (nth j (column df h) NaN));
    [reflexivity | reflexivity | discriminate].
Qed.

(** X15. For any number of keys, [sort_values] either raises or returns the
    rows of the frame rearranged so that each row is, under the keys taken in
    order with their directions and missing values last, not after the next
    one; with equally many columns and directions, columns of the frame and
    no column mixing text and numbers it returns. *)
Theorem X15_sort_orders_the_rows (L : Lib) (df : DataFrame) (by_ : list string)
    (ascending : list bool) :
  argsort_ok (quicksort L) ->
  length by_ = length ascending ->
  forallb (has_column df) by_ = true ->
  forallb (fun h => sortable (column df h)) by_ = true ->
  exists out,
    sort_values L df by_ ascending = Ok out
    /\ columns out = columns df
    /\ Permutation (rows out) (rows df)
    /\ Sorted (fun r1 r2 => lex_leb (columns df) (combine by_ ascending) r1 r2 = true)
         (rows out).
Proof.
  intros Hq Hlen Hc Hs.
  destruct (sort_values_Ok L df by_ ascending Hlen Hc) as [out E].
  { intros h ->. cbn [forallb] in Hs. rewrite andb_true_r in Hs. exact Hs. }
  exists out. split; [exact E |]. split; [apply (sort_values_columns _ _ _ _ _ E) |].
  split; [apply (sort_values_Permutation _ _ _ _ _ Hq E) |].
  apply (sort_values_Sorted _ _ _ _ _ Hq E).
Qed.

(** The three providers by descending price. *)
Lemma X15_sort_orders_the_rows_witness :
  exists out,
    sort_values Sample.lib Sample.providers ["Price"] [false] = Ok out
    /\ rows out = [ [Str "Vancouver"; Num 150; Num (49 # 10)];
                    [Str "Vancouver"; Num 100; Num (48 # 10)];
                    [Str "Toronto"; Num 90; Num (45 # 10)] ]
    /\ Sorted (fun r1 r2 => lex_leb (columns Sample.providers) [("Price", false)] r1 r2
                            = true) (rows out).
Proof.
  destruct (X15_sort_orders_the_rows Sample.lib Sample.providers ["Price"] [false]
              insertion_argsort_ok eq_refl eq_refl eq_refl)
    as [out [H1 [_ [_ H4]]]].
  exists out. split; [exact H1 |]. split; [|exact H4].
  assert (E : sort_values Sample.lib Sample.providers ["Price"] [false]
              = Ok {| columns := ["City"; "Price"; "Rating"];
                      rows := [ [Str "Vancouver"; Num 150; Num (49 # 10)];
                                [Str "Vancouver"; Num 100; Num (48 # 10)];
                                [Str "Toronto"; Num 90; Num (45 # 10)] ] |})
    by (vm_compute; reflexivity).
  rewrite E in H1. injection H1 as <-. reflexivity.
Defined.

(** ** The whole run *)

Lemma cli_sort_stage_Permutation (L : Lib) (a : Cli.Args)
    (mapping : gmap string (option string)) (r out : DataFrame) (w : list string) :
  argsort_ok (quicksort L) ->
  Cli.sort_stage L a mapping r = (w, Ok out) ->
  Permutation (rows out) (rows r) /\ columns out = columns r.
Proof.
  intros Hq H. split; [|apply (cli_sort_stage_columns _ _ _ _ _ _ H)].
  revert H. unfold Cli.sort_stage.
  destruct (Py.truthy_opt (Cli.sort a)); [|intros [= _ <-]; apply Permutation_refl].
  destruct (Cli.resolve _ _ _) as [[by_ ascending] warnings].
  destruct (nonempty by_); intros [= _ H].
  - apply (sort_values_Permutation _ _ _ _ _ Hq H).
  - subst. apply Permutation_refl.
Qed.

(** X16. When the command line returns a frame, its rows are the rows the
    filter kept, a subsequence of the rows of the input, rearranged by the
    sort and each projected on the output columns; no row is added and none
    is dropped after the filter. *)
Theorem X16_output_rows_are_the_kept_rows (L : Lib) (df : DataFrame) (a : Cli.Args)
    (w : list string) (out : DataFrame) :
  argsort_ok (quicksort L) ->
  Cli.main L df a = (w, Ok out) ->
  exists rs,
    Cli.filter_rows L df a (autodetect_columns df) = Ok rs
    /\ sublist rs (rows df)
    /\ Permutation (rows out) (map (project df (columns out)) rs)
    /\ (length (rows out) <= length (rows df))%nat.
Proof.
  intros Hq H.
  destruct (cli_main_Ok L df a w out H) as [rs [r [Ef [Es [-> _]]]]].
  exists rs. split; [exact Ef |].
  revert Ef Es. generalize (autodetect_columns df). intros m Ef Es.
  assert (Hsub : sublist rs (rows df)).
  { unfold Cli.filter_rows in Ef.
    destruct (Cli.neighborhood_search L a m); [|discriminate].
    injection Ef as <-. apply filter_sublist. }
  destruct (cli_sort_stage_Permutation L a m _ r w Hq Es) as [Hperm Hcols].
  assert (Hrows : Permutation (rows (reorder m r))
                    (map (project df (columns (reorder m r))) rs)).
  { destruct (nonempty (rows df) || Cli.mask_updated a m) eqn:Ek.
    - rewrite (cli_masked_kept L df a m rs Ek) in Hperm, Hcols.
      cbn [rows columns] in Hperm, Hcols.
      unfold reorder, select, project. cbn [rows columns]. rewrite Hcols.
      apply Permutation_map. exact Hperm.
    - destruct (cli_masked_lost L df a m rs Ek) as [Hr Hm].
      rewrite Hm in Hperm. cbn [rows] in Hperm.
      apply Permutation_sym, Permutation_nil in Hperm.
      rewrite (cli_filter_rows_nil L df a m rs Hr Ef).
      unfold reorder, select. cbn [rows]. rewrite Hperm. constructor. }
  split; [exact Hsub |]. split; [exact Hrows |].
  rewrite (Permutation_length Hrows), length_map. apply sublist_length. exact Hsub.
Qed.

(** The worked example of the design document: city Vancouver, price at
    most 120. *)
Lemma X16_output_rows_are_the_kept_rows_witness :
  let a := args_of (Some "Vancouver") None None None None (Some 120%Q) false None in
  Cli.main Sample.lib Sample.providers a
  = ([], Ok {| columns := ["City"; "Price"; "Rating"];
               rows := [ [Str "Vancouver"; Num 100; Num (48 # 10)] ] |})
  /\ exists rs,
       Cli.filter_rows Sample.lib Sample.providers a (autodetect_columns Sample.providers)
       = Ok rs
       /\ sublist rs (rows Sample.providers).
Proof.
  cbv zeta.
  assert (E : Cli.main Sample.lib Sample.providers
                (args_of (Some "Vancouver") None None None None (Some 120%Q) false None)
              = ([], Ok {| columns := ["City"; "Price"; "Rating"];
                           rows := [ [Str "Vancouver"; Num 100; Num (48 # 10)] ] |}))
    by (vm_compute; reflexivity).
  split; [exact E |].
  destruct (X16_output_rows_are_the_kept_rows Sample.lib Sample.providers _ _ _
              insertion_argsort_ok E) as [rs [H1 [H2 _]]].
  exists rs. split; assumption.
Defined.

(** ** The order of the keys is transitive *)

Lemma skey_cmp_eq_l (a b c : skey) :
  skey_cmp a b = Eq -> skey_cmp a c = skey_cmp b c.
Proof.
  destruct a as [x | s], b as [y | t]; simpl; try discriminate.
  - intros H. apply Qeq_alt in H. destruct c as [z | u]; [|reflexivity].
    simpl. rewrite H. reflexivity.
  - intros H. apply String.compare_eq_iff in H. subst. reflexivity.
Qed.

Lemma skey_cmp_lt_trans (a b c : skey) :
  skey_cmp a b = Lt -> skey_cmp b c = Lt -> skey_cmp a c = Lt.
Proof.
  destruct a as [x | s], b as [y | t], c as [z | u]; simpl;
    try discriminate; try reflexivity.
  - rewrite <- !Qlt_alt. apply Qlt_trans.
  - intros H1 H2. apply OrderedTypeEx.String_as_OT.cmp_lt.
    apply (OrderedTypeEx.String_as_OT.lt_trans s t u);
      apply OrderedTypeEx.String_as_OT.cmp_lt; assumption.
Qed.

Lemma code_cmp_eq_l (asc : bool) (a b c : cell) :
  code_cmp asc a b = Eq -> code_cmp asc a c = code_cmp asc b c.
Proof.
  unfold code_cmp.
  destruct (key_of a) as [x|], (key_of b) as [y|]; try discriminate; [|reflexivity].
  destruct (key_of c) as [z|]; [|reflexivity].
  destruct asc; [apply skey_cmp_eq_l |].
  intros H. rewrite (skey_cmp_antisym x z), (skey_cmp_antisym y z). f_equal.
  apply skey_cmp_eq_l. rewrite (skey_cmp_antisym y x), H. reflexivity.
Qed.

Lemma code_cmp_eq_r (asc : bool) (a b c : cell) :
  code_cmp asc b c = Eq -> code_cmp asc a c = code_cmp asc a b.
Proof.
  intros H. rewrite (code_cmp_antisym asc c a), (code_cmp_antisym asc b a). f_equal.
  apply code_cmp_eq_l. rewrite (code_cmp_antisym asc b c), H. reflexivity.
Qed.

Lemma code_cmp_lt_trans (asc : bool) (a b c : cell) :
  code_cmp asc a b = Lt -> code_cmp asc b c = Lt -> code_cmp asc a c = Lt.
Proof.
  unfold code_cmp.
  destruct (key_of a) as [x|], (key_of b) as [y|], (key_of c) as [z|];
    try discriminate; try reflexivity.
  destruct asc; [apply skey_cmp_lt_trans |].
  intros H1 H2. apply (skey_cmp_lt_trans z y x); assumption.
Qed.

Lemma lex_leb_trans (hs : list string) (keys : list (string * bool))
    (r1 r2 r3 : list cell) :
  lex_leb hs keys r1 r2 = true -> lex_leb hs keys r2 r3 = true ->
  lex_leb hs keys r1 r3 = true.
Proof.
  unfold lex_leb. induction keys as [|[h asc] ks IH]; [reflexivity |].
  cbn [lex_cmp].
  destruct (code_cmp asc (get_cell hs r1 h) (get_cell hs r2 h)) eqn:E1;
    try discriminate.
  - rewrite (code_cmp_eq_l asc _ _ (get_cell hs r3 h) E1).
    destruct (code_cmp asc (get_cell hs r2 h) (get_cell hs r3 h)); try discriminate;
      [exact IH | reflexivity].
  - destruct (code_cmp asc (get_cell hs r2 h) (get_cell hs r3 h)) eqn:E2;
      try discriminate; intros _ _.
    + rewrite (code_cmp_eq_r asc _ _ _ E2), E1. reflexivity.
    + rewrite (code_cmp_lt_trans asc _ _ _ E1 E2). reflexivity.
Qed.

Lemma lex_cmp_app (hs : list string) (pre ks : list (string * bool))
    (r1 r2 : list cell) :
  lex_cmp hs (pre ++ ks) r1 r2
  = match lex_cmp hs pre r1 r2 with
    | Eq => lex_cmp hs ks r1 r2
    | c => c
    end.
Proof.
  induction pre as [|[h asc] pre IH]; [reflexivity |]. cbn [app lex_cmp].
  destruct (code_cmp asc (get_cell hs r1 h) (get_cell hs r2 h)); [exact IH | |];
    reflexivity.
Qed.

Lemma StronglySorted_app_r {A : Type} (R : A -> A -> Prop) (l1 l2 : list A) :
  StronglySorted R (l1 ++ l2) -> StronglySorted R l2.
Proof.
  induction l1 as [|x l1 IH]; [intros H; exact H |].
  intros H. inversion H; subst. apply IH. assumption.
Qed.

(** In a list sorted by a transitive order an element is in order with every
    later one. *)
Lemma Sorted_earlier_later {A : Type} (R : A -> A -> Prop) (l1 l2 l3 : list A)
    (x y : A) :
  (forall a b c, R a b -> R b c -> R a c) ->
  Sorted R (l1 ++ x :: l2 ++ y :: l3) -> R x y.
Proof.
  intros Htrans H. apply Sorted_StronglySorted in H; [|exact Htrans].
  apply StronglySorted_app_r in H. inversion H as [|? ? _ Hall]; subst.
  rewrite List.Forall_forall in Hall. apply Hall. apply in_or_app. right. left.
  reflexivity.
Qed.

(** ** Missing values, and text among numbers, under any sort key *)

(** C2. [sort_values] returns the rows rearranged so that, for every sort
    key, among the rows that tie under the keys before it (all rows, for the
    first key) a row in which the key is missing is followed only by rows in
    which it is missing, in ascending and in descending order alike. Among
    such rows text is not followed by a number under an ascending key, nor a
    number by text under a descending one. A single key whose column holds
    both text and numbers makes the sort fail with [TypeError]. *)
Theorem C2_missing_values_sort_last (L : Lib) (df : DataFrame) (by_ : list string)
    (ascending : list bool) :
  argsort_ok (quicksort L) ->
  length by_ = length ascending ->
  forallb (has_column df) by_ = true ->
  (forall h asc,
     by_ = [h] -> ascending = [asc] -> sortable (column df h) = false ->
     sort_values L df by_ ascending = Raise TypeError)
  /\ ((forall h, by_ = [h] -> sortable (column df h) = true) ->
      exists out,
        sort_values L df by_ ascending = Ok out
        /\ Permutation (rows out) (rows df)
        /\ forall pre h asc post l1 r1 l2 r2 l3,
             combine by_ ascending = pre ++ (h, asc) :: post ->
             rows out = l1 ++ r1 :: l2 ++ r2 :: l3 ->
             tied (columns df) pre r1 r2 = true ->
             (isna (get_cell (columns df) r1 h) = true ->
              isna (get_cell (columns df) r2 h) = true)
             /\ (asc = true -> is_text_cell (get_cell (columns df) r1 h) = true ->
                 is_number_cell (get_cell (columns df) r2 h) = false)
             /\ (asc = false -> is_number_cell (get_cell (columns df) r1 h) = true ->
                 is_text_cell (get_cell (columns df) r2 h) = false)).
Proof.
  intros Hq Hlen Hc. split.
  { intros h asc -> -> Hs. unfold sort_values. rewrite Hc, Hs. reflexivity. }
  intros Hs.
  destruct (sort_values_Ok L df by_ ascending Hlen Hc Hs) as [out E].
  exists out. split; [exact E |].
  split; [apply (sort_values_Permutation _ _ _ _ _ Hq E) |].
  intros pre h asc post l1 r1 l2 r2 l3 Hkeys Hrows Htied.
  assert (Hle : lex_leb (columns df) (combine by_ ascending) r1 r2 = true).
  { assert (Hsorted := sort_values_Sorted _ _ _ _ _ Hq E). rewrite Hrows in Hsorted.
    apply (Sorted_earlier_later
             (fun x y => lex_leb (columns df) (combine by_ ascending) x y = true)
             l1 l2 l3 r1 r2); [|exact Hsorted].
    intros x y z. apply lex_leb_trans. }
  assert (Hcmp : code_cmp asc (get_cell (columns df) r1 h) (get_cell (columns df) r2 h)
                 <> Gt).
  { unfold lex_leb in Hle. rewrite Hkeys, lex_cmp_app in Hle. unfold tied in Htied.
    destruct (lex_cmp (columns df) pre r1 r2); try discriminate.
    cbn [lex_cmp] in Hle. intros Hgt. rewrite Hgt in Hle. discriminate. }
  split; [|split].
  - intros H1. destruct (isna (get_cell (columns df) r2 h)) eqn:H2; [reflexivity |].
    exfalso. apply Hcmp. apply (code_cmp_missing asc _ _ H1 H2).
  - intros -> H1.
    destruct (is_number_cell (get_cell (columns df) r2 h)) eqn:H2; [|reflexivity].
    exfalso. apply Hcmp.
    destruct (get_cell (columns df) r1 h); try discriminate.
    destruct (get_cell (columns df) r2 h); try discriminate; reflexivity.
  - intros -> H1.
    destruct (is_text_cell (get_cell (columns df) r2 h)) eqn:H2; [|reflexivity].
    exfalso. apply Hcmp.
    destruct (get_cell (columns df) r2 h); try discriminate.
    destruct (get_cell (columns df) r1 h); try discriminate; reflexivity.
Qed.

(** Two cities, each with a provider without a price, sorted by city and
    then by descending price: within each city the provider without a price
    is last. A price column of a number and a text is ordered as a second
    key and refused as the only key. *)
Lemma C2_missing_values_sort_last_witness :
  exists out,
    sort_values Sample.lib sample_city_price ["City"; "Price"] [true; false] = Ok out
    /\ rows out
       = [ [Str "Toronto"; Num 90]; [Str "Toronto"; NaN];
           [Str "Vancouver"; Num 100]; [Str "Vancouver"; NaN] ]
    /\ (forall l1 r1 l2 r2 l3,
          rows out = l1 ++ r1 :: l2 ++ r2 :: l3 ->
          tied (columns sample_city_price) [("City", true)] r1 r2 = true ->
          isna (get_cell (columns sample_city_price) r1 "Price") = true ->
          isna (get_cell (columns sample_city_price) r2 "Price") = true)
    /\ sort_values Sample.lib sample_mixed_prices ["Name"; "Price"] [true; true]
       = Ok sample_mixed_prices
    /\ sort_values Sample.lib sample_mixed_prices ["Price"; "Name"] [false; true]
       = Ok {| columns := ["Name"; "Price"];
               rows := [ [Str "Bo"; Str "cheap"]; [Str "Ann"; Num 100] ] |}
    /\ sort_values Sample.lib sample_mixed_prices ["Price"] [true] = Raise TypeError.
Proof.
  destruct (C2_missing_values_sort_last Sample.lib sample_city_price
              ["City"; "Price"] [true; false] insertion_argsort_ok eq_refl eq_refl)
    as [_ H].
  destruct H as [out [H1 [_ H3]]]; [intros h [=] |].
  destruct (C2_missing_values_sort_last Sample.lib sample_mixed_prices
              ["Price"] [true] insertion_argsort_ok eq_refl eq_refl)
    as [Hmixed _].
  exists out. split; [exact H1 |].
  assert (E : sort_values Sample.lib sample_city_price ["City"; "Price"] [true; false]
              = Ok {| columns := ["City"; "Price"];
                      rows := [ [Str "Toronto"; Num 90]; [Str "Toronto"; NaN];
                                [Str "Vancouver"; Num 100]; [Str "Vancouver"; NaN] ] |})
    by (vm_compute; reflexivity).
  split; [rewrite E in H1; injection H1 as <-; reflexivity |].
  split.
  { intros l1 r1 l2 r2 l3 Hrows Htied.
    apply (H3 [("City", true)] "Price" false [] l1 r1 l2 r2 l3 eq_refl Hrows Htied). }
  split; [vm_compute; reflexivity |]. split; [vm_compute; reflexivity |].
  apply (Hmixed "Price" true eq_refl eq_refl). vm_compute. reflexivity.
Defined.

(** ** The order of the output columns *)

(** C9. A file that holds the header line only, read without a criterion:
    the frame behind the mask has no columns. With the headers Notes and
    Phone, of which none is an alias, the program returns a frame without
    columns where the headers in their original order were due; with the
    headers Name and Price it fails with [KeyError] in the column step. With
    one row under the same headers the columns come out as they should. *)
Theorem C9_header_only_frame_loses_its_columns :
  (forall L, Cli.main L sample_header_only_notes Sample.no_args
             = ([], Ok {| columns := []; rows := [] |}))
  /\ preferred (autodetect_columns sample_header_only_notes) = []
  /\ trailing (columns sample_header_only_notes)
       (preferred (autodetect_columns sample_header_only_notes))
     = ["Notes"; "Phone"]
  /\ (forall L, Cli.main L sample_header_only Sample.no_args = ([], Raise KeyError))
  /\ preferred (autodetect_columns sample_header_only) = ["Name"; "Price"]
  /\ (forall L, Cli.main L {| columns := ["Notes"; "Phone"];
                              rows := [ [Str "late"; Str "555"] ] |} Sample.no_args
                = ([], Ok {| columns := ["Notes"; "Phone"];
                             rows := [ [Str "late"; Str "555"] ] |})).
Proof.
  split; [intros L; vm_compute; reflexivity |].
  split; [vm_compute; reflexivity |].
  split; [vm_compute; reflexivity |].
  split; [intros L; vm_compute; reflexivity |].
  split; [vm_compute; reflexivity |].
  intros L. vm_compute. reflexivity.
Qed.

Lemma preferred_explicit (mapping : gmap string (option string)) :
  omap (resolved mapping)
    [ "name"; "city"; "neighborhood"; "price"; "currency"; "rating"; "reviews";
      "modalities"; "gender"; "languages"; "mobileservice"; "availability";
      "yearsexperience"; "credentials"; "bio" ]
  = preferred mapping.
Proof. reflexivity. Qed.

Lemma trailing_explicit (cols pref : list string) :
  List.filter (fun c => negb (existsb (String.eqb c) pref)) cols = trailing cols pref.
Proof. reflexivity. Qed.

(** X18. When the frame has rows, or a criterion of the request runs, the
    headers of the output are the headers of the resolved canonical fields,
    in the enumeration order name, city, ..., bio and without repetition,
    followed by the headers of the frame that are not among them, in the
    order they have in the frame. *)
Theorem X18_output_column_order (L : Lib) (df : DataFrame) (a : Cli.Args)
    (w : list string) (out : DataFrame) :
  nonempty (rows df) || Cli.mask_updated a (autodetect_columns df) = true ->
  Cli.main L df a = (w, Ok out) ->
  let mapping := autodetect_columns df in
  let front :=
    omap (resolved mapping)
      [ "name"; "city"; "neighborhood"; "price"; "currency"; "rating"; "reviews";
        "modalities"; "gender"; "languages"; "mobileservice"; "availability";
        "yearsexperience"; "credentials"; "bio" ] in
  let rest := List.filter (fun c => negb (existsb (String.eqb c) front)) (columns df) in
  columns out = front ++ rest
  /\ List.NoDup front
  /\ omap (fun h => alias_owner (Py.lower h)) front
     = List.filter (fun k => match resolved mapping k with Some _ => true | None => false end)
         PREFERRED_ORDER
  /\ (forall h, In h front -> In h (columns df))
  /\ sublist rest (columns df)
  /\ (forall c, In c rest <-> In c (columns df) /\ ~ In c front)
  /\ (List.NoDup (columns df) -> Permutation (columns out) (columns df)).
Proof.
  intros Hk H. cbv zeta.
  rewrite (preferred_explicit (autodetect_columns df)).
  rewrite (trailing_explicit (columns df) (preferred (autodetect_columns df))).
  assert (Hcols : columns out
                  = preferred (autodetect_columns df)
                    ++ trailing (columns df) (preferred (autodetect_columns df))).
  { destruct (cli_main_Ok L df a w out H) as [rs [r [_ [Es [-> _]]]]].
    revert Hk Es. generalize (autodetect_columns df). intros m Hk Es.
    rewrite (cli_masked_kept L df a m rs Hk) in Es.
    apply cli_sort_stage_columns in Es. cbn [columns] in Es.
    unfold reorder, select. cbn [columns]. rewrite Es. reflexivity. }
  split; [exact Hcols |].
  split; [apply preferred_NoDup |].
  split.
  { apply omap_owner_filter. intros k h Hin Hr. apply (resolved_owner df k h Hin Hr). }
  split; [apply preferred_In_columns |].
  split; [apply filter_sublist |].
  split; [intros c; apply trailing_In |].
  intros Hnd. rewrite Hcols. apply reorder_Permutation. exact Hnd.
Qed.

(** Headers Notes, Bio, Phone, City, Price come out as City, Price, Bio,
    Notes, Phone. *)
Lemma X18_output_column_order_witness :
  columns sample_notes = ["Notes"; "Bio"; "Phone"; "City"; "Price"]
  /\ exists out,
       Cli.main Sample.lib sample_notes Sample.no_args = ([], Ok out)
       /\ columns out = ["City"; "Price"; "Bio"; "Notes"; "Phone"]
       /\ rows out = [ [Str "Vancouver"; Num 100; Str "sports massage"; Str "late";
                        Str "555"] ]
       /\ Permutation (columns out) (columns sample_notes).
Proof.
  split; [reflexivity |].
  assert (E : Cli.main Sample.lib sample_notes Sample.no_args
              = ([], Ok {| columns := ["City"; "Price"; "Bio"; "Notes"; "Phone"];
                           rows := [ [Str "Vancouver"; Num 100; Str "sports massage";
                                      Str "late"; Str "555"] ] |})).
  { vm_compute. reflexivity. }
  eexists. split; [exact E |].
  pose proof (X18_output_column_order Sample.lib sample_notes Sample.no_args
                [] _ eq_refl E) as [_ [_ [_ [_ [_ [_ H7]]]]]].
  split; [reflexivity |]. split; [reflexivity |].
  apply H7. apply NoDup_ListNoDup. apply (bool_decide_unpack _). vm_compute. exact I.
Defined.
